(** * The HTTP client applet of src/http_client.c

    A shallow embedding of the request generator, the transfer function,
    the handle's life cycle and the applet's I/O handler, followed by the
    properties of the specification that were checked against them. *)

From Stdlib.Strings Require Import Byte Ascii.
From stdpp Require Import numbers list sorting gmap strings.

Local Open Scope Z_scope.
Local Open Scope nat_scope.

(** ** Strings with a null value: [struct ist] *)

(** An [ist] is a pointer and a length; [IST_NULL] is the null pointer. *)
Definition ist := option string.
Definition IST_NULL : ist := None.
Definition isttest (i : ist) : bool := bool_decide (is_Some i).

(** An [http_hdr] is a name and a value. *)
Record http_hdr := { hdr_n : ist; hdr_v : ist }.

#[global] Instance http_hdr_eq_dec : EqDecision http_hdr.
Proof. solve_decision. Defined.

(** ** Raw buffers: [struct buffer] holding bytes *)

Module Buf.

(** [b_size] is the capacity of the storage area, [b_bytes] the bytes
    stored, oldest first; [b_data] counts them. *)
Record buffer := { b_size : nat; b_bytes : list byte }.

Definition b_data (b : buffer) : nat := length (b_bytes b).
Definition b_room (b : buffer) : nat := b_size b - b_data b.
Definition b_full (b : buffer) : bool := bool_decide (b_room b = 0).

(** [__b_putblk]: append [blk] at the tail. The caller checks the room. *)
Definition b_putblk (b : buffer) (blk : list byte) : buffer :=
  {| b_size := b_size b; b_bytes := b_bytes b ++ blk |}.

(** Modelled from the spec: [b_xfer] of haproxy/buf.h, the raw byte
    transfer between buffers. At most [count] bytes leave the head of
    [src] and are added at the tail of [dst]; the number moved is
    returned. Whether [dst] has room is left to the caller. *)
Definition b_xfer (dst src : buffer) (count : nat) : nat * buffer * buffer :=
  let ret := Nat.min count (b_data src) in
  (ret,
   {| b_size := b_size dst; b_bytes := b_bytes dst ++ take ret (b_bytes src) |},
   {| b_size := b_size src; b_bytes := drop ret (b_bytes src) |}).

(** [b_free]: the storage area goes back to its pool. *)
Definition BUF_NULL : buffer := {| b_size := 0; b_bytes := [] |}.

Definition wf (b : buffer) : Prop := b_data b <= b_size b.

End Buf.
Export Buf.

(** ** Structured messages: [struct htx] *)

Inductive htx_blk_type :=
| HTX_BLK_REQ_SL | HTX_BLK_RES_SL | HTX_BLK_HDR | HTX_BLK_EOH
| HTX_BLK_DATA | HTX_BLK_EOT | HTX_BLK_TLR | HTX_BLK_UNUSED.

#[global] Instance htx_blk_type_eq_dec : EqDecision htx_blk_type.
Proof. solve_decision. Defined.

(** Flags of a start line and of a message, as haproxy/htx.h numbers
    them; the client only tests and sets them by name. *)
Definition HTX_SL_F_IS_RESP : Z := 0x1.
Definition HTX_SL_F_XFER_LEN : Z := 0x2.
Definition HTX_SL_F_VER_11 : Z := 0x20.
Definition HTX_SL_F_BODYLESS : Z := 0x40.
Definition HTX_SL_F_HAS_SCHM : Z := 0x80.
Definition HTX_SL_F_NORMALIZED_URI : Z := 0x800.
Definition HTX_FL_EOM : Z := 0x10.

(** A start line: its flags, the method or the status ([info]), and its
    three parts (method, target, version for a request; version, status,
    reason for a response). *)
Record htx_sl := {
  sl_flags : Z;
  sl_info : Z;
  sl_p1 : string;
  sl_p2 : string;
  sl_p3 : string;
}.

Inductive htx_blk :=
| BlkReqSl (sl : htx_sl)
| BlkResSl (sl : htx_sl)
| BlkHdr (n v : string)
| BlkEoh
| BlkData (v : list byte)
| BlkEot
| BlkTlr (n v : string)
| BlkUnused.

Definition htx_get_blk_type (blk : htx_blk) : htx_blk_type :=
  match blk with
  | BlkReqSl _ => HTX_BLK_REQ_SL
  | BlkResSl _ => HTX_BLK_RES_SL
  | BlkHdr _ _ => HTX_BLK_HDR
  | BlkEoh => HTX_BLK_EOH
  | BlkData _ => HTX_BLK_DATA
  | BlkEot => HTX_BLK_EOT
  | BlkTlr _ _ => HTX_BLK_TLR
  | BlkUnused => HTX_BLK_UNUSED
  end.

(** A message: the capacity of its storage, its blocks from head to tail,
    and its flags. *)
Record htx := { htx_size : nat; htx_blks : list htx_blk; htx_flags : Z }.

Definition htx_is_empty (h : htx) : bool := bool_decide (htx_blks h = []).
Definition htx_has (h : htx) (fl : Z) : bool := negb (Z.land (htx_flags h) fl =? 0)%Z.
Definition htx_with_blks (h : htx) (l : list htx_blk) : htx :=
  {| htx_size := htx_size h; htx_blks := l; htx_flags := htx_flags h |}.
Definition htx_or_flags (h : htx) (fl : Z) : htx :=
  {| htx_size := htx_size h; htx_blks := htx_blks h;
     htx_flags := Z.lor (htx_flags h) fl |}.

(** A [struct buffer] that carries a message: [hb_data] is what [b_data]
    reports for it, [hb_htx] what [htxbuf] returns ([None] for NULL).
    Removing a block changes the message, not [hb_data]. *)
Record hbuf := { hb_data : nat; hb_htx : option htx }.

Definition htx_from_buf (b : hbuf) : option htx := hb_htx b.
Definition htxbuf (b : hbuf) : option htx := hb_htx b.

(** [htx_to_buf]: an empty message leaves the buffer without data, any
    other one makes it count as full. *)
Definition htx_to_buf (h : htx) : hbuf :=
  {| hb_data := if htx_is_empty h then 0 else htx_size h; hb_htx := Some h |}.

(** Modelled from the spec: the append operations of the structured-block
    buffer (htx.c is absent). A block takes its payload and a descriptor
    of 8 bytes; an append that would exceed the capacity of the message
    fails and leaves it as it was. *)
Definition blk_payload (blk : htx_blk) : nat :=
  match blk with
  | BlkReqSl sl | BlkResSl sl =>
      String.length (sl_p1 sl) + String.length (sl_p2 sl) + String.length (sl_p3 sl)
  | BlkHdr n v | BlkTlr n v => String.length n + String.length v
  | BlkEoh | BlkEot => 1
  | BlkData v => length v
  | BlkUnused => 0
  end.

Definition htx_used (l : list htx_blk) : nat :=
  foldr (fun blk acc => 8 + blk_payload blk + acc) 0 l.

Definition htx_add_blk (h : htx) (blk : htx_blk) : option htx :=
  if decide (htx_used (htx_blks h) + 8 + blk_payload blk <= htx_size h)
  then Some (htx_with_blks h (htx_blks h ++ [blk]))
  else None.

Definition htx_add_stline (h : htx) (flags : Z) (p1 p2 p3 : string) : option htx :=
  htx_add_blk h (BlkReqSl {| sl_flags := flags; sl_info := 0;
                             sl_p1 := p1; sl_p2 := p2; sl_p3 := p3 |}).

Definition htx_add_header (h : htx) (n v : string) : option htx :=
  htx_add_blk h (BlkHdr n v).

(** [htx_add_all_headers]: every header of the list in order, then the
    end-of-headers block; the first append that fails stops it. *)
Fixpoint htx_add_all_headers (h : htx) (hdrs : list (string * string)) : option htx :=
  match hdrs with
  | [] => htx_add_blk h BlkEoh
  | (n, v) :: tl =>
      match htx_add_header h n v with
      | Some h' => htx_add_all_headers h' tl
      | None => None
      end
  end.

(** ** Methods and error codes *)

(** [enum http_meth_t], by value. [HTTP_METH_OTHER] is the last entry. *)
Definition HTTP_METH_OPTIONS : nat := 0.
Definition HTTP_METH_GET : nat := 1.
Definition HTTP_METH_HEAD : nat := 2.
Definition HTTP_METH_POST : nat := 3.
Definition HTTP_METH_PUT : nat := 4.
Definition HTTP_METH_DELETE : nat := 5.
Definition HTTP_METH_TRACE : nat := 6.
Definition HTTP_METH_CONNECT : nat := 7.
Definition HTTP_METH_OTHER : nat := 8.

(** The table [http_known_methods], indexed by method. *)
Definition http_known_methods : list string :=
  ["OPTIONS"; "GET"; "HEAD"; "POST"; "PUT"; "DELETE"; "TRACE"; "CONNECT"]%string.

Definition ERR_NONE : Z := 0x00.
Definition ERR_ABORT : Z := 0x04.
Definition ERR_ALERT : Z := 0x10.

(** ** The client handle: [struct httpclient] *)

(** A callback slot of [hc->ops] is either NULL or set; what the callback
    does is the caller's business, the model records that it was called. *)
Record httpclient_ops := {
  res_stline : bool;
  res_headers : bool;
  res_payload : bool;
  res_end : bool;
}.

(** [hc_res_hdrs] is NULL or an array; a cell of that array which was
    never assigned holds no determined value ([None]). [hc_appctx] tells
    whether [hc->appctx] is non-null. *)
Record httpclient := {
  hc_req_buf : hbuf;
  hc_req_url : string;
  hc_req_meth : nat;
  hc_res_status : Z;
  hc_res_vsn : ist;
  hc_res_reason : ist;
  hc_res_hdrs : option (list (option http_hdr));
  hc_res_buf : buffer;
  hc_ops : httpclient_ops;
  hc_appctx : bool;
  hc_caller : option nat;
}.

Definition hc_with_req_buf (hc : httpclient) (b : hbuf) : httpclient :=
  {| hc_req_buf := b; hc_req_url := hc_req_url hc; hc_req_meth := hc_req_meth hc;
     hc_res_status := hc_res_status hc; hc_res_vsn := hc_res_vsn hc;
     hc_res_reason := hc_res_reason hc; hc_res_hdrs := hc_res_hdrs hc;
     hc_res_buf := hc_res_buf hc; hc_ops := hc_ops hc;
     hc_appctx := hc_appctx hc; hc_caller := hc_caller hc |}.

Definition hc_with_res_buf (hc : httpclient) (b : buffer) : httpclient :=
  {| hc_req_buf := hc_req_buf hc; hc_req_url := hc_req_url hc;
     hc_req_meth := hc_req_meth hc;
     hc_res_status := hc_res_status hc; hc_res_vsn := hc_res_vsn hc;
     hc_res_reason := hc_res_reason hc; hc_res_hdrs := hc_res_hdrs hc;
     hc_res_buf := b; hc_ops := hc_ops hc;
     hc_appctx := hc_appctx hc; hc_caller := hc_caller hc |}.

Definition hc_with_stline (hc : httpclient) (status : Z) (vsn reason : ist) : httpclient :=
  {| hc_req_buf := hc_req_buf hc; hc_req_url := hc_req_url hc;
     hc_req_meth := hc_req_meth hc;
     hc_res_status := status; hc_res_vsn := vsn;
     hc_res_reason := reason; hc_res_hdrs := hc_res_hdrs hc;
     hc_res_buf := hc_res_buf hc; hc_ops := hc_ops hc;
     hc_appctx := hc_appctx hc; hc_caller := hc_caller hc |}.

Definition hc_with_hdrs (hc : httpclient) (hdrs : option (list (option http_hdr))) : httpclient :=
  {| hc_req_buf := hc_req_buf hc; hc_req_url := hc_req_url hc;
     hc_req_meth := hc_req_meth hc;
     hc_res_status := hc_res_status hc; hc_res_vsn := hc_res_vsn hc;
     hc_res_reason := hc_res_reason hc; hc_res_hdrs := hdrs;
     hc_res_buf := hc_res_buf hc; hc_ops := hc_ops hc;
     hc_appctx := hc_appctx hc; hc_caller := hc_caller hc |}.

(** ** The request generator *)

Module ReqGen.

Definition sl_set_meth (meth : nat) (blk : htx_blk) : htx_blk :=
  match blk with
  | BlkReqSl sl =>
      BlkReqSl {| sl_flags := sl_flags sl; sl_info := Z.of_nat meth;
                  sl_p1 := sl_p1 sl; sl_p2 := sl_p2 sl; sl_p3 := sl_p3 sl |}
  | _ => blk
  end.

Definition req_sl_flags : Z :=
  Z.lor (Z.lor (Z.lor (Z.lor HTX_SL_F_VER_11 HTX_SL_F_BODYLESS) HTX_SL_F_XFER_LEN)
               HTX_SL_F_NORMALIZED_URI) HTX_SL_F_HAS_SCHM.

Definition error_code : Z := Z.lor ERR_NONE (Z.lor ERR_ALERT ERR_ABORT).

(** On the error path the message keeps whatever was appended before the
    failure and [htx_to_buf] is not called; [htx_from_buf] has by then
    marked the buffer as full. *)
Definition dirty (hc : httpclient) (h : htx) : httpclient :=
  hc_with_req_buf hc {| hb_data := htx_size h; hb_htx := Some h |}.

(** [httpclient_req_gen]. [hdrs] is [None] for a NULL pointer, else the
    headers that precede the array's terminating entry.

    [http_update_host] is called here and defined in http_htx.c, which is
    not among the sources: it is a parameter, the function from the
    message it is given and the URL to the message it leaves, [None] when
    it returns 0. It is called once the start line is in the message and
    before any header is appended. *)
Definition httpclient_req_gen (http_update_host : htx -> string -> option htx)
    (hc : httpclient) (url : string) (meth : nat)
    (hdrs : option (list (string * string))) : Z * httpclient :=
  if decide (HTTP_METH_OTHER <= meth) then (error_code, hc) else
  let meth_ist := default ""%string (http_known_methods !! meth) in
  let vsn := "HTTP/1.1"%string in
  match htx_from_buf (hc_req_buf hc) with
  | None => (error_code, hc)
  | Some htx0 =>
    match htx_add_stline htx0 req_sl_flags meth_ist url vsn with
    | None => (error_code, dirty hc htx0)
    | Some htx1 =>
      (* sl->info.req.meth = meth, on the block just appended *)
      let htx2 := htx_with_blks htx1
                    (alter (sl_set_meth meth) (length (htx_blks htx0)) (htx_blks htx1)) in
      match http_update_host htx2 url with
      | None => (error_code, dirty hc htx2)
      | Some htx3 =>
        let added :=
          match hdrs with
          | Some l => htx_add_all_headers htx3 l
          | None => Some htx3
          end in
        match added with
        | None => (error_code, dirty hc htx3)
        | Some htx4 =>
            let htx5 := htx_or_flags htx4 HTX_FL_EOM in
            (0%Z, hc_with_req_buf hc (htx_to_buf htx5))
        end
      end
    end
  end.

End ReqGen.

(** ** The transfer function *)

(** [httpclient_res_xfer]: the count returned, the handle, the destination
    and whether [appctx_wakeup] was called. *)
Definition httpclient_res_xfer (hc : httpclient) (dst : buffer)
    : nat * httpclient * buffer * bool :=
  let '(ret, dst', src') := b_xfer dst (hc_res_buf hc) (Nat.min 1024 (b_data (hc_res_buf hc))) in
  let hc' := hc_with_res_buf hc src' in
  (ret, hc', dst', bool_decide (b_data (hc_res_buf hc') = 0) && hc_appctx hc').

(** ** Creating and destroying a handle *)

Module Lifecycle.

(** The memory a handle lives in: the handles allocated, by address, the
    number of buffers currently taken from the buffer pool, the size of
    such a buffer ([global.tune.bufsize]), and the outcome of the coming
    allocations, in order (none left: the allocation succeeds). *)
Record memory := {
  mem_handles : gmap nat httpclient;
  mem_buffers : nat;
  mem_bufsize : nat;
  mem_oracle : list bool;
}.

Definition next_alloc (m : memory) : bool * memory :=
  match mem_oracle m with
  | [] => (true, m)
  | ok :: tl =>
      (ok, {| mem_handles := mem_handles m; mem_buffers := mem_buffers m;
              mem_bufsize := mem_bufsize m; mem_oracle := tl |})
  end.

(** What [calloc] returns: every field zero, both buffers null. *)
Definition zeroed : httpclient :=
  {| hc_req_buf := {| hb_data := 0; hb_htx := None |};
     hc_req_url := ""; hc_req_meth := 0;
     hc_res_status := 0; hc_res_vsn := IST_NULL; hc_res_reason := IST_NULL;
     hc_res_hdrs := None; hc_res_buf := BUF_NULL;
     hc_ops := {| res_stline := false; res_headers := false;
                  res_payload := false; res_end := false |};
     hc_appctx := false; hc_caller := None |}.

(** A handle whose applet is running: [httpclient_start] has set
    [hc->appctx]. *)
Definition httpclient_applet_live (o : httpclient) : httpclient :=
  {| hc_req_buf := hc_req_buf o; hc_req_url := hc_req_url o;
     hc_req_meth := hc_req_meth o;
     hc_res_status := hc_res_status o; hc_res_vsn := hc_res_vsn o;
     hc_res_reason := hc_res_reason o; hc_res_hdrs := hc_res_hdrs o;
     hc_res_buf := hc_res_buf o; hc_ops := hc_ops o;
     hc_appctx := true; hc_caller := hc_caller o |}.

(** [b_free] releases a buffer that has a storage area. *)
Definition held (hc : httpclient) : nat :=
  match hb_htx (hc_req_buf hc) with Some _ => 1 | None => 0 end +
  (if decide (b_size (hc_res_buf hc) = 0) then 0 else 1).

(** [httpclient_destroy]; [None] is the null pointer. *)
Definition httpclient_destroy (hc : option nat) (m : memory) : memory :=
  match hc with
  | None => m
  | Some p =>
      match mem_handles m !! p with
      | None => m
      | Some o =>
          {| mem_handles := delete p (mem_handles m);
             mem_buffers := mem_buffers m - held o;
             mem_bufsize := mem_bufsize m;
             mem_oracle := mem_oracle m |}
      end
  end.

Definition store (p : nat) (o : httpclient) (taken : nat) (m : memory) : memory :=
  {| mem_handles := <[p := o]> (mem_handles m);
     mem_buffers := mem_buffers m + taken;
     mem_bufsize := mem_bufsize m;
     mem_oracle := mem_oracle m |}.

(** [httpclient_new]: the address of the new handle, or [None]. *)
Definition httpclient_new (caller : option nat) (meth : nat) (url : string)
    (m : memory) : option nat * memory :=
  let (ok_hc, m1) := next_alloc m in
  if negb ok_hc then (None, httpclient_destroy None m1) else
  let p := fresh (dom (mem_handles m1)) in
  let m2 := store p zeroed 0 m1 in
  let (ok_req, m3) := next_alloc m2 in
  if negb ok_req then (None, httpclient_destroy (Some p) m3) else
  let fresh_htx := {| htx_size := mem_bufsize m; htx_blks := []; htx_flags := 0 |} in
  let o1 := hc_with_req_buf zeroed {| hb_data := 0; hb_htx := Some fresh_htx |} in
  let m4 := store p o1 1 m3 in
  let (ok_res, m5) := next_alloc m4 in
  if negb ok_res then (None, httpclient_destroy (Some p) m5) else
  let o2 := hc_with_res_buf o1 {| b_size := mem_bufsize m; b_bytes := [] |} in
  let o3 :=
    {| hc_req_buf := hc_req_buf o2; hc_req_url := url; hc_req_meth := meth;
       hc_res_status := hc_res_status o2; hc_res_vsn := hc_res_vsn o2;
       hc_res_reason := hc_res_reason o2; hc_res_hdrs := hc_res_hdrs o2;
       hc_res_buf := hc_res_buf o2; hc_ops := hc_ops o2;
       hc_appctx := hc_appctx o2; hc_caller := caller |} in
  (Some p, store p o3 1 m5).

End Lifecycle.

(** ** The applet *)

Inductive httpclient_state :=
| HTTPCLIENT_S_REQ
| HTTPCLIENT_S_RES_STLINE
| HTTPCLIENT_S_RES_HDR
| HTTPCLIENT_S_RES_BODY
| HTTPCLIENT_S_RES_END.

#[global] Instance httpclient_state_eq_dec : EqDecision httpclient_state.
Proof. solve_decision. Defined.

(** Channel flags tested by the handler, as haproxy/channel.h numbers
    them. *)
Definition CF_SHUTR : Z := 0x20.
Definition CF_SHUTR_NOW : Z := 0x40.
Definition CF_SHUTW : Z := 0x2000.
Definition CF_SHUTW_NOW : Z := 0x4000.

Record channel := { chn_flags : Z; chn_buf : hbuf; chn_input : nat }.

(** What the handler asks of its stream interface: [si_rx_room_blk] and
    [si_rx_chan_rdy] set and clear a blocking flag, [si_shutw] and
    [si_shutr] close a direction. *)
Record stream_interface := {
  si_rxblk_room : bool;
  si_rxblk_chan : bool;
  si_shutw_done : bool;
  si_shutr_done : bool;
}.

Inductive callback := CB_res_stline | CB_res_headers | CB_res_payload | CB_res_end.

#[global] Instance callback_eq_dec : EqDecision callback.
Proof. solve_decision. Defined.

(** The applet context with what the handler reaches from it: its state
    [st0], the handle, the two channels of the stream and the stream
    interface. [called] lists the callbacks invoked so far, oldest
    first; [allocs] gives the outcome of the coming allocations. *)
Record appctx := {
  st0 : httpclient_state;
  hc : httpclient;
  req : channel;
  res : channel;
  si : stream_interface;
  called : list callback;
  allocs : list bool;
}.

Definition with_st0 (a : appctx) (s : httpclient_state) : appctx :=
  {| st0 := s; hc := hc a; req := req a; res := res a; si := si a;
     called := called a; allocs := allocs a |}.
Definition with_hc (a : appctx) (h : httpclient) : appctx :=
  {| st0 := st0 a; hc := h; req := req a; res := res a; si := si a;
     called := called a; allocs := allocs a |}.
Definition with_req (a : appctx) (c : channel) : appctx :=
  {| st0 := st0 a; hc := hc a; req := c; res := res a; si := si a;
     called := called a; allocs := allocs a |}.
Definition with_res (a : appctx) (c : channel) : appctx :=
  {| st0 := st0 a; hc := hc a; req := req a; res := c; si := si a;
     called := called a; allocs := allocs a |}.
Definition with_si (a : appctx) (s : stream_interface) : appctx :=
  {| st0 := st0 a; hc := hc a; req := req a; res := res a; si := s;
     called := called a; allocs := allocs a |}.
Definition with_called (a : appctx) (l : list callback) : appctx :=
  {| st0 := st0 a; hc := hc a; req := req a; res := res a; si := si a;
     called := l; allocs := allocs a |}.
Definition with_allocs (a : appctx) (l : list bool) : appctx :=
  {| st0 := st0 a; hc := hc a; req := req a; res := res a; si := si a;
     called := called a; allocs := l |}.

(** The response channel after blocks were removed from its message. *)
Definition res_with_blks (a : appctx) (h : htx) (l : list htx_blk) : appctx :=
  with_res a {| chn_flags := chn_flags (res a);
                chn_buf := {| hb_data := hb_data (chn_buf (res a));
                              hb_htx := Some (htx_with_blks h l) |};
                chn_input := chn_input (res a) |}.

(** [if (hc->ops.cb) hc->ops.cb(hc)] *)
Definition call (registered : bool) (cb : callback) (a : appctx) : appctx :=
  if registered then with_called a (called a ++ [cb]) else a.

Definition next_alloc (l : list bool) : bool * list bool :=
  match l with
  | [] => (true, [])
  | ok :: tl => (ok, tl)
  end.

(** [istdup]: a copy in fresh memory, [IST_NULL] when there is none. *)
Definition istdup (s : string) (l : list bool) : ist * list bool :=
  let (ok, l') := next_alloc l in ((if ok then Some s else IST_NULL), l').

(** *** The three ways out of the handler *)

Inductive exit_label := Exit_process_data | Exit_more | Exit_end.

#[global] Instance exit_label_eq_dec : EqDecision exit_label.
Proof. solve_decision. Defined.

Definition si_rx_chan_rdy (s : stream_interface) : stream_interface :=
  {| si_rxblk_room := si_rxblk_room s; si_rxblk_chan := false;
     si_shutw_done := si_shutw_done s; si_shutr_done := si_shutr_done s |}.
Definition si_rx_room_blk (s : stream_interface) : stream_interface :=
  {| si_rxblk_room := true; si_rxblk_chan := si_rxblk_chan s;
     si_shutw_done := si_shutw_done s; si_shutr_done := si_shutr_done s |}.
Definition si_shutw (s : stream_interface) : stream_interface :=
  {| si_rxblk_room := si_rxblk_room s; si_rxblk_chan := si_rxblk_chan s;
     si_shutw_done := true; si_shutr_done := si_shutr_done s |}.
Definition si_shutr (s : stream_interface) : stream_interface :=
  {| si_rxblk_room := si_rxblk_room s; si_rxblk_chan := si_rxblk_chan s;
     si_shutw_done := si_shutw_done s; si_shutr_done := true |}.

Definition flagged (flags mask : Z) : bool := negb (Z.land flags mask =? 0)%Z.

(** The test made under [more:] on the two channels. *)
Definition shutdown_seen (a : appctx) : bool :=
  flagged (chn_flags (req a)) (Z.lor CF_SHUTR CF_SHUTR_NOW) ||
  flagged (chn_flags (res a)) (Z.lor CF_SHUTW CF_SHUTW_NOW).

(** [end:] *)
Definition at_end (a : appctx) : exit_label * appctx :=
  let a1 := call (res_end (hc_ops (hc a))) CB_res_end a in
  (Exit_end, with_si a1 (si_shutr (si_shutw (si a1)))).

(** [process_data:] *)
Definition at_process_data (a : appctx) : exit_label * appctx :=
  (Exit_process_data, with_si a (si_rx_chan_rdy (si a))).

(** [more:] *)
Definition at_more (a : appctx) : exit_label * appctx :=
  let a1 := with_si a (si_rx_room_blk (si a)) in
  if decide (st0 a1 = HTTPCLIENT_S_RES_END) then at_end a1
  else if shutdown_seen a1 then at_end a1
  else (Exit_more, a1).

(** *** The loops over the blocks of the response *)

(** How the loop of the headers state was left: by [break] on the
    end-of-headers block, by running out of blocks, or by [goto end]. *)
Inductive hdr_exit := Hdr_eoh | Hdr_exhausted | Hdr_goto_end.

(** [hs_left] is the message after the loop, [hs_hdrs] the cells of the
    local array [hdrs] that were assigned, by index, [hs_num] the final
    [hdr_num]. The array is declared with [global.tune.max_http_hdr]
    cells; the loop never reads that number. *)
Record hdr_scan := {
  hs_exit : hdr_exit;
  hs_left : list htx_blk;
  hs_hdrs : gmap nat http_hdr;
  hs_num : nat;
  hs_allocs : list bool;
}.

Definition hs_keep (blk : htx_blk) (r : hdr_scan) : hdr_scan :=
  {| hs_exit := hs_exit r; hs_left := blk :: hs_left r; hs_hdrs := hs_hdrs r;
     hs_num := hs_num r; hs_allocs := hs_allocs r |}.

Fixpoint hdr_loop (blks : list htx_blk) (hdrs : gmap nat http_hdr) (hdr_num : nat)
    (l : list bool) : hdr_scan :=
  match blks with
  | [] => {| hs_exit := Hdr_exhausted; hs_left := []; hs_hdrs := hdrs;
             hs_num := hdr_num; hs_allocs := l |}
  | blk :: tl =>
      match blk with
      | BlkEoh =>
          {| hs_exit := Hdr_eoh; hs_left := tl;
             hs_hdrs := <[hdr_num := {| hdr_n := IST_NULL; hdr_v := IST_NULL |}]> hdrs;
             hs_num := hdr_num; hs_allocs := l |}
      | BlkHdr n v =>
          let (n', l1) := istdup n l in
          let (v', l2) := istdup v l1 in
          let hdrs' := <[hdr_num := {| hdr_n := n'; hdr_v := v' |}]> hdrs in
          if negb (isttest v') || negb (isttest n') then
            {| hs_exit := Hdr_goto_end; hs_left := blk :: tl; hs_hdrs := hdrs';
               hs_num := hdr_num; hs_allocs := l2 |}
          else hdr_loop tl hdrs' (S hdr_num) l2
      | _ => hs_keep blk (hdr_loop tl hdrs hdr_num l)
      end
  end.

(** [memcpy(hc->res.hdrs, hdrs, sizeof(struct http_hdr) * n)] *)
Definition copy_hdrs (hdrs : gmap nat http_hdr) (n : nat) : list (option http_hdr) :=
  map (fun i => hdrs !! i) (seq 0 n).

(** The loop of the body state. [true] when it was left by
    [goto process_data]; the blocks returned are those still in the
    message. *)
Fixpoint body_loop (blks : list htx_blk) (a : appctx) : bool * list htx_blk * appctx :=
  match blks with
  | [] => (false, [], a)
  | blk :: tl =>
      match blk with
      | BlkData v =>
          if decide (b_room (hc_res_buf (hc a)) < length v) then (true, blks, a)
          else
            let a1 := with_hc a (hc_with_res_buf (hc a) (b_putblk (hc_res_buf (hc a)) v)) in
            body_loop tl (call (res_payload (hc_ops (hc a1))) CB_res_payload a1)
      | _ => body_loop tl a
      end
  end.

(** *** The states

    The handler is [while (1) switch (appctx->st0)]. A case that ends in
    [break] has just assigned [st0], and the next turn of the loop runs
    the case of that state: below, such a case calls the next one. The
    states only move forward, so the calls nest four deep at most. *)

Definition eom_and_empty (h : htx) : bool :=
  htx_is_empty h && htx_has h HTX_FL_EOM.

Definition case_RES_END (a : appctx) : exit_label * appctx := at_end a.

Definition case_RES_BODY (a : appctx) : exit_label * appctx :=
  match htxbuf (chn_buf (res a)) with
  | None => at_more a
  | Some htx =>
      if htx_is_empty htx then at_more a
      else if b_full (hc_res_buf (hc a)) then at_process_data a
      else
        let '(stop, kept, a1) := body_loop (htx_blks htx) a in
        let a2 := res_with_blks a1 htx kept in
        if stop then at_process_data a2
        else if negb (htx_has htx HTX_FL_EOM) then at_more a2
        else case_RES_END (with_st0 a2 HTTPCLIENT_S_RES_END)
  end.

(** After the headers or the status line: no block left and the message
    complete means no body. *)
Definition body_or_end (h : htx) (a : appctx) : exit_label * appctx :=
  if eom_and_empty h
  then case_RES_END (with_st0 a HTTPCLIENT_S_RES_END)
  else case_RES_BODY (with_st0 a HTTPCLIENT_S_RES_BODY).

Definition case_RES_HDR (a : appctx) : exit_label * appctx :=
  if decide (hb_data (chn_buf (res a)) = 0) then at_more a else
  match htxbuf (chn_buf (res a)) with
  | None => at_more a
  | Some htx =>
      let r := hdr_loop (htx_blks htx) ∅ 0 (allocs a) in
      let a1 := with_allocs (res_with_blks a htx (hs_left r)) (hs_allocs r) in
      let htx' := htx_with_blks htx (hs_left r) in
      match hs_exit r with
      | Hdr_goto_end => at_end a1
      | _ =>
          if decide (hs_num r = 0) then body_or_end htx' a1
          else
            let (ok, l) := next_alloc (allocs a1) in
            let a2 := with_allocs a1 l in
            if negb ok then at_end a2
            else
              let a3 := with_hc a2 (hc_with_hdrs (hc a2)
                                      (Some (copy_hdrs (hs_hdrs r) (hs_num r + 1)))) in
              body_or_end htx' (call (res_headers (hc_ops (hc a3))) CB_res_headers a3)
      end
  end.

Definition case_RES_STLINE (a : appctx) : exit_label * appctx :=
  if decide (hb_data (chn_buf (res a)) = 0) then at_more a else
  match htxbuf (chn_buf (res a)) with
  | None => at_more a
  | Some htx =>
      match htx_blks htx with
      | BlkResSl sl :: tl =>
          if negb (flagged (sl_flags sl) HTX_SL_F_IS_RESP) then at_more a
          else
            let (vsn, l1) := istdup (sl_p1 sl) (allocs a) in
            let (reason, l2) := istdup (sl_p3 sl) l1 in
            let a1 := with_allocs (with_hc a (hc_with_stline (hc a) (sl_info sl) vsn reason)) l2 in
            let a2 := res_with_blks a1 htx tl in
            let a3 := call (res_stline (hc_ops (hc a2))) CB_res_stline a2 in
            if eom_and_empty (htx_with_blks htx tl)
            then case_RES_END (with_st0 a3 HTTPCLIENT_S_RES_END)
            else case_RES_HDR (with_st0 a3 HTTPCLIENT_S_RES_HDR)
      | _ => at_more a
      end
  end.

(** The request leaves [hc->req.buf] for the buffer of the request
    channel and is counted as input there. *)
Definition case_REQ (a : appctx) : exit_label * appctx :=
  let sent := hc_req_buf (hc a) in
  let emptied := {| hb_data := 0;
                    hb_htx := (fun h => htx_with_blks h []) <$> hb_htx sent |} in
  let a1 := with_hc a (hc_with_req_buf (hc a) emptied) in
  let a2 := with_req a1 {| chn_flags := chn_flags (req a1); chn_buf := sent;
                           chn_input := chn_input (req a1) + hb_data sent |} in
  at_more (with_st0 a2 HTTPCLIENT_S_RES_STLINE).

Definition httpclient_applet_io_handler (a : appctx) : exit_label * appctx :=
  match st0 a with
  | HTTPCLIENT_S_REQ => case_REQ a
  | HTTPCLIENT_S_RES_STLINE => case_RES_STLINE a
  | HTTPCLIENT_S_RES_HDR => case_RES_HDR a
  | HTTPCLIENT_S_RES_BODY => case_RES_BODY a
  | HTTPCLIENT_S_RES_END => case_RES_END a
  end.

(** [httpclient_applet_release] *)
Definition httpclient_applet_release (a : appctx) : appctx :=
  with_hc a
    {| hc_req_buf := hc_req_buf (hc a); hc_req_url := hc_req_url (hc a);
       hc_req_meth := hc_req_meth (hc a);
       hc_res_status := hc_res_status (hc a); hc_res_vsn := hc_res_vsn (hc a);
       hc_res_reason := hc_res_reason (hc a); hc_res_hdrs := hc_res_hdrs (hc a);
       hc_res_buf := hc_res_buf (hc a); hc_ops := hc_ops (hc a);
       hc_appctx := false; hc_caller := hc_caller (hc a) |}.

(** *** The handler in its surroundings

    Between two runs of the handler the transport may add blocks to the
    response channel and mark the message complete, either channel may be
    flagged, and the caller may drain the raw response buffer. *)
Inductive action :=
| Wake
| Recv (blks : list htx_blk) (eom : bool)
| Flag (on_req on_res : Z)
| Drain (dst : buffer).

Definition recv (blks : list htx_blk) (eom : bool) (c : channel) : channel :=
  match hb_htx (chn_buf c) with
  | None => c
  | Some h =>
      let h1 := htx_with_blks h (htx_blks h ++ blks) in
      let h2 := if eom then htx_or_flags h1 HTX_FL_EOM else h1 in
      {| chn_flags := chn_flags c;
         chn_buf := {| hb_data := if htx_is_empty h2 then 0 else htx_size h2;
                       hb_htx := Some h2 |};
         chn_input := chn_input c |}
  end.

Definition add_flags (fl : Z) (c : channel) : channel :=
  {| chn_flags := Z.lor (chn_flags c) fl; chn_buf := chn_buf c;
     chn_input := chn_input c |}.

Definition act (x : action) (a : appctx) : appctx :=
  match x with
  | Wake => snd (httpclient_applet_io_handler a)
  | Recv blks eom => with_res a (recv blks eom (res a))
  | Flag on_req on_res =>
      with_res (with_req a (add_flags on_req (req a))) (add_flags on_res (res a))
  | Drain dst => with_hc a (httpclient_res_xfer (hc a) dst).1.1.2
  end.

Definition run (l : list action) (a : appctx) : appctx := foldl (fun s x => act x s) a l.

(** ** Memory pools (memory.c)

    [create_pool], [pool_refill_alloc], [pool_flush2] and [pool_gc2] work
    on the global list [pools]. A pool is named by its
    position in that list. The counters are [unsigned int]: they are kept
    in [Z] and wrap at [2^32]. *)

Module Pool.

Definition u32 (x : Z) : Z := (x mod 2 ^ 32)%Z.

Definition MEM_F_SHARED : Z := 0x1.

(** [struct pool_head]. The free list is threaded through the free
    chunks; it is kept as the list of their addresses, first one first. *)
Record pool_head := {
  ph_free_list : list nat;
  ph_used : Z;
  ph_allocated : Z;
  ph_limit : Z;
  ph_minavail : Z;
  ph_size : Z;
  ph_flags : Z;
  ph_users : Z;
  ph_name : option string;
}.

(** [size = (size + align - 1) & -align] with [align = 16]. *)
Definition round_size (size : Z) : Z :=
  Z.land (u32 (size + 16 - 1)) (u32 (- 16)).

(** Where [list_for_each_entry] leaves [pool] and [start]: on an entry
    to share, on the entry before which to insert, or on the head of the
    list for lack of either. *)
Inductive place := Share (i : nat) | Insert_before (i : nat) | Insert_last.

Fixpoint find_place (size flags : Z) (l : list pool_head) (i : nat) : place :=
  match l with
  | [] => Insert_last
  | entry :: tl =>
      if (ph_size entry =? size)%Z then
        if negb (Z.land (Z.land flags (ph_flags entry)) MEM_F_SHARED =? 0)%Z
        then Share i
        else find_place size flags tl (S i)
      else if (size <? ph_size entry)%Z then Insert_before i
      else find_place size flags tl (S i)
  end.

(** What [CALLOC] returns, with its size and flags set; [ph_name] is the
    name given, which [strlcpy2] cuts to the size of the field. *)
Definition fresh_pool (name : option string) (size flags : Z) : pool_head :=
  {| ph_free_list := []; ph_used := 0; ph_allocated := 0; ph_limit := 0;
     ph_minavail := 0; ph_size := size; ph_flags := flags; ph_users := 0;
     ph_name := name |}.

Definition add_user (p : pool_head) : pool_head :=
  {| ph_free_list := ph_free_list p; ph_used := ph_used p;
     ph_allocated := ph_allocated p; ph_limit := ph_limit p;
     ph_minavail := ph_minavail p; ph_size := ph_size p;
     ph_flags := ph_flags p; ph_users := u32 (ph_users p + 1);
     ph_name := ph_name p |}.

(** [create_pool]: the position of the pool returned ([None] for NULL)
    and the list afterwards. [calloc_ok] tells whether [CALLOC] finds
    memory, should it be called. *)
Definition create_pool (name : option string) (size flags : Z) (calloc_ok : bool)
    (pools : list pool_head) : option nat * list pool_head :=
  let size := round_size size in
  match find_place size flags pools 0 with
  | Share i => (Some i, alter add_user i pools)
  | Insert_before i =>
      if calloc_ok
      then (Some i, take i pools ++ add_user (fresh_pool name size flags) :: drop i pools)
      else (None, pools)
  | Insert_last =>
      if calloc_ok
      then (Some (length pools), pools ++ [add_user (fresh_pool name size flags)])
      else (None, pools)
  end.

Definition with_counts (p : pool_head) (free : list nat) (allocated used : Z)
    : pool_head :=
  {| ph_free_list := free; ph_used := used; ph_allocated := allocated;
     ph_limit := ph_limit p; ph_minavail := ph_minavail p; ph_size := ph_size p;
     ph_flags := ph_flags p; ph_users := ph_users p; ph_name := ph_name p |}.

(** The loop of [pool_flush2]: every chunk of the free list is freed and
    counted out. The chunks freed are returned, in order. *)
Fixpoint flush_loop (next : list nat) (allocated : Z) : list nat * Z :=
  match next with
  | [] => ([], allocated)
  | temp :: next' =>
      let (freed, allocated') := flush_loop next' (u32 (allocated - 1)) in
      (temp :: freed, allocated')
  end.

Definition pool_flush2 (p : pool_head) : list nat * pool_head :=
  let (freed, allocated) := flush_loop (ph_free_list p) (ph_allocated p) in
  (freed, with_counts p [] allocated (ph_used p)).

(** The inner loop of [pool_gc2]: chunks are freed as long as more are
    allocated than [minavail] and than are in use. *)
Fixpoint gc_loop (next : list nat) (allocated minavail used : Z)
    : list nat * list nat * Z :=
  match next with
  | [] => ([], [], allocated)
  | temp :: next' =>
      if (minavail <? allocated)%Z && (used <? allocated)%Z then
        let '(freed, kept, allocated') :=
          gc_loop next' (u32 (allocated - 1)) minavail used in
        (temp :: freed, kept, allocated')
      else ([], next, allocated)
  end.

Definition gc_entry (p : pool_head) : list nat * pool_head :=
  let '(freed, kept, allocated) :=
    gc_loop (ph_free_list p) (ph_allocated p) (ph_minavail p) (ph_used p) in
  (freed, with_counts p kept allocated (ph_used p)).

(** [pool_gc2]: the chunks freed and the pools afterwards. *)
Fixpoint pool_gc2 (pools : list pool_head) : list nat * list pool_head :=
  match pools with
  | [] => ([], [])
  | entry :: tl =>
      let (freed, entry') := gc_entry entry in
      let (freed', tl') := pool_gc2 tl in
      (freed ++ freed', entry' :: tl')
  end.

Definition pool_destroy2 (p : pool_head) : list nat := (pool_flush2 p).1.

(** [pool_refill_alloc] on the pool at position [i]. [malloc1] and
    [malloc2] are what the first and the second [MALLOC] return, should
    they be called. The result is the chunk returned, the chunks the
    garbage collector freed, and the pools afterwards. *)
Definition pool_refill_alloc (i : nat) (malloc1 malloc2 : option nat)
    (pools : list pool_head) : option nat * list nat * list pool_head :=
  match pools !! i with
  | None => (None, [], pools)
  | Some pool =>
      if negb (ph_limit pool =? 0)%Z && (ph_limit pool <=? ph_allocated pool)%Z
      then (None, [], pools)
      else
        let count (l : list pool_head) :=
          alter (fun p => with_counts p (ph_free_list p)
                            (u32 (ph_allocated p + 1)) (u32 (ph_used p + 1))) i l in
        match malloc1 with
        | Some ret => (Some ret, [], count pools)
        | None =>
            let (freed, pools') := pool_gc2 pools in
            match malloc2 with
            | Some ret => (Some ret, freed, count pools')
            | None => (None, freed, pools')
            end
        end
  end.

(** The invariants the pool code relies on: counters within 32 bits, and
    every chunk allocated either in use or on the free list. *)
Definition in_range (x : Z) : Prop := (0 <= x < 2 ^ 32)%Z.

Definition balanced (p : pool_head) : Prop :=
  in_range (ph_allocated p) /\ in_range (ph_used p) /\
  ph_allocated p = (ph_used p + Z.of_nat (length (ph_free_list p)))%Z.

Definition smaller (p q : pool_head) : Prop := (ph_size p <= ph_size q)%Z.

Definition sorted_by_size (pools : list pool_head) : Prop :=
  StronglySorted smaller pools.

(** A caller asking with [flags] may share the pool [p]. *)
Definition shareable (flags : Z) (p : pool_head) : Prop :=
  Z.land (Z.land flags (ph_flags p)) MEM_F_SHARED <> 0%Z.

End Pool.

(** ** The client on the command line (the [hc_cli] functions)

    The four callbacks set a flag in [appctx->ctx.cli.i0] and wake the
    command-line applet; its I/O handler serves one flag per call. The
    text formatted into the trash chunk is given to the model, which
    follows where that text goes. *)

Module Cli.

Definition HC_CLI_F_RES_STLINE : Z := 0x01.
Definition HC_CLI_F_RES_HDR : Z := 0x02.
Definition HC_CLI_F_RES_BODY : Z := 0x04.
Definition HC_CLI_F_RES_END : Z := 0x08.

Inductive item := Put_stline | Put_headers.

(** The command-line applet: its flags [i0], the handle [p0], the
    buffer and the input count of the channel it writes to, its stream
    interface, what it has put to the channel, and how often it and the
    client applet were woken. [ic_input] counts what the handler adds
    with [channel_add_input]. *)
Record cli_appctx := {
  i0 : Z;
  p0 : httpclient;
  ic_buf : buffer;
  ic_input : nat;
  cli_si : stream_interface;
  puts : list item;
  wakeups : nat;
  hc_wakeups : nat;
}.

Definition with_i0 (c : cli_appctx) (v : Z) : cli_appctx :=
  {| i0 := v; p0 := p0 c; ic_buf := ic_buf c; ic_input := ic_input c;
     cli_si := cli_si c; puts := puts c; wakeups := wakeups c;
     hc_wakeups := hc_wakeups c |}.

Definition with_cli_si (c : cli_appctx) (s : stream_interface) : cli_appctx :=
  {| i0 := i0 c; p0 := p0 c; ic_buf := ic_buf c; ic_input := ic_input c;
     cli_si := s; puts := puts c; wakeups := wakeups c;
     hc_wakeups := hc_wakeups c |}.

(** The body of the four callbacks: [caller] is [hc->caller], [None] when
    it is null. *)
Definition notify (flag : Z) (caller : option cli_appctx) : option cli_appctx :=
  match caller with
  | None => None
  | Some c =>
      Some {| i0 := Z.lor (i0 c) flag; p0 := p0 c; ic_buf := ic_buf c;
              ic_input := ic_input c; cli_si := cli_si c; puts := puts c;
              wakeups := S (wakeups c); hc_wakeups := hc_wakeups c |}
  end.

Definition hc_cli_res_stline_cb := notify HC_CLI_F_RES_STLINE.
Definition hc_cli_res_headers_cb := notify HC_CLI_F_RES_HDR.
Definition hc_cli_res_body_cb := notify HC_CLI_F_RES_BODY.
Definition hc_cli_res_end_cb := notify HC_CLI_F_RES_END.

Definition has (v flag : Z) : bool := negb (Z.land v flag =? 0)%Z.
Definition clear (v flag : Z) : Z := Z.land v (Z.lnot flag).

(** [ci_putchk] with what it returns: a negative value when the chunk
    was not taken, of which -1 stands for a lack of room and makes the
    handler call [si_rx_room_blk]; otherwise the text of the chunk is in
    the buffer of the channel. *)
Definition put (what : item) (text : list byte) (put_ret : Z) (c : cli_appctx)
    : cli_appctx :=
  if (0 <=? put_ret)%Z
  then {| i0 := i0 c; p0 := p0 c;
          ic_buf := b_putblk (ic_buf c) text;
          ic_input := ic_input c; cli_si := cli_si c;
          puts := puts c ++ [what]; wakeups := wakeups c;
          hc_wakeups := hc_wakeups c |}
  else if (put_ret =? -1)%Z then with_cli_si c (si_rx_room_blk (cli_si c))
  else c.

(** [out:] *)
Definition at_out (c : cli_appctx) : cli_appctx :=
  if negb (i0 c =? 0)%Z then with_cli_si c (si_rx_room_blk (cli_si c)) else c.

(** [hc_cli_io_handler]. [trash_ok] tells whether a trash chunk could be
    allocated, [text] is what was formatted into it ([None] when the
    headers could not be formatted), [put_ret] what [ci_putchk] returns.
    The handler itself always returns 0. *)
Definition hc_cli_io_handler (trash_ok : bool) (text : option (list byte))
    (put_ret : Z) (c : cli_appctx) : cli_appctx :=
  if negb trash_ok then at_out c
  else if has (i0 c) HC_CLI_F_RES_STLINE then
    let c1 := put Put_stline (default [] text) put_ret c in
    at_out (with_i0 c1 (clear (i0 c1) HC_CLI_F_RES_STLINE))
  else if has (i0 c) HC_CLI_F_RES_HDR then
    match text with
    | None => at_out c
    | Some t =>
        let c1 := put Put_headers t put_ret c in
        at_out (with_i0 c1 (clear (i0 c1) HC_CLI_F_RES_HDR))
    end
  else if has (i0 c) HC_CLI_F_RES_BODY then
    let '(ret, hc', dst', woken) := httpclient_res_xfer (p0 c) (ic_buf c) in
    let c1 := {| i0 := i0 c; p0 := hc'; ic_buf := dst';
                 ic_input := ic_input c + ret; cli_si := cli_si c;
                 puts := puts c; wakeups := wakeups c;
                 hc_wakeups := hc_wakeups c + (if woken then 1 else 0) |} in
    at_out (if decide (b_data (hc_res_buf hc') = 0)
            then with_i0 c1 (clear (i0 c1) HC_CLI_F_RES_BODY)
            else c1)
  else if (i0 c =? HC_CLI_F_RES_END)%Z then
    let c1 := with_cli_si c (si_shutr (si_shutw (cli_si c))) in
    at_out (with_i0 c1 (clear (i0 c1) HC_CLI_F_RES_END))
  else at_out c.

(** Successive calls of the handler, each with what the trash chunk,
    the formatting and [ci_putchk] give it. *)
Fixpoint run (calls : list (bool * option (list byte) * Z)) (c : cli_appctx)
    : cli_appctx :=
  match calls with
  | [] => c
  | (trash_ok, text, put_ret) :: tl => run tl (hc_cli_io_handler trash_ok text put_ret c)
  end.

(** The flags the callbacks can set. *)
Definition flags : list Z :=
  [HC_CLI_F_RES_STLINE; HC_CLI_F_RES_HDR; HC_CLI_F_RES_BODY; HC_CLI_F_RES_END].

End Cli.

(** ** Notions used to state the properties *)

(** The body bytes still in the response channel: the payloads of its
    data blocks, in order. *)
Definition blk_data (blk : htx_blk) : list byte :=
  match blk with
  | BlkData v => v
  | _ => []
  end.

Definition pending (l : list htx_blk) : list byte := concat (map blk_data l).

Definition pending_res (a : appctx) : list byte :=
  match hb_htx (chn_buf (res a)) with
  | Some h => pending (htx_blks h)
  | None => []
  end.

(** The body bytes the client holds or is still to copy. *)
Definition body_bytes (a : appctx) : list byte :=
  b_bytes (hc_res_buf (hc a)) ++ pending_res a.

(** The body state cannot go on: the raw buffer is full, or the data
    block at the head of the message is larger than its room. *)
Definition blocked (a : appctx) : Prop :=
  st0 a = HTTPCLIENT_S_RES_BODY /\
  exists h, hb_htx (chn_buf (res a)) = Some h /\ htx_blks h <> [] /\
    (b_room (hc_res_buf (hc a)) = 0 \/
     exists v tl, htx_blks h = BlkData v :: tl /\
                  b_room (hc_res_buf (hc a)) < length v).

(** What the cases of the handler may change before one of the three
    labels is reached. *)
Record advances (a a' : appctx) : Prop := {
  adv_req_flags : chn_flags (req a') = chn_flags (req a);
  adv_res_flags : chn_flags (res a') = chn_flags (res a);
  adv_ops : hc_ops (hc a') = hc_ops (hc a);
  adv_si : si a' = si a;
  adv_size : b_size (hc_res_buf (hc a')) = b_size (hc_res_buf (hc a));
  adv_wf : wf (hc_res_buf (hc a)) -> wf (hc_res_buf (hc a'));
  adv_bytes : body_bytes a' = body_bytes a;
  adv_called : exists q, called a' = called a ++ q /\ CB_res_end ∉ q;
}.

(** A run of the handler is some such changes followed by one label. *)
Definition leaves (a : appctx) (r : exit_label * appctx) : Prop :=
  exists m, advances a m /\
    (r = at_end m \/ r = at_more m \/ (r = at_process_data m /\ blocked m)).

(** The callbacks of one run: some calls other than the end callback,
    then at most one end callback. *)
Definition one_run_of_calls (before after : list callback) (ended : bool) : Prop :=
  exists q, (CB_res_end ∉ q) /\
    after = before ++ q ++ (if ended then [CB_res_end] else []).

(** ** A sample exchange *)

Module Sample.

Definition every_callback : httpclient_ops :=
  {| res_stline := true; res_headers := true;
     res_payload := true; res_end := true |}.

Definition empty_htx (size : nat) : hbuf :=
  {| hb_data := 0;
     hb_htx := Some {| htx_size := size; htx_blks := []; htx_flags := 0 |} |}.

(** A handle as [httpclient_new] and the caller leave it, with a raw
    response buffer of [room] bytes. *)
Definition handle (room : nat) : httpclient :=
  {| hc_req_buf := empty_htx 256;
     hc_req_url := "http://example.com/"; hc_req_meth := HTTP_METH_GET;
     hc_res_status := 0; hc_res_vsn := IST_NULL; hc_res_reason := IST_NULL;
     hc_res_hdrs := None;
     hc_res_buf := {| b_size := room; b_bytes := [] |};
     hc_ops := every_callback; hc_appctx := true; hc_caller := None |}.

Definition idle : channel :=
  {| chn_flags := 0; chn_buf := empty_htx 256; chn_input := 0 |}.

(** The applet as [httpclient_start] leaves it. *)
Definition started (room : nat) : appctx :=
  {| st0 := HTTPCLIENT_S_REQ; hc := handle room; req := idle; res := idle;
     si := {| si_rxblk_room := false; si_rxblk_chan := false;
              si_shutw_done := false; si_shutr_done := false |};
     called := []; allocs := [] |}.

Definition status_line : htx_blk :=
  BlkResSl {| sl_flags := HTX_SL_F_IS_RESP; sl_info := 200;
              sl_p1 := "HTTP/1.1"; sl_p2 := "200"; sl_p3 := "OK" |}.
Definition header1 : htx_blk := BlkHdr "content-type" "text/plain".
Definition header2 : htx_blk := BlkHdr "server" "example".
Definition data1 : htx_blk := BlkData [x68; x65; x6c; x6c].
Definition data2 : htx_blk := BlkData [x6f; x0a].

Definition response : list htx_blk :=
  [status_line; header1; header2; BlkEoh; data1; data2].

(** The body state with [stored] bytes in a raw buffer of [room] bytes
    and [blks] in the response channel. *)
Definition in_body (room : nat) (stored : list byte) (blks : list htx_blk)
    (req_flags res_flags : Z) : appctx :=
  {| st0 := HTTPCLIENT_S_RES_BODY;
     hc := hc_with_res_buf (handle room) {| b_size := room; b_bytes := stored |};
     req := {| chn_flags := req_flags; chn_buf := empty_htx 256; chn_input := 0 |};
     res := {| chn_flags := res_flags;
               chn_buf := {| hb_data := 256;
                             hb_htx := Some {| htx_size := 256; htx_blks := blks;
                                               htx_flags := 0 |} |};
               chn_input := 0 |};
     si := {| si_rxblk_room := false; si_rxblk_chan := false;
              si_shutw_done := false; si_shutr_done := false |};
     called := []; allocs := [] |}.

(** The status-line state with the whole response in the channel, the
    message complete, and a raw buffer of [room] bytes. *)
Definition complete_htx : htx :=
  {| htx_size := 256; htx_blks := response; htx_flags := HTX_FL_EOM |}.

Definition complete (room : nat) : appctx :=
  {| st0 := HTTPCLIENT_S_RES_STLINE; hc := handle room; req := idle;
     res := {| chn_flags := 0;
               chn_buf := {| hb_data := 256; hb_htx := Some complete_htx |};
               chn_input := 0 |};
     si := {| si_rxblk_room := false; si_rxblk_chan := false;
              si_shutw_done := false; si_shutr_done := false |};
     called := []; allocs := [] |}.

(** A pool with one chunk in use and one on its free list. *)
Definition pool : Pool.pool_head :=
  {| Pool.ph_free_list := [7]; Pool.ph_used := 1; Pool.ph_allocated := 2;
     Pool.ph_limit := 4; Pool.ph_minavail := 0; Pool.ph_size := 64;
     Pool.ph_flags := 0; Pool.ph_users := 1; Pool.ph_name := None |}.

(** The command-line applet with the flags [flags] pending. *)
Definition cli (flags : Z) : Cli.cli_appctx :=
  {| Cli.i0 := flags; Cli.p0 := handle 8; Cli.ic_buf := {| b_size := 64; b_bytes := [] |};
     Cli.ic_input := 0;
     Cli.cli_si := {| si_rxblk_room := false; si_rxblk_chan := false;
                      si_shutw_done := false; si_shutr_done := false |};
     Cli.puts := []; Cli.wakeups := 0; Cli.hc_wakeups := 0 |}.

End Sample.

(** How often a callback occurs in a list of calls. *)
Definition times_called (cb : callback) (l : list callback) : nat :=
  length (filter (fun c => c = cb) l).

(** The reading of back-pressure under which the part of a data block
    that fits is copied at once: after the run the raw buffer holds what
    it held, followed by as much of the payload [v] as it had room for. *)
Definition copies_what_fits (a : appctx) (v : list byte) : Prop :=
  b_bytes (hc_res_buf (hc (httpclient_applet_io_handler a).2))
    = b_bytes (hc_res_buf (hc a)) ++ take (b_room (hc_res_buf (hc a))) v.

(** The blocks of the request a handle holds. *)
Definition req_blks (h : httpclient) : list htx_blk :=
  match hb_htx (hc_req_buf h) with
  | Some m => htx_blks m
  | None => []
  end.

Definition is_host (blk : htx_blk) : bool :=
  match blk with
  | BlkHdr n _ => bool_decide (n = "Host"%string) || bool_decide (n = "host"%string)
  | _ => false
  end.

(** The request carries exactly one Host header. *)
Definition host_exactly_once (blks : list htx_blk) : Prop :=
  length (filter (fun blk => is_host blk = true) blks) = 1.

Definition hdr_blk (nv : string * string) : htx_blk := BlkHdr nv.1 nv.2.

(** The start line [httpclient_req_gen] writes. *)
Definition start_line (url : string) (meth : nat) : htx_blk :=
  BlkReqSl {| sl_flags := ReqGen.req_sl_flags; sl_info := Z.of_nat meth;
              sl_p1 := default ""%string (http_known_methods !! meth);
              sl_p2 := url; sl_p3 := "HTTP/1.1" |}.

(** The message [http_update_host] is given: the start line alone. *)
Definition started_request (h0 : htx) (url : string) (meth : nat) : htx :=
  htx_with_blks h0 [start_line url meth].

(** The blocks of the request once [http_update_host] has left the
    message [h3]: its blocks, the supplied headers, the end of headers. *)
Definition expected_request (h3 : htx) (hs : list (string * string)) : list htx_blk :=
  htx_blks h3 ++ map hdr_blk hs ++ [BlkEoh].

(** The Host clause of the claim at one request: the call succeeds and
    the request carries exactly one Host header. *)
Definition host_clause (http_update_host : htx -> string -> option htx)
    (hc : httpclient) (url : string) (meth : nat) (hs : list (string * string)) : Prop :=
  (ReqGen.httpclient_req_gen http_update_host hc url meth (Some hs)).1 = 0%Z /\
  host_exactly_once
    (req_blks (ReqGen.httpclient_req_gen http_update_host hc url meth (Some hs)).2).

(** The states in the order the handler goes through them. *)
Definition state_rank (s : httpclient_state) : nat :=
  match s with
  | HTTPCLIENT_S_REQ => 0
  | HTTPCLIENT_S_RES_STLINE => 1
  | HTTPCLIENT_S_RES_HDR => 2
  | HTTPCLIENT_S_RES_BODY => 3
  | HTTPCLIENT_S_RES_END => 4
  end.

(** The callbacks of one run, given which of them are registered: the
    status line if [s], the headers if [h], [n] payloads, the end if
    [e]. *)
Definition run_calls (ops : httpclient_ops) (s h : bool) (n : nat) (e : bool)
    : list callback :=
  (if s && res_stline ops then [CB_res_stline] else []) ++
  (if h && res_headers ops then [CB_res_headers] else []) ++
  (if res_payload ops then replicate n CB_res_payload else []) ++
  (if e && res_end ops then [CB_res_end] else []).

(** A run that has made the calls [pre] since [a] and goes on with
    payloads and an end call only, ending in a state of rank [lo] at
    least. *)
Definition continues (a : appctx) (pre : list callback) (lo : nat)
    (r : exit_label * appctx) : Prop :=
  exists n e,
    called r.2 = called a ++ pre ++
      (if res_payload (hc_ops (hc a)) then replicate n CB_res_payload else []) ++
      (if e && res_end (hc_ops (hc a)) then [CB_res_end] else []) /\
    lo <= state_rank (st0 r.2) /\
    (e = true <-> r.1 = Exit_end).

(** The response fields the status-line and the headers states fill. *)
Definition response_fields (h : httpclient)
    : Z * ist * ist * option (list (option http_hdr)) :=
  (hc_res_status h, hc_res_vsn h, hc_res_reason h, hc_res_hdrs h).

(** The first block of the response is not a start line flagged as a
    response, or there is no block at all. *)
Definition no_response_line (a : appctx) : Prop :=
  match hb_htx (chn_buf (res a)) with
  | Some h =>
      match htx_blks h with
      | BlkResSl sl :: _ => flagged (sl_flags sl) HTX_SL_F_IS_RESP = false
      | _ => True
      end
  | None => True
  end.

(** The header cells the headers state stores for the headers [hs]: one
    cell each, in order, and the terminating cell. *)
Definition stored_hdrs (hs : list (string * string)) : list (option http_hdr) :=
  map (fun nv => Some {| hdr_n := Some nv.1; hdr_v := Some nv.2 |}) hs
  ++ [Some {| hdr_n := IST_NULL; hdr_v := IST_NULL |}].

(** * Properties *)

(** ** Destroying a null handle *)

(** C10. [httpclient_destroy] called with the null pointer returns at
    once: no handle is freed, no buffer is released, and the memory is
    exactly what it was. *)
Theorem httpclient_destroy_null_is_noop :
  forall m : Lifecycle.memory, Lifecycle.httpclient_destroy None m = m.
Proof. intros m. reflexivity. Qed.

(** [httpclient_new] relies on it: when the handle itself cannot be
    allocated, the error path destroys the null pointer and no handle
    appears. *)
Lemma httpclient_new_calloc_failure caller meth url m tl :
  Lifecycle.mem_oracle m = false :: tl ->
  (Lifecycle.httpclient_new caller meth url m).1 = None /\
  Lifecycle.mem_handles (Lifecycle.httpclient_new caller meth url m).2
    = Lifecycle.mem_handles m /\
  Lifecycle.mem_buffers (Lifecycle.httpclient_new caller meth url m).2
    = Lifecycle.mem_buffers m.
Proof.
  intros Ho. unfold Lifecycle.httpclient_new, Lifecycle.next_alloc.
  rewrite Ho. simpl. auto.
Qed.

(** ** The transfer function *)

Lemma hc_with_same_res_buf hc : hc_with_res_buf hc (hc_res_buf hc) = hc.
Proof. destruct hc; reflexivity. Qed.

Lemma b_xfer_empty dst src count :
  b_bytes src = [] ->
  b_xfer dst src count = (0, dst, src).
Proof.
  intros He. destruct dst as [ds db], src as [ss sb]. simpl in He. subst sb.
  unfold b_xfer, b_data. simpl. rewrite Nat.min_0_r. simpl.
  by rewrite app_nil_r.
Qed.

(** C8. [httpclient_res_xfer] moves the first [min 1024 (b_data res)]
    bytes of the raw response buffer to the tail of the destination and
    returns that count; it wakes the applet exactly when the raw buffer is
    empty afterwards and [hc->appctx] is set. On an empty raw buffer it
    returns 0, leaves the handle and the destination as they were, and
    still wakes a live applet, so any number of such calls behaves the
    same. *)
Theorem httpclient_res_xfer_spec :
  forall (h : httpclient) (dst : buffer),
    let r := httpclient_res_xfer h dst in
    let n := Nat.min 1024 (b_data (hc_res_buf h)) in
    r.1.1.1 = n /\
    b_bytes r.1.2 = b_bytes dst ++ take n (b_bytes (hc_res_buf h)) /\
    b_bytes (hc_res_buf r.1.1.2) = drop n (b_bytes (hc_res_buf h)) /\
    r.1.1.2 = hc_with_res_buf h (hc_res_buf r.1.1.2) /\
    r.2 = (bool_decide (b_data (hc_res_buf r.1.1.2) = 0) && hc_appctx h) /\
    (b_data (hc_res_buf h) = 0 -> r = (0, h, dst, hc_appctx h)).
Proof.
  intros h dst r n.
  assert (Hn : Nat.min n (b_data (hc_res_buf h)) = n) by (subst n; lia).
  subst r. unfold httpclient_res_xfer, b_xfer. fold n. rewrite Hn. simpl.
  repeat split; try reflexivity.
  intros H0. unfold b_data in H0.
  apply length_zero_iff_nil in H0.
  assert (n = 0) as -> by (subst n; unfold b_data; rewrite H0; reflexivity).
  rewrite H0. simpl. rewrite app_nil_r.
  destruct h as [? ? ? ? ? ? ? [sz bs] ? ? ?]; destruct dst; simpl in *; subst bs.
  reflexivity.
Qed.

(** A call on an empty raw buffer of a live handle, at a concrete one. *)
Lemma httpclient_res_xfer_spec_witness :
  let h := hc_with_res_buf
             (Lifecycle.httpclient_applet_live Lifecycle.zeroed)
             {| b_size := 16; b_bytes := [] |} in
  httpclient_res_xfer h BUF_NULL = (0, h, BUF_NULL, true).
Proof.
  intros h.
  exact (proj2 (proj2 (proj2 (proj2 (proj2 (httpclient_res_xfer_spec h BUF_NULL)))))
           eq_refl).
Defined.

(** ** The handler: what every run has in common *)

Lemma advances_refl a : advances a a.
Proof.
  split; auto. exists []. rewrite app_nil_r. split; [done|].
  apply not_elem_of_nil.
Qed.

Lemma advances_trans a b c : advances a b -> advances b c -> advances a c.
Proof.
  intros [] []. split; try congruence; auto.
  destruct adv_called0 as (q1 & E1 & N1), adv_called1 as (q2 & E2 & N2).
  exists (q1 ++ q2). rewrite E2, E1, app_assoc. split; [done|].
  rewrite elem_of_app. tauto.
Qed.

Lemma leaves_advances a m r : advances a m -> leaves m r -> leaves a r.
Proof.
  intros Ham (m' & Hmm' & Hr). exists m'. split; [|done].
  by eapply advances_trans.
Qed.

Lemma pending_app l1 l2 : pending (l1 ++ l2) = pending l1 ++ pending l2.
Proof. unfold pending. by rewrite map_app, concat_app. Qed.

Lemma call_quiet b cb a :
  cb <> CB_res_end -> advances a (call b cb a).
Proof.
  intros Hcb. destruct b; simpl; [|apply advances_refl].
  split; simpl; auto. exists [cb]. split; [done|].
  rewrite list_elem_of_singleton. congruence.
Qed.

Lemma pending_cons blk l : pending (blk :: l) = blk_data blk ++ pending l.
Proof. reflexivity. Qed.

(** The loop of the body state moves payloads from the message to the raw
    buffer, whole blocks at a time, and stops at the first data block
    that does not fit. *)
Lemma body_loop_spec blks : forall a stop kept a',
  body_loop blks a = (stop, kept, a') ->
  st0 a' = st0 a /\ req a' = req a /\ res a' = res a /\ si a' = si a /\
  allocs a' = allocs a /\ hc_ops (hc a') = hc_ops (hc a) /\
  b_size (hc_res_buf (hc a')) = b_size (hc_res_buf (hc a)) /\
  (wf (hc_res_buf (hc a)) -> wf (hc_res_buf (hc a'))) /\
  (exists copied,
     b_bytes (hc_res_buf (hc a')) = b_bytes (hc_res_buf (hc a)) ++ copied /\
     pending blks = copied ++ pending kept) /\
  (exists n, called a' = called a ++
     (if res_payload (hc_ops (hc a)) then replicate n CB_res_payload else [])) /\
  (if stop
   then exists v tl, kept = BlkData v :: tl /\ b_room (hc_res_buf (hc a')) < length v
   else kept = []).
Proof.
  induction blks as [|blk tl IH]; intros a stop kept a' H; simpl in H.
  - inversion H; subst. split_and!; auto.
    + exists []. by rewrite app_nil_r.
    + exists 0. simpl. destruct (res_payload _); by rewrite app_nil_r.
  - destruct blk;
      try (apply IH in H; destruct H as (?&?&?&?&?&?&?&?&E&?&?);
           split_and!; auto; exact E).
    destruct (decide (b_room (hc_res_buf (hc a)) < length v)) as [Hlt|Hge].
    + inversion H; subst. split_and!; auto.
      * exists []. by rewrite app_nil_r.
      * exists 0. simpl. destruct (res_payload _); by rewrite app_nil_r.
      * eauto.
    + apply IH in H. clear IH.
      destruct H as (Hs & Hq & Hr & Hi & Ha & Ho & Hz & Hw &
                     (copied & E1 & E2) & (n & Hc) & Hk).
      assert (Hcall : forall b (x : appctx), hc (call b CB_res_payload x) = hc x
                /\ st0 (call b CB_res_payload x) = st0 x
                /\ req (call b CB_res_payload x) = req x
                /\ res (call b CB_res_payload x) = res x
                /\ si (call b CB_res_payload x) = si x
                /\ allocs (call b CB_res_payload x) = allocs x)
        by (intros [] x; simpl; split_and!; reflexivity).
      match type of Hs with st0 _ = st0 (call ?b _ ?x) =>
        destruct (Hcall b x) as (C1 & C2 & C3 & C4 & C5 & C6) end.
      rewrite C1 in *. rewrite C2 in Hs. rewrite C3 in Hq. rewrite C4 in Hr.
      rewrite C5 in Hi. rewrite C6 in Ha. simpl in *.
      split_and!; auto.
      * intros Hwf. apply Hw. unfold wf, b_room, b_data in *. simpl.
        rewrite length_app. lia.
      * exists (v ++ copied). rewrite E1, pending_cons, E2. simpl.
        by rewrite !app_assoc.
      * destruct (res_payload (hc_ops (hc a))); simpl in Hc.
        -- exists (S n). rewrite Hc. simpl. by rewrite <- app_assoc.
        -- exists 0. by rewrite Hc.
Qed.

(** The loop of the headers state leaves the data blocks where they
    are. *)
Lemma hdr_loop_pending blks : forall hdrs k l,
  pending (hs_left (hdr_loop blks hdrs k l)) = pending blks.
Proof.
  induction blks as [|blk tl IH]; intros hdrs k l; simpl; [done|].
  destruct blk; simpl; rewrite ?pending_cons, ?IH; try done.
  destruct (istdup n l) as [n' l1], (istdup v l1) as [v' l2].
  destruct (negb (isttest v') || negb (isttest n')); simpl; [done | apply IH].
Qed.

Ltac same_calls := exists []; rewrite app_nil_r; split; [done | apply not_elem_of_nil].

Ltac advances_by_fields :=
  split; simpl; try done; try same_calls.

Lemma advances_st0 a s : advances a (with_st0 a s).
Proof. advances_by_fields. Qed.

Lemma advances_allocs a l : advances a (with_allocs a l).
Proof. advances_by_fields. Qed.

Lemma advances_stline a status vsn reason :
  advances a (with_hc a (hc_with_stline (hc a) status vsn reason)).
Proof. advances_by_fields. Qed.

Lemma advances_hdrs a hdrs :
  advances a (with_hc a (hc_with_hdrs (hc a) hdrs)).
Proof. advances_by_fields. Qed.

Lemma advances_blks a h l :
  hb_htx (chn_buf (res a)) = Some h ->
  pending l = pending (htx_blks h) ->
  advances a (res_with_blks a h l).
Proof.
  intros Hh Hp. advances_by_fields.
  unfold body_bytes, pending_res. simpl. by rewrite Hh, Hp.
Qed.

Lemma advances_req_sent a b c :
  chn_flags c = chn_flags (req a) ->
  advances a (with_req (with_hc a (hc_with_req_buf (hc a) b)) c).
Proof. intros Hc. advances_by_fields. Qed.

Lemma advances_body_loop a h stop kept a1 :
  hb_htx (chn_buf (res a)) = Some h ->
  body_loop (htx_blks h) a = (stop, kept, a1) ->
  advances a (res_with_blks a1 h kept).
Proof.
  intros Hh Hl. apply body_loop_spec in Hl.
  destruct Hl as (Hs & Hq & Hr & Hi & Ha & Ho & Hz & Hw &
                 (copied & E1 & E2) & (n & Hc) & Hk).
  split; simpl; try congruence; auto.
  - unfold body_bytes, pending_res. simpl.
    by rewrite Hh, E1, E2, app_assoc.
  - eexists. split; [exact Hc|].
    destruct (res_payload _); [|apply not_elem_of_nil].
    intros Hin. apply elem_of_replicate in Hin. by destruct Hin.
Qed.

Lemma leaves_at_end a : leaves a (at_end a).
Proof. exists a. split; [apply advances_refl | auto]. Qed.

Lemma leaves_at_more a : leaves a (at_more a).
Proof. exists a. split; [apply advances_refl | auto]. Qed.

Lemma case_RES_BODY_leaves a :
  st0 a = HTTPCLIENT_S_RES_BODY -> leaves a (case_RES_BODY a).
Proof.
  intros Hst. unfold case_RES_BODY, htxbuf.
  destruct (hb_htx (chn_buf (res a))) as [h|] eqn:Hh; [|apply leaves_at_more].
  destruct (htx_is_empty h) eqn:He; [apply leaves_at_more|].
  assert (Hne : htx_blks h <> []).
  { unfold htx_is_empty in He. by apply bool_decide_eq_false in He. }
  destruct (b_full (hc_res_buf (hc a))) eqn:Hf.
  - exists a. split; [apply advances_refl|]. right; right. split; [done|].
    split; [done|]. exists h. split_and!; auto.
    left. unfold b_full in Hf. by apply bool_decide_eq_true in Hf.
  - destruct (body_loop (htx_blks h) a) as [[stop kept] a1] eqn:Hl.
    pose proof (advances_body_loop _ _ _ _ _ Hh Hl) as Hadv.
    pose proof (body_loop_spec _ _ _ _ _ Hl) as
      (Hs & _ & _ & _ & _ & _ & _ & _ & _ & _ & Hk).
    destruct stop.
    + exists (res_with_blks a1 h kept). split; [done|]. right; right.
      split; [done|]. split; [simpl; congruence|].
      destruct Hk as (v & tl & -> & Hroom).
      eexists. split; [reflexivity|]. simpl. split; [done|]. right. eauto.
    + destruct (negb (htx_has h HTX_FL_EOM)).
      * eapply leaves_advances; [exact Hadv | apply leaves_at_more].
      * eapply leaves_advances; [exact Hadv|].
        eapply leaves_advances; [apply advances_st0 | apply leaves_at_end].
Qed.

Lemma body_or_end_leaves h a : leaves a (body_or_end h a).
Proof.
  unfold body_or_end. destruct (eom_and_empty h).
  - eapply leaves_advances; [apply advances_st0 | apply leaves_at_end].
  - eapply leaves_advances; [apply advances_st0 | by apply case_RES_BODY_leaves].
Qed.

Lemma case_RES_HDR_leaves a : leaves a (case_RES_HDR a).
Proof.
  unfold case_RES_HDR, htxbuf.
  destruct (decide (hb_data (chn_buf (res a)) = 0)); [apply leaves_at_more|].
  destruct (hb_htx (chn_buf (res a))) as [h|] eqn:Hh; [|apply leaves_at_more].
  set (r := hdr_loop (htx_blks h) ∅ 0 (allocs a)).
  set (a1 := with_allocs (res_with_blks a h (hs_left r)) (hs_allocs r)).
  assert (Ha1 : advances a a1).
  { eapply advances_trans; [|apply advances_allocs].
    apply advances_blks; [done | apply hdr_loop_pending]. }
  assert (Hcommit : leaves a
            (if decide (hs_num r = 0)
             then body_or_end (htx_with_blks h (hs_left r)) a1
             else
               let (ok, l) := next_alloc (allocs a1) in
               let a2 := with_allocs a1 l in
               if negb ok then at_end a2
               else
                 let a3 := with_hc a2 (hc_with_hdrs (hc a2)
                             (Some (copy_hdrs (hs_hdrs r) (hs_num r + 1)))) in
                 body_or_end (htx_with_blks h (hs_left r))
                   (call (res_headers (hc_ops (hc a3))) CB_res_headers a3))).
  { destruct (decide (hs_num r = 0)).
    - eapply leaves_advances; [exact Ha1 | apply body_or_end_leaves].
    - destruct (next_alloc (allocs a1)) as [ok l]. cbv zeta.
      eapply leaves_advances; [exact Ha1|].
      eapply leaves_advances; [apply advances_allocs|].
      destruct ok; cbn [negb]; [|apply leaves_at_end].
      eapply leaves_advances; [apply advances_hdrs|].
      eapply leaves_advances;
        [apply call_quiet with (cb := CB_res_headers); done | apply body_or_end_leaves]. }
  destruct (hs_exit r); [exact Hcommit | exact Hcommit |].
  eapply leaves_advances; [exact Ha1 | apply leaves_at_end].
Qed.

Lemma case_RES_STLINE_leaves a : leaves a (case_RES_STLINE a).
Proof.
  unfold case_RES_STLINE, htxbuf.
  destruct (decide (hb_data (chn_buf (res a)) = 0)); [apply leaves_at_more|].
  destruct (hb_htx (chn_buf (res a))) as [h|] eqn:Hh; [|apply leaves_at_more].
  destruct (htx_blks h) as [|[] tl] eqn:Hb; try apply leaves_at_more.
  destruct (negb (flagged (sl_flags sl) HTX_SL_F_IS_RESP)); [apply leaves_at_more|].
  destruct (istdup (sl_p1 sl) (allocs a)) as [vsn l1].
  destruct (istdup (sl_p3 sl) l1) as [reason l2]. cbv zeta.
  set (a1 := with_allocs (with_hc a (hc_with_stline (hc a) (sl_info sl) vsn reason)) l2).
  set (a2 := res_with_blks a1 h tl).
  set (a3 := call (res_stline (hc_ops (hc a2))) CB_res_stline a2).
  assert (Ha3 : advances a a3).
  { eapply advances_trans; [apply advances_stline|].
    eapply advances_trans; [apply (advances_allocs _ l2)|].
    eapply advances_trans; [|by apply call_quiet].
    apply advances_blks; [exact Hh|]. by rewrite Hb. }
  eapply leaves_advances; [exact Ha3|].
  destruct (eom_and_empty _).
  - apply (leaves_advances _ _ _ (advances_st0 a3 HTTPCLIENT_S_RES_END)), leaves_at_end.
  - apply (leaves_advances _ _ _ (advances_st0 a3 HTTPCLIENT_S_RES_HDR)),
      case_RES_HDR_leaves.
Qed.

Lemma case_REQ_leaves a : leaves a (case_REQ a).
Proof.
  unfold case_REQ. cbv zeta.
  match goal with |- leaves _ (at_more (with_st0 ?x ?s)) =>
    apply (leaves_advances _ x); [by apply advances_req_sent|];
    apply (leaves_advances _ _ _ (advances_st0 x s)), leaves_at_more
  end.
Qed.

(** Every run of the handler keeps the channel flags, the callback slots
    and the capacity of the raw buffer, neither loses nor invents body
    bytes, calls no end callback before it reaches one of the three
    labels, and reaches [process_data] only when the body state is held
    back by the raw buffer. *)
Lemma httpclient_applet_io_handler_leaves a :
  leaves a (httpclient_applet_io_handler a).
Proof.
  unfold httpclient_applet_io_handler.
  destruct (st0 a) eqn:Hst.
  - apply case_REQ_leaves.
  - apply case_RES_STLINE_leaves.
  - apply case_RES_HDR_leaves.
  - by apply case_RES_BODY_leaves.
  - apply leaves_at_end.
Qed.

(** What each label does to the context it is reached with. *)
Lemma at_end_outcome m :
  (at_end m).1 = Exit_end /\
  hc (at_end m).2 = hc m /\ st0 (at_end m).2 = st0 m /\
  req (at_end m).2 = req m /\ res (at_end m).2 = res m /\
  called (at_end m).2
    = called m ++ (if res_end (hc_ops (hc m)) then [CB_res_end] else []) /\
  si_shutw_done (si (at_end m).2) = true /\
  si_shutr_done (si (at_end m).2) = true.
Proof.
  unfold at_end, call. destruct (res_end (hc_ops (hc m))); simpl;
    rewrite ?app_nil_r; split_and!; reflexivity.
Qed.

Lemma at_process_data_outcome m :
  (at_process_data m).1 = Exit_process_data /\
  hc (at_process_data m).2 = hc m /\ st0 (at_process_data m).2 = st0 m /\
  req (at_process_data m).2 = req m /\ res (at_process_data m).2 = res m /\
  called (at_process_data m).2 = called m.
Proof. unfold at_process_data. simpl. split_and!; reflexivity. Qed.

Lemma at_more_outcome m :
  (at_more m = at_end (with_si m (si_rx_room_blk (si m))) /\
   (st0 m = HTTPCLIENT_S_RES_END \/ shutdown_seen m = true)) \/
  (at_more m = (Exit_more, with_si m (si_rx_room_blk (si m))) /\
   st0 m <> HTTPCLIENT_S_RES_END /\ shutdown_seen m = false).
Proof.
  unfold at_more. simpl.
  destruct (decide (st0 m = HTTPCLIENT_S_RES_END)); [left; auto|].
  change (shutdown_seen (with_si m (si_rx_room_blk (si m)))) with (shutdown_seen m).
  destruct (shutdown_seen m); [left; auto | right; auto].
Qed.

Lemma blocked_frame m m' :
  st0 m' = st0 m -> res m' = res m -> hc m' = hc m -> blocked m -> blocked m'.
Proof. unfold blocked. intros -> -> ->. done. Qed.

Lemma leaves_outcome a r :
  leaves a r ->
  chn_flags (req r.2) = chn_flags (req a) /\
  chn_flags (res r.2) = chn_flags (res a) /\
  hc_ops (hc r.2) = hc_ops (hc a) /\
  b_size (hc_res_buf (hc r.2)) = b_size (hc_res_buf (hc a)) /\
  (wf (hc_res_buf (hc a)) -> wf (hc_res_buf (hc r.2))) /\
  body_bytes r.2 = body_bytes a /\
  match r.1 with
  | Exit_end =>
      one_run_of_calls (called a) (called r.2) (res_end (hc_ops (hc a))) /\
      si_shutw_done (si r.2) = true /\ si_shutr_done (si r.2) = true
  | Exit_more =>
      one_run_of_calls (called a) (called r.2) false /\
      shutdown_seen a = false /\ st0 r.2 <> HTTPCLIENT_S_RES_END
  | Exit_process_data =>
      one_run_of_calls (called a) (called r.2) false /\ blocked r.2
  end.
Proof.
  intros (m & [Hrq Hrs Hops Hsi Hsz Hwf Hbytes (q & Hq & Hnq)] & Hr).
  assert (Hshut : shutdown_seen m = shutdown_seen a)
    by (unfold shutdown_seen; by rewrite Hrq, Hrs).
  assert (Hend : forall m', hc m' = hc m -> req m' = req m -> res m' = res m ->
            called m' = called m ->
            let r := at_end m' in
            chn_flags (req r.2) = chn_flags (req a) /\
            chn_flags (res r.2) = chn_flags (res a) /\
            hc_ops (hc r.2) = hc_ops (hc a) /\
            b_size (hc_res_buf (hc r.2)) = b_size (hc_res_buf (hc a)) /\
            (wf (hc_res_buf (hc a)) -> wf (hc_res_buf (hc r.2))) /\
            body_bytes r.2 = body_bytes a /\
            one_run_of_calls (called a) (called r.2) (res_end (hc_ops (hc a))) /\
            si_shutw_done (si r.2) = true /\ si_shutr_done (si r.2) = true).
  { intros m' Eh Eq Es Ec r0.
    destruct (at_end_outcome m') as (_ & H1 & _ & H3 & H4 & H5 & H6 & H7).
    subst r0. unfold body_bytes, pending_res in *.
    rewrite H1, H3, H4, H5, Eh, Eq, Es, Ec, Hops. split_and!; auto.
    exists q. split; [done|]. by rewrite Hq, <- app_assoc. }
  destruct Hr as [-> | [-> | [-> Hb]]].
  - destruct (at_end_outcome m) as (-> & _). by apply Hend.
  - destruct (at_more_outcome m) as [[-> _] | [-> [Hne Hsh]]].
    + destruct (at_end_outcome (with_si m (si_rx_room_blk (si m)))) as (-> & _).
      by apply Hend.
    + simpl. unfold body_bytes, pending_res in *. simpl. split_and!; auto.
      * exists q. split; [done|]. by rewrite Hq, app_nil_r.
      * congruence.
  - simpl. unfold body_bytes, pending_res in *. simpl. split_and!; auto.
    exists q. split; [done|]. by rewrite Hq, app_nil_r.
Qed.

(** ** The raw response buffer and back-pressure *)

Lemma res_with_same_blks a h :
  hb_htx (chn_buf (res a)) = Some h -> res_with_blks a h (htx_blks h) = a.
Proof.
  destruct a as [? ? ? [fl [d o] i] ? ? ?]. simpl. intros ->.
  destruct h; reflexivity.
Qed.

(** Held back by the raw buffer, the body state copies nothing, removes
    nothing, calls nothing and returns through [process_data]. *)
Lemma blocked_suspends a :
  blocked a -> httpclient_applet_io_handler a = at_process_data a.
Proof.
  intros (Hst & h & Hh & Hne & Hroom).
  unfold httpclient_applet_io_handler. rewrite Hst.
  unfold case_RES_BODY, htxbuf. rewrite Hh.
  assert (htx_is_empty h = false) as ->
    by (unfold htx_is_empty; by apply bool_decide_eq_false).
  destruct (b_full (hc_res_buf (hc a))) eqn:Hf; [done|].
  unfold b_full in Hf. apply bool_decide_eq_false in Hf.
  destruct Hroom as [H0 | (v & tl & Hb & Hlt)]; [done|].
  rewrite Hb. simpl. rewrite decide_True by done.
  rewrite <- Hb. by rewrite res_with_same_blks.
Qed.

Lemma act_keeps_capacity x a :
  wf (hc_res_buf (hc a)) ->
  wf (hc_res_buf (hc (act x a))) /\
  b_size (hc_res_buf (hc (act x a))) = b_size (hc_res_buf (hc a)).
Proof.
  intros Hwf. destruct x; simpl; auto.
  - destruct (leaves_outcome _ _ (httpclient_applet_io_handler_leaves a))
      as (_ & _ & _ & Hsz & Hw & _). auto.
  - split; [|done]. unfold wf, b_data in *. simpl.
    rewrite length_drop. lia.
Qed.

(** C6. Whatever the transport delivers, whichever flags are raised,
    however often the handler runs and the caller drains, the raw
    response buffer never holds more bytes than its capacity, which does
    not change; and when that buffer is full, or too small for the data
    block at the head of the message, the body state returns through
    [process_data] with the handle untouched. *)
Theorem raw_body_buffer_within_capacity :
  forall (l : list action) (a : appctx),
    wf (hc_res_buf (hc a)) ->
    b_data (hc_res_buf (hc (run l a))) <= b_size (hc_res_buf (hc a)) /\
    b_size (hc_res_buf (hc (run l a))) = b_size (hc_res_buf (hc a)) /\
    (blocked (run l a) ->
     (httpclient_applet_io_handler (run l a)).1 = Exit_process_data /\
     hc (httpclient_applet_io_handler (run l a)).2 = hc (run l a)).
Proof.
  intros l a Hwf.
  assert (Hrun : wf (hc_res_buf (hc (run l a))) /\
                 b_size (hc_res_buf (hc (run l a))) = b_size (hc_res_buf (hc a))).
  { revert a Hwf. induction l as [|x l IH]; intros a Hwf; [done|].
    unfold run in *. simpl.
    destruct (act_keeps_capacity x a Hwf) as [Hw Hs].
    destruct (IH _ Hw) as [Hw' Hs']. split; [done | congruence]. }
  destruct Hrun as [Hw Hs]. split_and!; [|done|].
  - unfold wf in Hw. lia.
  - intros Hb. by rewrite (blocked_suspends _ Hb).
Qed.

(** A full exchange with a raw buffer of four bytes, drained once. *)
Lemma raw_body_buffer_within_capacity_witness :
  b_data (hc_res_buf (hc (run [Wake; Recv Sample.response true; Wake;
                                Drain BUF_NULL; Wake] (Sample.started 4)))) <= 4.
Proof.
  refine (proj1 (raw_body_buffer_within_capacity
                   [Wake; Recv Sample.response true; Wake; Drain BUF_NULL; Wake]
                   (Sample.started 4) _)).
  unfold wf, b_data. simpl. lia.
Defined.

(** C3 (amended). The body state copies whole data blocks only. When the
    raw buffer has less room than the payload of the data block at the
    head of the message (or no room at all), the handler copies nothing of
    it, leaves the block in the channel, calls nothing and returns
    through [process_data]; once the room suffices, a run copies the whole
    payload at once. In every run the bytes stored in the raw buffer
    followed by the payloads still in the channel stay the same sequence:
    no body byte is lost, none is copied twice. *)
Theorem body_copies_whole_blocks :
  forall (a : appctx),
    body_bytes (httpclient_applet_io_handler a).2 = body_bytes a /\
    (blocked a -> httpclient_applet_io_handler a = at_process_data a) /\
    (forall h v tl,
       st0 a = HTTPCLIENT_S_RES_BODY ->
       hb_htx (chn_buf (res a)) = Some h ->
       htx_blks h = BlkData v :: tl ->
       b_room (hc_res_buf (hc a)) <> 0 ->
       length v <= b_room (hc_res_buf (hc a)) ->
       exists more,
         b_bytes (hc_res_buf (hc (httpclient_applet_io_handler a).2))
           = b_bytes (hc_res_buf (hc a)) ++ v ++ more).
Proof.
  intros a. split_and!.
  - by destruct (leaves_outcome _ _ (httpclient_applet_io_handler_leaves a))
      as (_ & _ & _ & _ & _ & Hb & _).
  - apply blocked_suspends.
  - intros h v tl Hst Hh Hb Hroom Hfit.
    unfold httpclient_applet_io_handler. rewrite Hst.
    unfold case_RES_BODY, htxbuf. rewrite Hh.
    assert (htx_is_empty h = false) as ->
      by (unfold htx_is_empty; apply bool_decide_eq_false; by rewrite Hb).
    assert (b_full (hc_res_buf (hc a)) = false) as ->
      by (unfold b_full; by apply bool_decide_eq_false).
    rewrite Hb. simpl. rewrite decide_False by lia.
    match goal with |- context [body_loop tl ?x] =>
      destruct (body_loop tl x) as [[stop kept] a1] eqn:Hl end.
    apply body_loop_spec in Hl.
    destruct Hl as (_ & _ & _ & _ & _ & _ & _ & _ & (more & Hm & _) & _).
    assert (Hc : forall b (x : appctx), hc (call b CB_res_payload x) = hc x)
      by (by intros [] x).
    rewrite Hc in Hm. simpl in Hm. rewrite <- app_assoc in Hm.
    exists more.
    assert (Hhc : forall x, hc (at_process_data x).2 = hc x /\
                            hc (at_more x).2 = hc x /\ hc (at_end x).2 = hc x).
    { intros x. split_and!.
      - reflexivity.
      - destruct (at_more_outcome x) as [[-> _] | [-> _]]; [|done].
        by destruct (at_end_outcome (with_si x (si_rx_room_blk (si x))))
          as (_ & -> & _).
      - by destruct (at_end_outcome x) as (_ & -> & _). }
    destruct stop; [by rewrite (proj1 (Hhc _))|].
    destruct (negb (htx_has h HTX_FL_EOM)).
    + by rewrite (proj1 (proj2 (Hhc _))).
    + unfold case_RES_END. by rewrite (proj2 (proj2 (Hhc _))).
Qed.

(** A raw buffer of four bytes holding two, and a data block of four:
    nothing is copied; then a raw buffer of eight bytes: the block is
    copied whole. *)
Lemma body_copies_whole_blocks_witness :
  httpclient_applet_io_handler (Sample.in_body 4 [x61; x62] [Sample.data1] 0 0)
    = at_process_data (Sample.in_body 4 [x61; x62] [Sample.data1] 0 0) /\
  exists more,
    b_bytes (hc_res_buf (hc (httpclient_applet_io_handler
                               (Sample.in_body 8 [x61; x62] [Sample.data1] 0 0)).2))
      = [x61; x62] ++ [x68; x65; x6c; x6c] ++ more.
Proof.
  split.
  - apply (proj1 (proj2 (body_copies_whole_blocks
                           (Sample.in_body 4 [x61; x62] [Sample.data1] 0 0)))).
    split; [reflexivity|]. eexists. split; [reflexivity|].
    split; [discriminate|]. right. eexists _, _. split; [reflexivity|].
    unfold b_room, b_data. simpl. lia.
  - apply (proj2 (proj2 (body_copies_whole_blocks
                           (Sample.in_body 8 [x61; x62] [Sample.data1] 0 0)))
             {| htx_size := 256; htx_blks := [Sample.data1]; htx_flags := 0 |}
             [x68; x65; x6c; x6c] []);
      try reflexivity; unfold b_room, b_data; simpl; lia.
Defined.

(** With room for half of the pending data block, the part that fits is
    not copied: the raw buffer is left as it was. *)
Lemma body_partial_copy_counterexample :
  b_room (hc_res_buf (hc (Sample.in_body 4 [x61; x62] [Sample.data1] 0 0))) = 2 /\
  ~ copies_what_fits (Sample.in_body 4 [x61; x62] [Sample.data1] 0 0)
      [x68; x65; x6c; x6c].
Proof. split; [reflexivity|]. unfold copies_what_fits. vm_compute. discriminate. Qed.

(** ** The end callback *)

Lemma last_of_run before after :
  one_run_of_calls before after true -> last after = Some CB_res_end.
Proof.
  intros (q & _ & ->). by rewrite !app_assoc, last_snoc.
Qed.




(** ** Half-close *)




(** ** Fragmented responses *)

(** C1. The response of the sample delivered whole makes the handler call
    status line, headers, payload, payload, end. Delivered in other
    pieces it does not. When the end-of-message flag arrives after the
    last data block was consumed, the body state finds the message empty
    and returns before it looks at the flag: the end callback is not
    called, and no further wake-up changes anything. When the status line
    arrives alone, the headers state runs in the same call on the emptied
    message, finds no header and moves to the body state, which later
    discards the header blocks: the headers callback is never called. *)
Theorem callbacks_depend_on_fragmentation :
  called (run [Wake; Recv Sample.response true; Wake] (Sample.started 8))
    = [CB_res_stline; CB_res_headers; CB_res_payload; CB_res_payload; CB_res_end] /\
  (let stuck := run [Wake; Recv Sample.response false; Wake; Recv [] true; Wake]
                    (Sample.started 8) in
   called stuck = [CB_res_stline; CB_res_headers; CB_res_payload; CB_res_payload] /\
   st0 stuck = HTTPCLIENT_S_RES_BODY /\
   forall n, run (replicate n Wake) stuck = stuck) /\
  called (run [Wake; Recv (take 1 Sample.response) false; Wake;
               Recv (drop 1 Sample.response) true; Wake] (Sample.started 8))
    = [CB_res_stline; CB_res_payload; CB_res_payload; CB_res_end].
Proof.
  split; [vm_compute; reflexivity|].
  split; [|vm_compute; reflexivity].
  cbv zeta. split; [vm_compute; reflexivity|].
  split; [vm_compute; reflexivity|].
  assert (Hfix : act Wake (run [Wake; Recv Sample.response false; Wake;
                                Recv [] true; Wake] (Sample.started 8))
                 = run [Wake; Recv Sample.response false; Wake; Recv [] true; Wake]
                       (Sample.started 8))
    by (vm_compute; reflexivity).
  generalize dependent (run [Wake; Recv Sample.response false; Wake;
                             Recv [] true; Wake] (Sample.started 8)).
  intros stuck Hfix n.
  induction n as [|n IH]; [reflexivity|].
  change (run (replicate (S n) Wake) stuck)
    with (run (replicate n Wake) (act Wake stuck)).
  by rewrite Hfix.
Qed.

(** ** The headers state *)

(** C4. A status line and one header in the channel, no end-of-headers
    block: the loop of the headers state runs out of blocks, and the
    handler nevertheless stores two cells in [hc->res.hdrs], the second
    of which was never assigned, calls the headers callback and moves to
    the body state, all in that run. The same happens when the handler is
    entered in the headers state. *)
Theorem headers_committed_without_eoh :
  (let r := run [Wake; Recv (take 2 Sample.response) false; Wake] (Sample.started 8) in
   st0 r = HTTPCLIENT_S_RES_BODY /\
   called r = [CB_res_stline; CB_res_headers] /\
   hc_res_hdrs (hc r)
     = Some [Some {| hdr_n := Some "content-type"; hdr_v := Some "text/plain" |};
             None]) /\
  (let a := with_st0 (run [Wake; Recv [Sample.header1] false] (Sample.started 8))
                     HTTPCLIENT_S_RES_HDR in
   (httpclient_applet_io_handler a).1 = Exit_more /\
   st0 (httpclient_applet_io_handler a).2 = HTTPCLIENT_S_RES_BODY /\
   called (httpclient_applet_io_handler a).2 = [CB_res_headers]).
Proof. vm_compute. split_and!; reflexivity. Qed.

Lemma hdr_loop_fills n blk_n blk_v : forall hdrs k,
  let r := hdr_loop (replicate n (BlkHdr blk_n blk_v) ++ [BlkEoh]) hdrs k [] in
  hs_exit r = Hdr_eoh /\ hs_num r = k + n /\
  hs_hdrs r !! (k + n) = Some {| hdr_n := IST_NULL; hdr_v := IST_NULL |}.
Proof.
  induction n as [|n IH]; intros hdrs k; simpl.
  - rewrite Nat.add_0_r. split_and!; try done. apply lookup_insert_eq.
  - specialize (IH (<[k := {| hdr_n := Some blk_n; hdr_v := Some blk_v |}]> hdrs) (S k)).
    simpl in IH. by replace (k + S n) with (S (k + n)) by lia.
Qed.

(** C5. The loop of the headers state never compares [hdr_num] with the
    number of cells of [hdrs]. Whatever that number [max_http_hdr] is, a
    response with as many header blocks followed by the end-of-headers
    block makes the loop assign the cell of index [max_http_hdr], which
    is past the end of the array. *)
Theorem hdr_loop_writes_past_capacity :
  forall (max_http_hdr : nat),
    let r := hdr_loop (replicate max_http_hdr Sample.header1 ++ [BlkEoh]) ∅ 0 [] in
    hs_num r = max_http_hdr /\
    exists i, max_http_hdr <= i /\ i ∈ dom (hs_hdrs r).
Proof.
  intros n r.
  destruct (hdr_loop_fills n "content-type" "text/plain" ∅ 0) as (_ & Hn & Hl).
  fold Sample.header1 in Hn, Hl. fold r in Hn, Hl. simpl in Hn, Hl.
  split; [done|]. exists n. split; [done|].
  apply elem_of_dom. by rewrite Hl.
Qed.

(** ** The request generator *)

Lemma htx_used_cons blk l : htx_used (blk :: l) = 8 + blk_payload blk + htx_used l.
Proof. reflexivity. Qed.

Lemma htx_used_app l1 l2 : htx_used (l1 ++ l2) = htx_used l1 + htx_used l2.
Proof.
  induction l1 as [|blk l1 IH]; [done|].
  rewrite <- app_comm_cons, !htx_used_cons, IH. lia.
Qed.

Lemma htx_add_blk_spec h blk :
  htx_add_blk h blk =
    if decide (htx_used (htx_blks h ++ [blk]) <= htx_size h)
    then Some (htx_with_blks h (htx_blks h ++ [blk]))
    else None.
Proof.
  unfold htx_add_blk. rewrite htx_used_app, htx_used_cons.
  change (htx_used []) with 0.
  repeat case_decide; try done; lia.
Qed.

(** The headers and the end-of-headers block are appended exactly when
    they all fit. *)
Lemma htx_add_all_headers_spec hs : forall h,
  htx_add_all_headers h hs =
    if decide (htx_used (htx_blks h ++ map hdr_blk hs ++ [BlkEoh]) <= htx_size h)
    then Some (htx_with_blks h (htx_blks h ++ map hdr_blk hs ++ [BlkEoh]))
    else None.
Proof.
  induction hs as [|[n v] hs IH]; intros h.
  - apply htx_add_blk_spec.
  - cbn [htx_add_all_headers map]. unfold htx_add_header. rewrite htx_add_blk_spec.
    change (hdr_blk (n, v)) with (BlkHdr n v).
    destruct (decide (htx_used (htx_blks h ++ [BlkHdr n v]) <= htx_size h)) as [Hfit|Hno].
    + rewrite IH. cbn [htx_with_blks htx_blks htx_size].
      rewrite <- !app_assoc. cbn [app].
      repeat case_decide; done.
    + rewrite decide_False; [done|].
      intros Hall. apply Hno.
      rewrite !htx_used_app, !htx_used_cons in *. lia.
Qed.

(** The steps of [httpclient_req_gen] on an empty message in which the
    start line fits. *)
Lemma req_gen_steps upd hc url meth hs h0 :
  hb_htx (hc_req_buf hc) = Some h0 -> htx_blks h0 = [] ->
  meth < HTTP_METH_OTHER ->
  htx_used [start_line url meth] <= htx_size h0 ->
  ReqGen.httpclient_req_gen upd hc url meth (Some hs) =
    match upd (started_request h0 url meth) url with
    | None => (ReqGen.error_code, ReqGen.dirty hc (started_request h0 url meth))
    | Some h3 =>
        if decide (htx_used (expected_request h3 hs) <= htx_size h3)
        then (0%Z, hc_with_req_buf hc (htx_to_buf
                {| htx_size := htx_size h3;
                   htx_blks := expected_request h3 hs;
                   htx_flags := Z.lor (htx_flags h3) HTX_FL_EOM |}))
        else (ReqGen.error_code, ReqGen.dirty hc h3)
    end.
Proof.
  intros Hh Hb Hmeth Hfit. unfold ReqGen.httpclient_req_gen.
  rewrite decide_False by lia.
  unfold htx_from_buf. rewrite Hh.
  unfold htx_add_stline. rewrite htx_add_blk_spec, Hb. cbn [app].
  rewrite decide_True by exact Hfit.
  cbn [htx_with_blks htx_blks htx_size htx_flags length alter list_alter].
  change (htx_with_blks _ _) with (started_request h0 url meth).
  destruct (upd (started_request h0 url meth) url) as [h3|]; [|done].
  rewrite htx_add_all_headers_spec. fold (expected_request h3 hs).
  by destruct (decide _).
Qed.

Lemma req_gen_errors upd hc url meth hdrs :
  (HTTP_METH_OTHER <= meth \/
   hb_htx (hc_req_buf hc) = None \/
   (exists h0, hb_htx (hc_req_buf hc) = Some h0 /\
      htx_add_stline h0 ReqGen.req_sl_flags
        (default ""%string (http_known_methods !! meth)) url "HTTP/1.1" = None) \/
   (exists h0, hb_htx (hc_req_buf hc) = Some h0 /\ htx_blks h0 = [] /\
      upd (started_request h0 url meth) url = None)) ->
  (ReqGen.httpclient_req_gen upd hc url meth hdrs).1 = ReqGen.error_code.
Proof.
  intros Hfail. unfold ReqGen.httpclient_req_gen.
  destruct (decide (HTTP_METH_OTHER <= meth)); [done|].
  unfold htx_from_buf.
  destruct (hb_htx (hc_req_buf hc)) as [h0|] eqn:Hh; [|done].
  destruct (htx_add_stline h0 _ _ _ _) as [h1|] eqn:Hsl; [|done].
  destruct Hfail as [? | [? | [(h & Hh' & Hno) | (h & Hh' & Hb & Hno)]]]; try done.
  - congruence.
  - injection Hh' as <-.
    unfold htx_add_stline in Hsl. rewrite htx_add_blk_spec, Hb in Hsl.
    destruct (decide _); [|done]. injection Hsl as <-. rewrite Hb.
    cbn [app htx_with_blks htx_blks htx_size htx_flags length alter list_alter].
    change (htx_with_blks _ _) with (started_request h0 url meth).
    by rewrite Hno.
Qed.

Lemma req_gen_success upd hc url meth hs h0 h3 :
  hb_htx (hc_req_buf hc) = Some h0 -> htx_blks h0 = [] ->
  meth < HTTP_METH_OTHER ->
  htx_used [start_line url meth] <= htx_size h0 ->
  upd (started_request h0 url meth) url = Some h3 ->
  (htx_used (expected_request h3 hs) <= htx_size h3 ->
   ReqGen.httpclient_req_gen upd hc url meth (Some hs) =
     (0%Z, hc_with_req_buf hc (htx_to_buf
        {| htx_size := htx_size h3;
           htx_blks := expected_request h3 hs;
           htx_flags := Z.lor (htx_flags h3) HTX_FL_EOM |}))) /\
  (~ htx_used (expected_request h3 hs) <= htx_size h3 ->
   (ReqGen.httpclient_req_gen upd hc url meth (Some hs)).1 = ReqGen.error_code).
Proof.
  intros Hh Hb Hmeth Hfit Hupd.
  rewrite (req_gen_steps upd hc url meth hs h0 Hh Hb Hmeth Hfit), Hupd.
  destruct (decide _); split; intros; done.
Qed.





(** ** Memory pools *)

Lemma land_round_mask x :
  (0 <= x < 2 ^ 32)%Z -> Z.land x (Pool.u32 (- 16)) = (16 * (x / 16))%Z.
Proof.
  intros Hx.
  change (Pool.u32 (- 16)) with (Z.ldiff (Z.ones 32) (Z.ones 4)).
  assert (E : Z.land x (Z.ldiff (Z.ones 32) (Z.ones 4))
              = Z.ldiff (Z.land x (Z.ones 32)) (Z.ones 4)).
  { apply Z.bits_inj'. intros n Hn.
    rewrite !Z.land_spec, !Z.ldiff_spec, Z.land_spec.
    by rewrite andb_assoc. }
  rewrite E, Z.land_ones by lia.
  rewrite Z.mod_small by lia.
  rewrite Z.ldiff_ones_r by lia.
  rewrite Z.shiftr_div_pow2, Z.shiftl_mul_pow2 by lia.
  change (2 ^ 4)%Z with 16%Z. lia.
Qed.

(** X1. [create_pool] rounds the size asked for up to the next multiple
    of 16: for a size of at most [2^32 - 16] the rounded size is that
    multiple; the fifteen sizes above wrap to 0. *)
Theorem round_size_next_multiple :
  forall size : Z,
    (0 <= size < 2 ^ 32)%Z ->
    (Pool.round_size size mod 16 = 0)%Z /\
    (size <= 2 ^ 32 - 16 ->
     size <= Pool.round_size size < size + 16)%Z /\
    (2 ^ 32 - 16 < size -> Pool.round_size size = 0)%Z.
Proof.
  intros size Hs. unfold Pool.round_size.
  assert (Hr : (0 <= Pool.u32 (size + 16 - 1) < 2 ^ 32)%Z)
    by (unfold Pool.u32; apply Z.mod_pos_bound; lia).
  rewrite land_round_mask by done.
  split_and!.
  - rewrite Z.mul_comm. apply Z.mod_mul. lia.
  - intros Hle. unfold Pool.u32. rewrite Z.mod_small by lia.
    pose proof (Z.div_mod (size + 16 - 1) 16 ltac:(lia)).
    pose proof (Z.mod_pos_bound (size + 16 - 1) 16 ltac:(lia)). lia.
  - intros Hgt. unfold Pool.u32.
    replace (size + 16 - 1)%Z with ((size + 15 - 2 ^ 32) + 1 * 2 ^ 32)%Z by lia.
    rewrite Z.mod_add by lia. rewrite Z.mod_small by lia.
    rewrite Z.div_small by lia. lia.
Qed.

Lemma round_size_next_multiple_witness :
  (20 <= Pool.round_size 20 < 20 + 16)%Z /\ Pool.round_size (2 ^ 32 - 8) = 0%Z.
Proof.
  split.
  - apply (round_size_next_multiple 20); lia.
  - apply (round_size_next_multiple (2 ^ 32 - 8)); lia.
Defined.

Lemma find_place_shift size flags l : forall i,
  Pool.find_place size flags l i =
    match Pool.find_place size flags l 0 with
    | Pool.Share k => Pool.Share (i + k)
    | Pool.Insert_before k => Pool.Insert_before (i + k)
    | Pool.Insert_last => Pool.Insert_last
    end.
Proof.
  induction l as [|entry tl IH]; intros i; simpl; [done|].
  rewrite (IH (S i)), (IH 1).
  destruct (Pool.ph_size entry =? size)%Z.
  - destruct (negb _); [by rewrite Nat.add_0_r|].
    destruct (Pool.find_place size flags tl 0); f_equal; lia.
  - destruct (size <? Pool.ph_size entry)%Z; [by rewrite Nat.add_0_r|].
    destruct (Pool.find_place size flags tl 0); f_equal; lia.
Qed.

Lemma find_place_cons size flags entry tl :
  Pool.find_place size flags (entry :: tl) 0 =
    if (Pool.ph_size entry =? size)%Z && 
       negb (Z.land (Z.land flags (Pool.ph_flags entry)) Pool.MEM_F_SHARED =? 0)%Z
    then Pool.Share 0
    else if (size <? Pool.ph_size entry)%Z then Pool.Insert_before 0
    else match Pool.find_place size flags tl 0 with
         | Pool.Share k => Pool.Share (S k)
         | Pool.Insert_before k => Pool.Insert_before (S k)
         | Pool.Insert_last => Pool.Insert_last
         end.
Proof.
  simpl. rewrite (find_place_shift _ _ tl 1).
  destruct (Pool.ph_size entry =? size)%Z eqn:E; simpl.
  - destruct (negb _); [done|].
    apply Z.eqb_eq in E. rewrite (proj2 (Z.ltb_ge _ _)) by lia. done.
  - done.
Qed.

(** What the scan of [create_pool] guarantees about the place found:
    every entry passed over is no larger than the size looked for, and is
    not one that could be shared. *)
Lemma find_place_spec size flags l :
  let passed q := (Pool.ph_size q <= size)%Z /\
                  ~ (Pool.ph_size q = size /\ Pool.shareable flags q) in
  match Pool.find_place size flags l 0 with
  | Pool.Share k =>
      exists p, l !! k = Some p /\ Pool.ph_size p = size /\ Pool.shareable flags p /\
                Forall passed (take k l)
  | Pool.Insert_before k =>
      exists p, l !! k = Some p /\ (size < Pool.ph_size p)%Z /\
                Forall passed (take k l)
  | Pool.Insert_last => Forall passed l
  end.
Proof.
  intros passed.
  induction l as [|entry tl IH]; [by constructor|].
  rewrite find_place_cons.
  assert (Hrest : passed entry ->
    match
      match Pool.find_place size flags tl 0 with
      | Pool.Share k => Pool.Share (S k)
      | Pool.Insert_before k => Pool.Insert_before (S k)
      | Pool.Insert_last => Pool.Insert_last
      end
    with
    | Pool.Share k =>
        exists p, (entry :: tl) !! k = Some p /\ Pool.ph_size p = size /\
                  Pool.shareable flags p /\ Forall passed (take k (entry :: tl))
    | Pool.Insert_before k =>
        exists p, (entry :: tl) !! k = Some p /\ (size < Pool.ph_size p)%Z /\
                  Forall passed (take k (entry :: tl))
    | Pool.Insert_last => Forall passed (entry :: tl)
    end).
  { intros Hentry.
    destruct (Pool.find_place size flags tl 0) as [k|k|].
    - destruct IH as (p & Hk & Hsz & Hsh' & Hall). exists p. simpl.
      split_and!; try done. by constructor.
    - destruct IH as (p & Hk & Hlt' & Hall). exists p. simpl.
      split_and!; try done. by constructor.
    - by constructor. }
  destruct (Pool.ph_size entry =? size)%Z eqn:E; simpl.
  - apply Z.eqb_eq in E.
    destruct (Z.land _ _ =? 0)%Z eqn:Hsh; simpl.
    + rewrite (proj2 (Z.ltb_ge _ _)) by lia.
      apply Hrest. split; [lia|]. intros [_ Hs]. apply Hs.
      by apply Z.eqb_eq in Hsh.
    + exists entry.
      split_and!; [done | done | unfold Pool.shareable; by apply Z.eqb_neq in Hsh
                  | constructor].
  - apply Z.eqb_neq in E.
    destruct (size <? Pool.ph_size entry)%Z eqn:Hlt.
    + apply Z.ltb_lt in Hlt. exists entry. split_and!; [done | done | constructor].
    + apply Z.ltb_ge in Hlt. apply Hrest. split; [lia | tauto].
Qed.

Lemma sorted_insert x l k p :
  Pool.sorted_by_size l ->
  l !! k = Some p -> Pool.smaller x p ->
  Forall (fun q => Pool.smaller q x) (take k l) ->
  Pool.sorted_by_size (take k l ++ x :: drop k l).
Proof.
  unfold Pool.sorted_by_size, Pool.smaller.
  revert k. induction l as [|a l IH]; intros k Hs Hk Hxp Hbefore; [done|].
  apply StronglySorted_inv in Hs as [Hs Ha].
  destruct k as [|k]; simpl in *.
  - inversion Hk; subst p. constructor; [by constructor|].
    constructor; [done|]. eapply Forall_impl; [exact Ha|]. simpl. lia.
  - apply Forall_cons in Hbefore as [Hax Hbefore].
    constructor; [by eapply IH|].
    apply Forall_app. split; [by apply Forall_take|].
    constructor; [done|]. by apply Forall_drop.
Qed.

Lemma sorted_append x l :
  Pool.sorted_by_size l ->
  Forall (fun q => Pool.smaller q x) l ->
  Pool.sorted_by_size (l ++ [x]).
Proof.
  unfold Pool.sorted_by_size. intros Hs Hall.
  induction Hs as [|a l Hs IH Ha]; simpl; [repeat constructor|].
  apply Forall_cons in Hall as [Hax Hall].
  constructor; [by apply IH|].
  apply Forall_app. split; [done | by constructor].
Qed.

Lemma sorted_alter f l k :
  (forall p, Pool.ph_size (f p) = Pool.ph_size p) ->
  Pool.sorted_by_size l -> Pool.sorted_by_size (alter f k l).
Proof.
  unfold Pool.sorted_by_size, Pool.smaller. intros Hf Hs. revert k.
  induction Hs as [|a l Hs IH Ha]; intros k; [simpl; constructor|].
  destruct k as [|k]; simpl.
  - constructor; [done|].
    eapply Forall_impl; [exact Ha|]. simpl. intros q Hq. by rewrite Hf.
  - constructor; [apply IH|].
    apply Forall_alter; [done|]. intros p _ Hp. by rewrite Hf.
Qed.

(** X2. [create_pool] keeps the list of pools ordered by size: a pool is
    shared in place, or the new one is linked before the first larger
    pool, or at the end. *)
Theorem create_pool_keeps_order :
  forall name size flags calloc_ok pools,
    Pool.sorted_by_size pools ->
    Pool.sorted_by_size (Pool.create_pool name size flags calloc_ok pools).2.
Proof.
  intros name size flags ok pools Hs. unfold Pool.create_pool.
  pose proof (find_place_spec (Pool.round_size size) flags pools) as Hp.
  destruct (Pool.find_place _ _ pools 0) as [k|k|].
  - simpl. by apply sorted_alter.
  - destruct ok; [|done]. simpl. destruct Hp as (p & Hk & Hlt & Hbefore).
    eapply sorted_insert; try done.
    + unfold Pool.smaller. simpl. lia.
    + eapply Forall_impl; [exact Hbefore|]. unfold Pool.smaller. simpl. tauto.
  - destruct ok; [|done]. simpl. apply sorted_append; [done|].
    eapply Forall_impl; [exact Hp|]. unfold Pool.smaller. simpl. tauto.
Qed.

Lemma create_pool_keeps_order_witness :
  Pool.sorted_by_size
    (Pool.create_pool (Some "buffer"%string) 100 0 true
       [Pool.fresh_pool None 64 0; Pool.fresh_pool None 256 0]).2.
Proof.
  apply create_pool_keeps_order.
  repeat constructor; unfold Pool.smaller; simpl; lia.
Defined.

Lemma sorted_lookup l i j p q :
  Pool.sorted_by_size l -> l !! i = Some p -> l !! j = Some q -> i < j ->
  (Pool.ph_size p <= Pool.ph_size q)%Z.
Proof.
  unfold Pool.sorted_by_size. intros Hs. revert i j.
  induction Hs as [|a l Hs IH Ha]; intros i j Hi Hj Hlt; [done|].
  destruct j as [|j]; [lia|]. destruct i as [|i]; simpl in *.
  - inversion Hi; subst a. by apply (Forall_lookup_1 _ _ _ _ Ha Hj).
  - eapply IH; [done | done | lia].
Qed.

(** X3. In an ordered list, when some pool has the rounded size and may
    be shared by the caller, [create_pool] allocates nothing: it returns
    the first such pool and counts one more user on it, whether or not
    memory is available; no other pool changes. *)
Theorem create_pool_shares :
  forall name size flags calloc_ok pools k p,
    Pool.sorted_by_size pools ->
    pools !! k = Some p ->
    Pool.ph_size p = Pool.round_size size ->
    Pool.shareable flags p ->
    exists j q,
      j <= k /\ pools !! j = Some q /\
      Pool.ph_size q = Pool.round_size size /\ Pool.shareable flags q /\
      Pool.create_pool name size flags calloc_ok pools
        = (Some j, alter Pool.add_user j pools).
Proof.
  intros name size flags ok pools k p Hs Hk Hsz Hsh. unfold Pool.create_pool.
  pose proof (find_place_spec (Pool.round_size size) flags pools) as Hp.
  simpl in Hp.
  assert (Hnot : forall j, k < j ->
            ~ Forall (fun q => (Pool.ph_size q <= Pool.round_size size)%Z /\
                               ~ (Pool.ph_size q = Pool.round_size size /\
                                  Pool.shareable flags q)) (take j pools)).
  { intros j Hlt Hall.
    assert (Hin : take j pools !! k = Some p) by (by rewrite lookup_take_lt).
    destruct (Forall_lookup_1 _ _ _ _ Hall Hin) as [_ Hno]. by apply Hno. }
  destruct (Pool.find_place _ _ pools 0) as [j|j|].
  - destruct Hp as (q & Hj & Hqs & Hqsh & Hall).
    exists j, q. split_and!; try done.
    destruct (decide (j <= k)); [done|]. destruct (Hnot j); [lia | done].
  - destruct Hp as (q & Hj & Hlt & Hall). exfalso.
    destruct (decide (j < k)) as [Hjk|Hjk].
    + pose proof (sorted_lookup _ _ _ _ _ Hs Hj Hk Hjk). lia.
    + destruct (decide (j = k)) as [->|]; [rewrite Hk in Hj; inversion Hj; subst; lia|].
      destruct (Hnot j); [lia | done].
  - exfalso. destruct (Forall_lookup_1 _ _ _ _ Hp Hk) as [_ Hno]. by apply Hno.
Qed.

Lemma create_pool_shares_witness :
  Pool.create_pool (Some "session"%string) 250 Pool.MEM_F_SHARED false
     [Pool.fresh_pool None 64 0; Pool.fresh_pool None 256 Pool.MEM_F_SHARED]
  = (Some 1, [Pool.fresh_pool None 64 0;
              Pool.add_user (Pool.fresh_pool None 256 Pool.MEM_F_SHARED)]).
Proof.
  destruct (create_pool_shares (Some "session"%string) 250 Pool.MEM_F_SHARED false
              [Pool.fresh_pool None 64 0; Pool.fresh_pool None 256 Pool.MEM_F_SHARED]
              1 (Pool.fresh_pool None 256 Pool.MEM_F_SHARED))
    as (j & q & Hj & Hq & Hqs & _ & ->).
  - repeat constructor; unfold Pool.smaller; simpl; lia.
  - reflexivity.
  - reflexivity.
  - discriminate.
  - destruct j as [|[|j]]; [|reflexivity | lia].
    inversion Hq; subst q. vm_compute in Hqs. discriminate.
Defined.

(** X4. [create_pool] returns NULL only when [CALLOC] fails, and then
    the list of pools is what it was. Any pool it returns is in the list,
    has the rounded size and at least one user more than before or is
    new; the list grows by one pool at most. *)
Theorem create_pool_result :
  forall name size flags calloc_ok pools,
    let r := Pool.create_pool name size flags calloc_ok pools in
    match r.1 with
    | None => calloc_ok = false /\ r.2 = pools
    | Some i =>
        exists p, r.2 !! i = Some p /\
          Pool.ph_size p = Pool.round_size size /\
          (length r.2 = length pools \/
           (length r.2 = S (length pools) /\ calloc_ok = true /\
            p = Pool.add_user (Pool.fresh_pool name (Pool.round_size size) flags)))
    end.
Proof.
  intros name size flags ok pools. unfold Pool.create_pool. cbv zeta.
  pose proof (find_place_spec (Pool.round_size size) flags pools) as Hp.
  simpl in Hp.
  destruct (Pool.find_place _ _ pools 0) as [k|k|].
  - simpl. destruct Hp as (p & Hk & Hsz & _).
    exists (Pool.add_user p). rewrite list_lookup_alter_eq, Hk, length_alter.
    split_and!; auto.
  - destruct ok; simpl; [|done]. destruct Hp as (p & Hk & _).
    apply lookup_lt_Some in Hk.
    eexists. split_and!.
    + rewrite lookup_app_r; rewrite length_take, Nat.min_l by lia; [|lia].
      by rewrite Nat.sub_diag.
    + reflexivity.
    + right. rewrite length_app, length_take. simpl. rewrite length_drop.
      split_and!; [lia | done | done].
  - destruct ok; simpl; [|done].
    eexists. split_and!.
    + rewrite lookup_app_r by lia. by rewrite Nat.sub_diag.
    + reflexivity.
    + right. rewrite length_app. simpl. split_and!; [lia | done | done].
Qed.

Lemma land_shared_private flags other :
  Z.land flags Pool.MEM_F_SHARED = 0%Z ->
  Z.land (Z.land flags other) Pool.MEM_F_SHARED = 0%Z.
Proof.
  intros H. rewrite <- Z.land_assoc, (Z.land_comm other), Z.land_assoc, H.
  apply Z.land_0_l.
Qed.

(** X5. A caller that does not ask for a shared pool never gets an
    existing one: with memory available [create_pool] links a new pool
    with one user, no chunk and the rounded size into the list, leaving
    the other pools as they are; without memory it returns NULL. *)
Theorem create_pool_private :
  forall name size flags pools,
    Z.land flags Pool.MEM_F_SHARED = 0%Z ->
    (exists i, i <= length pools /\
       Pool.create_pool name size flags true pools
         = (Some i,
            take i pools ++
            {| Pool.ph_free_list := []; Pool.ph_used := 0; Pool.ph_allocated := 0;
               Pool.ph_limit := 0; Pool.ph_minavail := 0;
               Pool.ph_size := Pool.round_size size; Pool.ph_flags := flags;
               Pool.ph_users := 1; Pool.ph_name := name |} :: drop i pools)) /\
    Pool.create_pool name size flags false pools = (None, pools).
Proof.
  intros name size flags pools Hpriv. unfold Pool.create_pool.
  pose proof (find_place_spec (Pool.round_size size) flags pools) as Hp.
  simpl in Hp.
  destruct (Pool.find_place _ _ pools 0) as [k|k|].
  - destruct Hp as (p & _ & _ & Hsh & _). exfalso. apply Hsh.
    by apply land_shared_private.
  - split; [|done]. destruct Hp as (p & Hk & _).
    apply lookup_lt_Some in Hk. exists k. split; [lia | done].
  - split; [|done]. exists (length pools). split; [done|].
    by rewrite take_ge, drop_ge by lia.
Qed.

Lemma create_pool_private_witness :
  exists i, i <= 2 /\
    (Pool.create_pool (Some "task"%string) 100 0 true
       [Pool.fresh_pool None 64 0; Pool.fresh_pool None 256 0]).1 = Some i.
Proof.
  destruct (proj1 (create_pool_private (Some "task"%string) 100 0
              [Pool.fresh_pool None 64 0; Pool.fresh_pool None 256 0] eq_refl))
    as (i & Hi & ->).
  exists i. split; [exact Hi | reflexivity].
Defined.

Lemma u32_range x : Pool.in_range (Pool.u32 x).
Proof. unfold Pool.in_range, Pool.u32. apply Z.mod_pos_bound. lia. Qed.

Lemma u32_small x : Pool.in_range x -> Pool.u32 x = x.
Proof. unfold Pool.in_range, Pool.u32. intros H. by apply Z.mod_small. Qed.

Lemma flush_loop_spec next : forall allocated,
  Pool.in_range allocated ->
  Pool.flush_loop next allocated
    = (next, Pool.u32 (allocated - Z.of_nat (length next))).
Proof.
  induction next as [|temp next IH]; intros a Ha; simpl.
  - by rewrite Z.sub_0_r, u32_small.
  - rewrite IH by apply u32_range. f_equal.
    unfold Pool.u32. rewrite Zminus_mod_idemp_l. f_equal. lia.
Qed.

(** X6. [pool_flush2] frees every chunk of the free list, first to
    last, and nothing else; the free list is empty afterwards and the
    chunks in use are not touched. If every allocated chunk was either in
    use or on the free list, then afterwards as many chunks are
    allocated as are in use. *)
Theorem pool_flush2_frees_exactly_the_free_list :
  forall p : Pool.pool_head,
    Pool.in_range (Pool.ph_allocated p) ->
    (Pool.pool_flush2 p).1 = Pool.ph_free_list p /\
    Pool.ph_free_list (Pool.pool_flush2 p).2 = [] /\
    Pool.ph_used (Pool.pool_flush2 p).2 = Pool.ph_used p /\
    Pool.ph_allocated (Pool.pool_flush2 p).2
      = Pool.u32 (Pool.ph_allocated p - Z.of_nat (length (Pool.ph_free_list p))) /\
    (Pool.balanced p ->
     Pool.ph_allocated (Pool.pool_flush2 p).2 = Pool.ph_used p /\
     Pool.balanced (Pool.pool_flush2 p).2).
Proof.
  intros p Ha. unfold Pool.pool_flush2. rewrite flush_loop_spec by done. simpl.
  split_and!; try done.
  intros (_ & Hu & Hb).
  assert (E : Pool.u32 (Pool.ph_allocated p - Z.of_nat (length (Pool.ph_free_list p)))
              = Pool.ph_used p).
  { rewrite Hb.
    replace (Pool.ph_used p + Z.of_nat (length (Pool.ph_free_list p))
             - Z.of_nat (length (Pool.ph_free_list p)))%Z
      with (Pool.ph_used p) by lia.
    by apply u32_small. }
  split; [done|]. unfold Pool.balanced. simpl. rewrite E. split_and!; try done. lia.
Qed.

Lemma pool_flush2_frees_exactly_the_free_list_witness :
  let p := Pool.with_counts (Pool.fresh_pool None 64 0) [7; 9] 5 3 in
  (Pool.pool_flush2 p).1 = [7; 9] /\ Pool.ph_allocated (Pool.pool_flush2 p).2 = 3%Z.
Proof.
  intros p.
  destruct (pool_flush2_frees_exactly_the_free_list p) as (H1 & _ & _ & _ & H5).
  - unfold Pool.in_range. simpl. lia.
  - split; [exact H1|]. apply H5. unfold Pool.balanced, Pool.in_range. simpl. lia.
Defined.

Lemma gc_loop_spec next minavail used : forall allocated,
  Pool.in_range allocated -> (0 <= used)%Z ->
  let r := Pool.gc_loop next allocated minavail used in
  next = r.1.1 ++ r.1.2 /\
  r.2 = (allocated - Z.of_nat (length r.1.1))%Z /\
  Pool.in_range r.2 /\
  (Z.min allocated (Z.max minavail used) <= r.2)%Z /\
  (r.1.2 = [] \/ r.2 <= minavail \/ r.2 <= used)%Z.
Proof.
  induction next as [|temp next IH]; intros a Ha Hu; simpl.
  - split_and!; auto; lia.
  - destruct (minavail <? a)%Z eqn:E1; simpl;
      [destruct (used <? a)%Z eqn:E2; simpl|].
    + apply Z.ltb_lt in E1, E2.
      assert (Hs : Pool.u32 (a - 1) = (a - 1)%Z)
        by (apply u32_small; unfold Pool.in_range in *; lia).
      rewrite Hs.
      destruct (IH (a - 1)%Z) as (H1 & H2 & H3 & H4 & H5);
        [unfold Pool.in_range in *; lia | done |].
      destruct (Pool.gc_loop next (a - 1) minavail used) as [[freed kept] a'].
      simpl in *. split_and!; [by f_equal | lia | done | lia | done].
    + apply Z.ltb_ge in E2. split_and!; auto; lia.
    + apply Z.ltb_ge in E1. split_and!; auto; lia.
Qed.

Lemma pool_gc2_lookup pools : forall i,
  (Pool.pool_gc2 pools).2 !! i = (fun p => (Pool.gc_entry p).2) <$> pools !! i.
Proof.
  induction pools as [|entry tl IH]; intros i; simpl; [done|].
  destruct (Pool.gc_entry entry) as [freed entry'] eqn:E.
  destruct (Pool.pool_gc2 tl) as [freed' tl'] eqn:E'. simpl in *.
  destruct i as [|i]; simpl; [by rewrite E | apply IH].
Qed.

(** What the garbage collector does to one pool of the list. *)
Lemma pool_gc2_entry :
  forall pools i p,
    pools !! i = Some p ->
    Pool.in_range (Pool.ph_allocated p) -> (0 <= Pool.ph_used p)%Z ->
    exists p' freed,
      (Pool.pool_gc2 pools).2 !! i = Some p' /\
      Pool.ph_free_list p = freed ++ Pool.ph_free_list p' /\
      Pool.ph_used p' = Pool.ph_used p /\
      Pool.ph_minavail p' = Pool.ph_minavail p /\
      Pool.ph_limit p' = Pool.ph_limit p /\
      Pool.ph_allocated p' = (Pool.ph_allocated p - Z.of_nat (length freed))%Z /\
      (Z.min (Pool.ph_allocated p) (Z.max (Pool.ph_minavail p) (Pool.ph_used p))
         <= Pool.ph_allocated p')%Z /\
      (Pool.ph_free_list p' = [] \/
       Pool.ph_allocated p' <= Pool.ph_minavail p \/
       Pool.ph_allocated p' <= Pool.ph_used p)%Z /\
      (Pool.balanced p -> Pool.balanced p').
Proof.
  intros pools i p Hi Ha Hu.
  rewrite pool_gc2_lookup, Hi. simpl. unfold Pool.gc_entry.
  pose proof (gc_loop_spec (Pool.ph_free_list p) (Pool.ph_minavail p) (Pool.ph_used p)
                _ Ha Hu) as (H1 & H2 & H3 & H4 & H5).
  destruct (Pool.gc_loop _ _ _ _) as [[freed kept] a']. simpl in *.
  exists (Pool.with_counts p kept a' (Pool.ph_used p)), freed. simpl.
  split_and!; try done.
  intros (_ & Hur & Hb). unfold Pool.balanced. simpl. split_and!; try done.
  rewrite H2, Hb, H1, length_app. lia.
Qed.

(** X7. [pool_gc2] frees chunks from the head of each free list only,
    never a chunk in use, and respects the thresholds: a pool is not
    brought below [minavail] nor below the number in use unless it
    already was, and the collection of a pool goes on until its free
    list is empty or a threshold is reached. The balance between
    allocated, used and free chunks is kept. *)
Theorem pool_gc2_respects_thresholds :
  forall pools i p,
    pools !! i = Some p ->
    Pool.in_range (Pool.ph_allocated p) -> (0 <= Pool.ph_used p)%Z ->
    exists p' freed,
      (Pool.pool_gc2 pools).2 !! i = Some p' /\
      Pool.ph_free_list p = freed ++ Pool.ph_free_list p' /\
      Pool.ph_used p' = Pool.ph_used p /\
      Pool.ph_minavail p' = Pool.ph_minavail p /\
      Pool.ph_limit p' = Pool.ph_limit p /\
      Pool.ph_allocated p' = (Pool.ph_allocated p - Z.of_nat (length freed))%Z /\
      (Z.min (Pool.ph_allocated p) (Z.max (Pool.ph_minavail p) (Pool.ph_used p))
         <= Pool.ph_allocated p')%Z /\
      (Pool.ph_free_list p' = [] \/
       Pool.ph_allocated p' <= Pool.ph_minavail p \/
       Pool.ph_allocated p' <= Pool.ph_used p)%Z /\
      (Pool.balanced p -> Pool.balanced p').
Proof. exact pool_gc2_entry. Qed.

Lemma pool_gc2_respects_thresholds_witness :
  let p := {| Pool.ph_free_list := [7; 9; 11]; Pool.ph_used := 2;
              Pool.ph_allocated := 5; Pool.ph_limit := 0; Pool.ph_minavail := 4;
              Pool.ph_size := 64; Pool.ph_flags := 0; Pool.ph_users := 1;
              Pool.ph_name := None |} in
  exists p', (Pool.pool_gc2 [p]).2 !! 0 = Some p' /\ (4 <= Pool.ph_allocated p')%Z.
Proof.
  intros p.
  destruct (pool_gc2_respects_thresholds [p] 0 p eq_refl)
    as (p' & freed & H1 & _ & _ & _ & _ & _ & H7 & _).
  - unfold Pool.in_range. simpl. lia.
  - simpl. lia.
  - exists p'. split; [exact H1|]. simpl in H7. lia.
Defined.

(** X8. [pool_refill_alloc] keeps a pool within its limit and counts
    what it hands out: if the pool is balanced, not above its limit (when
    it has one) and its counters are not at their maximum, then
    afterwards, whatever the two [MALLOC]s return, the pool is balanced
    and within its limit, and the number of chunks in use has grown by
    one exactly when a chunk was returned. At the limit it returns NULL
    without calling [MALLOC] or the garbage collector. *)
Theorem pool_refill_alloc_counts :
  forall i malloc1 malloc2 pools p,
    pools !! i = Some p ->
    Pool.balanced p ->
    (Pool.ph_allocated p < 2 ^ 32 - 1)%Z ->
    (Pool.ph_limit p <> 0 -> Pool.ph_allocated p <= Pool.ph_limit p)%Z ->
    let r := Pool.pool_refill_alloc i malloc1 malloc2 pools in
    (exists p',
       r.2 !! i = Some p' /\
       Pool.balanced p' /\
       Pool.ph_limit p' = Pool.ph_limit p /\
       (Pool.ph_limit p <> 0 -> Pool.ph_allocated p' <= Pool.ph_limit p)%Z /\
       Pool.ph_used p'
         = (Pool.ph_used p + if r.1.1 is Some _ then 1 else 0)%Z) /\
    ((Pool.ph_limit p <> 0 /\ Pool.ph_limit p <= Pool.ph_allocated p)%Z ->
     r = (None, [], pools)).
Proof.
  intros i m1 m2 pools p Hi Hbal Hmax Hlim r. subst r.
  unfold Pool.pool_refill_alloc. rewrite Hi.
  pose proof Hbal as (Ha & Hu & Hb).
  destruct (negb (Pool.ph_limit p =? 0)%Z && (Pool.ph_limit p <=? Pool.ph_allocated p)%Z)
    eqn:Hat.
  { split; [|done]. exists p. simpl. split_and!; try done. lia. }
  assert (Hroom : (Pool.ph_limit p <> 0 -> Pool.ph_allocated p < Pool.ph_limit p)%Z).
  { intros Hne. apply andb_false_iff in Hat as [Hat | Hat].
    - apply negb_false_iff, Z.eqb_eq in Hat. lia.
    - apply Z.leb_gt in Hat. lia. }
  split; [|intros [Hne Hle]; specialize (Hroom Hne); lia].
  assert (Hcount : forall q,
            Pool.balanced q -> Pool.ph_used q = Pool.ph_used p ->
            Pool.ph_limit q = Pool.ph_limit p ->
            (Pool.ph_allocated q <= Pool.ph_allocated p)%Z ->
            let q' := Pool.with_counts q (Pool.ph_free_list q)
                        (Pool.u32 (Pool.ph_allocated q + 1))
                        (Pool.u32 (Pool.ph_used q + 1)) in
            Pool.balanced q' /\ Pool.ph_limit q' = Pool.ph_limit p /\
            (Pool.ph_limit p <> 0 -> Pool.ph_allocated q' <= Pool.ph_limit p)%Z /\
            Pool.ph_used q' = (Pool.ph_used p + 1)%Z).
  { intros q (Hqa & Hqu & Hqb) Hqu' Hql Hqle. simpl.
    unfold Pool.in_range in *.
    rewrite !u32_small by (unfold Pool.in_range; lia).
    unfold Pool.balanced, Pool.in_range. simpl. split_and!; try lia.
    all: intros Hne; specialize (Hroom Hne); lia. }
  destruct m1 as [ret|].
  - simpl. rewrite list_lookup_alter_eq, Hi. simpl. eexists. split; [done|].
    by apply Hcount.
  - destruct (pool_gc2_entry pools i p Hi Ha)
      as (p' & freed & Hg & _ & Hgu & _ & Hgl & Hga & _ & _ & Hgb);
      [unfold Pool.in_range in Hu; lia|].
    destruct (Pool.pool_gc2 pools) as [freed' pools'] eqn:Hgc. simpl in Hg.
    destruct m2 as [ret|]; simpl.
    + rewrite list_lookup_alter_eq, Hg. simpl. eexists. split; [done|].
      apply Hcount; [by apply Hgb | done | done | lia].
    + exists p'. split_and!; try done; [by apply Hgb | | lia].
      intros Hne. specialize (Hroom Hne). lia.
Qed.

Lemma pool_refill_alloc_counts_witness :
  exists p',
    (Pool.pool_refill_alloc 0 None (Some 40) [Sample.pool]).2 !! 0 = Some p' /\
    Pool.balanced p' /\ Pool.ph_used p' = 2%Z.
Proof.
  assert (Hbal : Pool.balanced Sample.pool)
    by (unfold Pool.balanced, Pool.in_range; simpl; lia).
  destruct (proj1 (pool_refill_alloc_counts 0 None (Some 40) [Sample.pool] Sample.pool
                     eq_refl Hbal ltac:(simpl; lia) ltac:(simpl; lia)))
    as (p' & H1 & H2 & _ & _ & H5).
  exists p'. split_and!; assumption.
Defined.

(** ** Creating and destroying a handle *)

Lemma next_alloc_keeps m :
  Lifecycle.mem_handles (Lifecycle.next_alloc m).2 = Lifecycle.mem_handles m /\
  Lifecycle.mem_buffers (Lifecycle.next_alloc m).2 = Lifecycle.mem_buffers m /\
  Lifecycle.mem_bufsize (Lifecycle.next_alloc m).2 = Lifecycle.mem_bufsize m.
Proof. unfold Lifecycle.next_alloc. by destruct (Lifecycle.mem_oracle m). Qed.

(** What [httpclient_new] does to the memory, case by case. *)
Lemma httpclient_new_cases caller meth url m :
  let r := Lifecycle.httpclient_new caller meth url m in
  let p := fresh (dom (Lifecycle.mem_handles m)) in
  (r.1 = None /\
   Lifecycle.mem_handles r.2 = Lifecycle.mem_handles m /\
   Lifecycle.mem_buffers r.2 = Lifecycle.mem_buffers m) \/
  (r.1 = Some p /\
   Lifecycle.mem_buffers r.2 = Lifecycle.mem_buffers m + 2 /\
   Lifecycle.mem_handles r.2 =
     <[p := {| hc_req_buf :=
                 {| hb_data := 0;
                    hb_htx := Some {| htx_size := Lifecycle.mem_bufsize m;
                                      htx_blks := []; htx_flags := 0 |} |};
               hc_req_url := url; hc_req_meth := meth;
               hc_res_status := 0; hc_res_vsn := IST_NULL;
               hc_res_reason := IST_NULL; hc_res_hdrs := None;
               hc_res_buf := {| b_size := Lifecycle.mem_bufsize m; b_bytes := [] |};
               hc_ops := {| res_stline := false; res_headers := false;
                            res_payload := false; res_end := false |};
               hc_appctx := false; hc_caller := caller |}]>
       (Lifecycle.mem_handles m)).
Proof.
  intros r p. subst r. unfold Lifecycle.httpclient_new.
  assert (Hfresh : Lifecycle.mem_handles m !! p = None)
    by (apply not_elem_of_dom, is_fresh).
  destruct (Lifecycle.next_alloc m) as [ok1 m1] eqn:E1.
  pose proof (next_alloc_keeps m) as (K1 & K1' & K1''). rewrite E1 in K1, K1', K1''.
  simpl in K1, K1', K1''.
  destruct ok1; simpl; [|left; auto].
  rewrite K1. fold p.
  destruct (Lifecycle.next_alloc (Lifecycle.store p Lifecycle.zeroed 0 m1))
    as [ok2 m3] eqn:E2.
  pose proof (next_alloc_keeps (Lifecycle.store p Lifecycle.zeroed 0 m1))
    as (K2 & K2' & K2''). rewrite E2 in K2, K2', K2''. simpl in K2, K2', K2''.
  destruct ok2; simpl.
  - match goal with |- context [Lifecycle.next_alloc ?x] =>
      destruct (Lifecycle.next_alloc x) as [ok3 m5] eqn:E3;
      pose proof (next_alloc_keeps x) as (K3 & K3' & K3'') end.
    rewrite E3 in K3, K3', K3''. simpl in K3, K3', K3''.
    destruct ok3; simpl.
    + right. split; [done|]. split; [rewrite K3', K2', K1'; lia|].
      by rewrite K3, K2, K1, !insert_insert_eq.
    + left. unfold Lifecycle.httpclient_destroy.
      rewrite K3, lookup_insert_eq. simpl.
      split; [done|]. split; [|rewrite K3', K2', K1'; unfold Lifecycle.held; simpl; lia].
      rewrite K2, K1, !delete_insert_eq. by apply delete_id.
  - left. unfold Lifecycle.httpclient_destroy.
    rewrite K2, lookup_insert_eq. simpl.
    split; [done|]. split; [|rewrite K2', K1'; unfold Lifecycle.held; simpl; lia].
    rewrite K1, delete_insert_eq. by apply delete_id.
Qed.

(** X9. When [httpclient_new] returns NULL, whichever of its three
    allocations failed, nothing stays allocated: the handles and the
    number of buffers taken from the pool are what they were. *)
Theorem httpclient_new_failure_leaves_nothing :
  forall caller meth url m,
    (Lifecycle.httpclient_new caller meth url m).1 = None ->
    Lifecycle.mem_handles (Lifecycle.httpclient_new caller meth url m).2
      = Lifecycle.mem_handles m /\
    Lifecycle.mem_buffers (Lifecycle.httpclient_new caller meth url m).2
      = Lifecycle.mem_buffers m.
Proof.
  intros caller meth url m Hnone.
  destruct (httpclient_new_cases caller meth url m) as [(_ & H1 & H2) | (Hs & _)];
    [done | congruence].
Qed.

(** The handle and the request buffer are obtained, the response buffer
    is not. *)
Lemma httpclient_new_failure_leaves_nothing_witness :
  let m := {| Lifecycle.mem_handles := ∅; Lifecycle.mem_buffers := 3;
              Lifecycle.mem_bufsize := 64;
              Lifecycle.mem_oracle := [true; true; false] |} in
  Lifecycle.mem_buffers
    (Lifecycle.httpclient_new None HTTP_METH_GET "http://127.0.0.1/" m).2 = 3.
Proof.
  intros m.
  exact (proj2 (httpclient_new_failure_leaves_nothing None HTTP_METH_GET
                  "http://127.0.0.1/" m eq_refl)).
Defined.

(** X10. When [httpclient_new] succeeds, the handle is at an address
    that held none, every other handle is untouched, two buffers were
    taken from the pool, and the handle has the caller, the method and
    the URL given, two empty buffers of the global buffer size, no
    callback, no applet, and no response field set. *)
Theorem httpclient_new_success :
  forall caller meth url m p,
    (Lifecycle.httpclient_new caller meth url m).1 = Some p ->
    let m' := (Lifecycle.httpclient_new caller meth url m).2 in
    Lifecycle.mem_handles m !! p = None /\
    (forall q, q <> p ->
       Lifecycle.mem_handles m' !! q = Lifecycle.mem_handles m !! q) /\
    Lifecycle.mem_buffers m' = Lifecycle.mem_buffers m + 2 /\
    Lifecycle.mem_handles m' !! p =
      Some {| hc_req_buf :=
                {| hb_data := 0;
                   hb_htx := Some {| htx_size := Lifecycle.mem_bufsize m;
                                     htx_blks := []; htx_flags := 0 |} |};
              hc_req_url := url; hc_req_meth := meth;
              hc_res_status := 0; hc_res_vsn := IST_NULL;
              hc_res_reason := IST_NULL; hc_res_hdrs := None;
              hc_res_buf := {| b_size := Lifecycle.mem_bufsize m; b_bytes := [] |};
              hc_ops := {| res_stline := false; res_headers := false;
                           res_payload := false; res_end := false |};
              hc_appctx := false; hc_caller := caller |}.
Proof.
  intros caller meth url m p Hsome m'. subst m'.
  destruct (httpclient_new_cases caller meth url m) as [(Hn & _) | (Hs & Hb & Hh)];
    [congruence|].
  rewrite Hs in Hsome. inversion Hsome; subst p. rewrite Hh.
  split_and!.
  - apply not_elem_of_dom, is_fresh.
  - intros q Hq. by rewrite lookup_insert_ne.
  - done.
  - apply lookup_insert_eq.
Qed.

Lemma httpclient_new_success_witness :
  let m := {| Lifecycle.mem_handles := ∅; Lifecycle.mem_buffers := 3;
              Lifecycle.mem_bufsize := 64; Lifecycle.mem_oracle := [] |} in
  exists p,
    (Lifecycle.httpclient_new (Some 7) HTTP_METH_GET "http://127.0.0.1/" m).1 = Some p /\
    Lifecycle.mem_buffers
      (Lifecycle.httpclient_new (Some 7) HTTP_METH_GET "http://127.0.0.1/" m).2 = 5.
Proof.
  intros m.
  destruct (Lifecycle.httpclient_new (Some 7) HTTP_METH_GET "http://127.0.0.1/" m).1
    as [p|] eqn:E; [|vm_compute in E; discriminate].
  exists p. split; [done|].
  exact (proj1 (proj2 (proj2 (httpclient_new_success (Some 7) HTTP_METH_GET
                                "http://127.0.0.1/" m p E)))).
Defined.

(** X11. [httpclient_destroy] undoes [httpclient_new]: destroying the
    handle just created releases both buffers and the handle, and leaves
    the handles and the number of buffers taken as they were before the
    creation. *)
Theorem httpclient_new_then_destroy :
  forall caller meth url m p,
    Lifecycle.mem_bufsize m <> 0 ->
    (Lifecycle.httpclient_new caller meth url m).1 = Some p ->
    let m' := Lifecycle.httpclient_destroy (Some p)
                (Lifecycle.httpclient_new caller meth url m).2 in
    Lifecycle.mem_handles m' = Lifecycle.mem_handles m /\
    Lifecycle.mem_buffers m' = Lifecycle.mem_buffers m.
Proof.
  intros caller meth url m p Hsize Hsome m'. subst m'.
  destruct (httpclient_new_cases caller meth url m) as [(Hn & _) | (Hs & Hb & Hh)];
    [congruence|].
  rewrite Hs in Hsome. inversion Hsome; subst p.
  assert (Hf : Lifecycle.mem_handles m !! fresh (dom (Lifecycle.mem_handles m)) = None)
    by apply not_elem_of_dom, is_fresh.
  unfold Lifecycle.httpclient_destroy. rewrite Hh, lookup_insert_eq. simpl.
  rewrite Hb, delete_insert_eq. split; [by apply delete_id|].
  unfold Lifecycle.held. simpl.
  destruct (decide (Lifecycle.mem_bufsize m = 0)); lia.
Qed.

Lemma httpclient_new_then_destroy_witness :
  let m := {| Lifecycle.mem_handles := ∅; Lifecycle.mem_buffers := 3;
              Lifecycle.mem_bufsize := 64; Lifecycle.mem_oracle := [] |} in
  exists p,
    (Lifecycle.httpclient_new None HTTP_METH_GET "http://127.0.0.1/" m).1 = Some p /\
    Lifecycle.mem_buffers
      (Lifecycle.httpclient_destroy (Some p)
         (Lifecycle.httpclient_new None HTTP_METH_GET "http://127.0.0.1/" m).2) = 3.
Proof.
  intros m.
  destruct (Lifecycle.httpclient_new None HTTP_METH_GET "http://127.0.0.1/" m).1
    as [p|] eqn:E; [|vm_compute in E; discriminate].
  exists p. split; [done|].
  refine (proj2 (httpclient_new_then_destroy None HTTP_METH_GET
                   "http://127.0.0.1/" m p _ E)).
  simpl. lia.
Defined.


(** ** A released applet *)

(** X12. Once [httpclient_applet_release] has run, the transfer function
    moves the same bytes and returns the same count as before, but never
    wakes the applet. *)
Theorem released_applet_is_not_woken :
  forall (a : appctx) (dst : buffer),
    let r := httpclient_res_xfer (hc (httpclient_applet_release a)) dst in
    r.2 = false /\
    r.1.1.1 = (httpclient_res_xfer (hc a) dst).1.1.1 /\
    r.1.2 = (httpclient_res_xfer (hc a) dst).1.2 /\
    hc_res_buf r.1.1.2 = hc_res_buf (httpclient_res_xfer (hc a) dst).1.1.2.
Proof.
  intros a dst. unfold httpclient_res_xfer, b_xfer. simpl.
  split_and!; try reflexivity. apply andb_false_r.
Qed.

(** ** The order of the callbacks and of the states *)

Lemma continues_label a m pre lo r :
  called m = called a ++ pre ->
  hc_ops (hc m) = hc_ops (hc a) ->
  lo <= state_rank (st0 m) ->
  (r = at_end m \/ r = at_more m \/ r = at_process_data m) ->
  exists e,
    called r.2 = called a ++ pre ++
      (if e && res_end (hc_ops (hc a)) then [CB_res_end] else []) /\
    lo <= state_rank (st0 r.2) /\
    (e = true <-> r.1 = Exit_end).
Proof.
  intros Hc Ho Hlo Hr.
  assert (Hend : forall x, called x = called m -> hc x = hc m -> st0 x = st0 m ->
            called (at_end x).2 = called a ++ pre ++
              (if true && res_end (hc_ops (hc a)) then [CB_res_end] else []) /\
            lo <= state_rank (st0 (at_end x).2) /\
            (true = true <-> (at_end x).1 = Exit_end)).
  { intros x Hx Hh Hs.
    destruct (at_end_outcome x) as (-> & H1 & -> & _ & _ & -> & _).
    rewrite Hx, Hh, Hs, Hc, Ho, <- app_assoc. done. }
  destruct Hr as [-> | [-> | ->]].
  - exists true. by apply Hend.
  - destruct (at_more_outcome m) as [[-> _] | [-> _]].
    + exists true. by apply Hend.
    + exists false. simpl. rewrite Hc, !app_nil_r. done.
  - exists false. simpl. rewrite Hc, !app_nil_r. done.
Qed.

Lemma continues_payloads a m pre lo r n :
  called m = called a ++ pre ++
    (if res_payload (hc_ops (hc a)) then replicate n CB_res_payload else []) ->
  hc_ops (hc m) = hc_ops (hc a) ->
  lo <= state_rank (st0 m) ->
  (r = at_end m \/ r = at_more m \/ r = at_process_data m) ->
  continues a pre lo r.
Proof.
  intros Hc Ho Hlo Hr.
  destruct (continues_label a m _ lo r Hc Ho Hlo Hr) as (e & H1 & H2 & H3).
  exists n, e. rewrite H1, <- !app_assoc. done.
Qed.

Lemma case_RES_BODY_continues a0 a pre :
  called a = called a0 ++ pre ->
  hc_ops (hc a) = hc_ops (hc a0) ->
  st0 a = HTTPCLIENT_S_RES_BODY ->
  continues a0 pre 3 (case_RES_BODY a).
Proof.
  intros Hc Ho Hst. unfold case_RES_BODY, htxbuf.
  assert (Hplain : forall r,
            (r = at_end a \/ r = at_more a \/ r = at_process_data a) ->
            continues a0 pre 3 r).
  { intros r Hr. apply (continues_payloads a0 a pre 3 r 0); try done.
    - rewrite Hc. by destruct (res_payload _); rewrite ?app_nil_r.
    - by rewrite Hst. }
  destruct (hb_htx (chn_buf (res a))) as [h|]; [|by apply Hplain; auto].
  destruct (htx_is_empty h); [by apply Hplain; auto|].
  destruct (b_full (hc_res_buf (hc a))); [by apply Hplain; auto|].
  destruct (body_loop (htx_blks h) a) as [[stop kept] a1] eqn:Hl.
  apply body_loop_spec in Hl.
  destruct Hl as (Hs1 & _ & _ & _ & _ & Ho1 & _ & _ & _ & (n & Hc1) & _).
  assert (Hcalled : called (res_with_blks a1 h kept) = called a0 ++ pre ++
            (if res_payload (hc_ops (hc a0)) then replicate n CB_res_payload else [])).
  { simpl. rewrite Hc1, Hc, Ho, <- app_assoc. done. }
  assert (Hops : hc_ops (hc (res_with_blks a1 h kept)) = hc_ops (hc a0))
    by (simpl; congruence).
  destruct stop.
  - eapply continues_payloads; [exact Hcalled | exact Hops | | auto].
    simpl. by rewrite Hs1, Hst.
  - destruct (negb (htx_has h HTX_FL_EOM)).
    + eapply continues_payloads; [exact Hcalled | exact Hops | | auto].
      simpl. by rewrite Hs1, Hst.
    + unfold case_RES_END.
      eapply (continues_payloads a0 (with_st0 (res_with_blks a1 h kept)
                                       HTTPCLIENT_S_RES_END));
        [exact Hcalled | exact Hops | simpl; lia | auto].
Qed.

Lemma body_or_end_continues a0 a pre h :
  called a = called a0 ++ pre ->
  hc_ops (hc a) = hc_ops (hc a0) ->
  continues a0 pre 3 (body_or_end h a).
Proof.
  intros Hc Ho. unfold body_or_end. destruct (eom_and_empty h).
  - unfold case_RES_END.
    apply (continues_payloads a0 (with_st0 a HTTPCLIENT_S_RES_END) pre 3 _ 0);
      [|done | simpl; lia | auto].
    simpl. rewrite Hc. by destruct (res_payload _); rewrite ?app_nil_r.
  - by apply case_RES_BODY_continues.
Qed.

Lemma continues_weaken a pre lo lo' r :
  lo' <= lo -> continues a pre lo r -> continues a pre lo' r.
Proof. intros Hle (n & e & H1 & H2 & H3). exists n, e. split_and!; [done | lia | done]. Qed.

Lemma called_call b cb (a : appctx) :
  called (call b cb a) = called a ++ (if b then [cb] else []) /\
  hc (call b cb a) = hc a /\ st0 (call b cb a) = st0 a.
Proof. destruct b; simpl; by rewrite ?app_nil_r. Qed.

Lemma case_RES_HDR_continues a0 a pre :
  called a = called a0 ++ pre ->
  hc_ops (hc a) = hc_ops (hc a0) ->
  st0 a = HTTPCLIENT_S_RES_HDR ->
  exists h,
    continues a0
      (pre ++ if h && res_headers (hc_ops (hc a0)) then [CB_res_headers] else [])
      2 (case_RES_HDR a).
Proof.
  intros Hc Ho Hst. unfold case_RES_HDR, htxbuf.
  assert (Hplain : forall m r,
            called m = called a -> hc_ops (hc m) = hc_ops (hc a) -> st0 m = st0 a ->
            (r = at_end m \/ r = at_more m \/ r = at_process_data m) ->
            continues a0 (pre ++ if false && res_headers (hc_ops (hc a0))
                                 then [CB_res_headers] else []) 2 r).
  { intros m r Hm Hmo Hms Hr. simpl. rewrite app_nil_r.
    apply (continues_payloads a0 m pre 2 r 0); try done.
    - rewrite Hm, Hc. by destruct (res_payload _); rewrite ?app_nil_r.
    - congruence.
    - by rewrite Hms, Hst. }
  destruct (decide (hb_data (chn_buf (res a)) = 0));
    [exists false; by apply (Hplain a); auto|].
  destruct (hb_htx (chn_buf (res a))) as [hx|];
    [|exists false; by apply (Hplain a); auto].
  set (r := hdr_loop (htx_blks hx) ∅ 0 (allocs a)).
  set (a1 := with_allocs (res_with_blks a hx (hs_left r)) (hs_allocs r)).
  assert (Hcommit : exists h,
            continues a0
              (pre ++ if h && res_headers (hc_ops (hc a0)) then [CB_res_headers] else [])
              2
              (if decide (hs_num r = 0)
               then body_or_end (htx_with_blks hx (hs_left r)) a1
               else
                 let (ok, l) := next_alloc (allocs a1) in
                 let a2 := with_allocs a1 l in
                 if negb ok then at_end a2
                 else
                   let a3 := with_hc a2 (hc_with_hdrs (hc a2)
                               (Some (copy_hdrs (hs_hdrs r) (hs_num r + 1)))) in
                   body_or_end (htx_with_blks hx (hs_left r))
                     (call (res_headers (hc_ops (hc a3))) CB_res_headers a3))).
  { destruct (decide (hs_num r = 0)).
    - exists false. simpl. rewrite app_nil_r.
      apply (continues_weaken _ _ 3); [lia|]. by apply body_or_end_continues.
    - destruct (next_alloc (allocs a1)) as [ok l]. cbv zeta.
      destruct ok; cbn [negb].
      + exists true. apply (continues_weaken _ _ 3); [lia|].
        apply body_or_end_continues.
        * destruct (called_call (res_headers (hc_ops (hc a0))) CB_res_headers
                      (with_hc (with_allocs a1 l) (hc_with_hdrs (hc (with_allocs a1 l))
                         (Some (copy_hdrs (hs_hdrs r) (hs_num r + 1))))))
            as (Hcc & _ & _).
          simpl in *. rewrite Ho. rewrite Hcc, Hc, <- app_assoc. done.
        * destruct (called_call (res_headers (hc_ops (hc a0))) CB_res_headers
                      (with_hc (with_allocs a1 l) (hc_with_hdrs (hc (with_allocs a1 l))
                         (Some (copy_hdrs (hs_hdrs r) (hs_num r + 1))))))
            as (_ & Hch & _).
          simpl in *. rewrite Ho, Hch. simpl. done.
      + exists false. by apply (Hplain (with_allocs a1 l)); auto. }
  destruct (hs_exit r); [exact Hcommit | exact Hcommit |].
  exists false. by apply (Hplain a1); auto.
Qed.

Lemma case_RES_STLINE_continues a :
  st0 a = HTTPCLIENT_S_RES_STLINE ->
  exists s h,
    continues a
      ((if s && res_stline (hc_ops (hc a)) then [CB_res_stline] else []) ++
       (if h && res_headers (hc_ops (hc a)) then [CB_res_headers] else []))
      1 (case_RES_STLINE a).
Proof.
  intros Hst. unfold case_RES_STLINE, htxbuf.
  assert (Hplain : forall r,
            (r = at_end a \/ r = at_more a \/ r = at_process_data a) ->
            exists s h,
              continues a
                ((if s && res_stline (hc_ops (hc a)) then [CB_res_stline] else []) ++
                 (if h && res_headers (hc_ops (hc a)) then [CB_res_headers] else []))
                1 r).
  { intros r Hr. exists false, false. simpl.
    apply (continues_payloads a a [] 1 r 0); try done.
    - by destruct (res_payload _); rewrite ?app_nil_r.
    - by rewrite Hst. }
  destruct (decide (hb_data (chn_buf (res a)) = 0)); [by apply Hplain; auto|].
  destruct (hb_htx (chn_buf (res a))) as [hx|]; [|by apply Hplain; auto].
  destruct (htx_blks hx) as [|[] tl]; try (by apply Hplain; auto).
  destruct (negb (flagged (sl_flags sl) HTX_SL_F_IS_RESP)); [by apply Hplain; auto|].
  destruct (istdup (sl_p1 sl) (allocs a)) as [vsn l1].
  destruct (istdup (sl_p3 sl) l1) as [reason l2]. cbv zeta.
  set (a1 := with_allocs (with_hc a (hc_with_stline (hc a) (sl_info sl) vsn reason)) l2).
  set (a2 := res_with_blks a1 hx tl).
  set (a3 := call (res_stline (hc_ops (hc a2))) CB_res_stline a2).
  destruct (called_call (res_stline (hc_ops (hc a2))) CB_res_stline a2)
    as (Hc3 & Hh3 & Hs3). fold a3 in Hc3, Hh3, Hs3.
  assert (Hc : called a3 = called a ++
            (if true && res_stline (hc_ops (hc a)) then [CB_res_stline] else []))
    by (rewrite Hc3; reflexivity).
  assert (Ho : hc_ops (hc a3) = hc_ops (hc a)) by (rewrite Hh3; reflexivity).
  destruct (eom_and_empty _).
  - exists true, false. simpl (if false && _ then _ else _). rewrite app_nil_r.
    unfold case_RES_END.
    apply (continues_payloads a (with_st0 a3 HTTPCLIENT_S_RES_END) _ 1 _ 0);
      [|done | simpl; lia | auto].
    simpl. rewrite Hc. simpl. by destruct (res_payload _); rewrite ?app_nil_r.
  - destruct (case_RES_HDR_continues a (with_st0 a3 HTTPCLIENT_S_RES_HDR) _ Hc Ho eq_refl)
      as (h & Hh).
    exists true, h. apply (continues_weaken _ _ 2); [lia | exact Hh].
Qed.

(** X13. The callbacks of one run of the handler come in a fixed order:
    the status-line callback at most once, then the headers callback at
    most once, then the payload callback any number of times, then the
    end callback at most once, and the end callback exactly when the run
    leaves through [end]. A callback that is not registered is never
    called. The status-line callback is only called by a run entered in
    the status-line state, the headers callback only by one entered in
    the status-line or the headers state. *)
Theorem callbacks_in_order :
  forall a : appctx,
    exists s h n e,
      called (httpclient_applet_io_handler a).2
        = called a ++ run_calls (hc_ops (hc a)) s h n e /\
      (s = true -> st0 a = HTTPCLIENT_S_RES_STLINE) /\
      (h = true -> st0 a = HTTPCLIENT_S_RES_STLINE \/ st0 a = HTTPCLIENT_S_RES_HDR) /\
      (e = true <-> (httpclient_applet_io_handler a).1 = Exit_end).
Proof.
  intros a. unfold httpclient_applet_io_handler, run_calls.
  destruct (st0 a) eqn:Hst.
  - unfold case_REQ. cbv zeta.
    match goal with |- context [at_more ?m] =>
      destruct (continues_label a m [] 0 (at_more m)) as (e & H1 & _ & H3);
        [simpl; by rewrite app_nil_r | done | lia | auto |]
    end.
    exists false, false, 0, e. simpl in *.
    split_and!; try done. rewrite H1. by destruct (res_payload _).
  - destruct (case_RES_STLINE_continues a Hst) as (s & h & n & e & H1 & _ & H3).
    exists s, h, n, e. rewrite H1, <- !app_assoc. split_and!; auto.
  - destruct (case_RES_HDR_continues a a [] (eq_sym (app_nil_r _)) eq_refl Hst)
      as (h & n & e & H1 & _ & H3).
    exists false, h, n, e. simpl in *. split_and!; auto. done.
  - destruct (case_RES_BODY_continues a a [] (eq_sym (app_nil_r _)) eq_refl Hst)
      as (n & e & H1 & _ & H3).
    exists false, false, n, e. simpl in *. split_and!; auto; done.
  - destruct (continues_label a a [] 0 (at_end a)) as (e & H1 & _ & H3);
      [by rewrite app_nil_r | done | lia | auto |].
    exists false, false, 0, e. simpl in *.
    split_and!; try done. unfold case_RES_END. rewrite H1.
    by destruct (res_payload _).
Qed.

(** X14. The handler never goes back to an earlier state: after a run
    the state is the one it was entered in or a later one, the request
    state is always left for the status-line state, and the end state is
    never left. *)
Theorem states_only_move_forward :
  forall a : appctx,
    state_rank (st0 a) <= state_rank (st0 (httpclient_applet_io_handler a).2) /\
    (st0 a = HTTPCLIENT_S_REQ ->
     st0 (httpclient_applet_io_handler a).2 = HTTPCLIENT_S_RES_STLINE) /\
    (st0 a = HTTPCLIENT_S_RES_END ->
     st0 (httpclient_applet_io_handler a).2 = HTTPCLIENT_S_RES_END).
Proof.
  intros a.
  assert (Hmore : forall m, st0 (at_more m).2 = st0 m).
  { intros m. destruct (at_more_outcome m) as [[-> _] | [-> _]]; [|done].
    by destruct (at_end_outcome (with_si m (si_rx_room_blk (si m))))
      as (_ & _ & -> & _). }
  split_and!.
  - unfold httpclient_applet_io_handler. destruct (st0 a) eqn:Hst.
    + unfold case_REQ. cbv zeta. rewrite Hmore. simpl. lia.
    + by destruct (case_RES_STLINE_continues a Hst) as (s & h & n & e & _ & H2 & _).
    + by destruct (case_RES_HDR_continues a a [] (eq_sym (app_nil_r _)) eq_refl Hst)
        as (h & n & e & _ & H2 & _).
    + by destruct (case_RES_BODY_continues a a [] (eq_sym (app_nil_r _)) eq_refl Hst)
        as (n & e & _ & H2 & _).
    + unfold case_RES_END.
      destruct (at_end_outcome a) as (_ & _ & -> & _). by rewrite Hst.
  - intros Hst. unfold httpclient_applet_io_handler. rewrite Hst.
    unfold case_REQ. cbv zeta. by rewrite Hmore.
  - intros Hst. unfold httpclient_applet_io_handler. rewrite Hst.
    unfold case_RES_END. by destruct (at_end_outcome a) as (_ & _ & -> & _).
Qed.

Lemma states_only_move_forward_witness :
  st0 (httpclient_applet_io_handler (Sample.started 8)).2 = HTTPCLIENT_S_RES_STLINE.
Proof.
  exact (proj1 (proj2 (states_only_move_forward (Sample.started 8))) eq_refl).
Defined.

Lemma callbacks_in_order_witness :
  exists s h n e,
    called (httpclient_applet_io_handler
              (run [Wake; Recv Sample.response true] (Sample.started 8))).2
      = run_calls Sample.every_callback s h n e /\
    (e = true <->
     (httpclient_applet_io_handler
        (run [Wake; Recv Sample.response true] (Sample.started 8))).1 = Exit_end).
Proof.
  destruct (callbacks_in_order (run [Wake; Recv Sample.response true] (Sample.started 8)))
    as (s & h & n & e & H1 & _ & _ & H4).
  exists s, h, n, e. split; [exact H1 | exact H4].
Defined.

(** ** The client on the command line *)

Lemma cli_at_out_keeps c :
  Cli.i0 (Cli.at_out c) = Cli.i0 c /\
  Cli.p0 (Cli.at_out c) = Cli.p0 c /\
  Cli.ic_buf (Cli.at_out c) = Cli.ic_buf c /\
  Cli.ic_input (Cli.at_out c) = Cli.ic_input c /\
  Cli.puts (Cli.at_out c) = Cli.puts c /\
  Cli.hc_wakeups (Cli.at_out c) = Cli.hc_wakeups c /\
  si_shutw_done (Cli.cli_si (Cli.at_out c)) = si_shutw_done (Cli.cli_si c) /\
  si_shutr_done (Cli.cli_si (Cli.at_out c)) = si_shutr_done (Cli.cli_si c).
Proof. unfold Cli.at_out. by destruct (negb _). Qed.

Lemma cli_put_keeps what text ret c :
  Cli.i0 (Cli.put what text ret c) = Cli.i0 c /\
  Cli.p0 (Cli.put what text ret c) = Cli.p0 c /\
  si_shutw_done (Cli.cli_si (Cli.put what text ret c)) = si_shutw_done (Cli.cli_si c) /\
  si_shutr_done (Cli.cli_si (Cli.put what text ret c)) = si_shutr_done (Cli.cli_si c).
Proof.
  unfold Cli.put. destruct (0 <=? ret)%Z; [done|]. by destruct (ret =? -1)%Z.
Qed.

(** X15. One call of [hc_cli_io_handler] serves one flag at most: [i0]
    is left as it was, or exactly one flag that was set is cleared; no
    bit is ever set. *)
Theorem hc_cli_io_handler_serves_one_flag :
  forall trash_ok text put_ret c,
    let c' := Cli.hc_cli_io_handler trash_ok text put_ret c in
    (Cli.i0 c' = Cli.i0 c \/
     exists flag, flag ∈ Cli.flags /\ Cli.has (Cli.i0 c) flag = true /\
                  Cli.i0 c' = Cli.clear (Cli.i0 c) flag) /\
    (forall n, (0 <= n)%Z ->
       Z.testbit (Cli.i0 c') n = true -> Z.testbit (Cli.i0 c) n = true).
Proof.
  intros trash_ok text put_ret c c'.
  assert (H1 : Cli.i0 c' = Cli.i0 c \/
     exists flag, flag ∈ Cli.flags /\ Cli.has (Cli.i0 c) flag = true /\
                  Cli.i0 c' = Cli.clear (Cli.i0 c) flag).
  { subst c'. unfold Cli.hc_cli_io_handler.
    destruct trash_ok; cbn [negb]; [|left; apply cli_at_out_keeps].
    destruct (Cli.has (Cli.i0 c) Cli.HC_CLI_F_RES_STLINE) eqn:E1.
    { right. exists Cli.HC_CLI_F_RES_STLINE. split; [set_solver|]. split; [done|].
      rewrite (proj1 (cli_at_out_keeps _)). simpl.
      by rewrite (proj1 (cli_put_keeps _ _ _ _)). }
    destruct (Cli.has (Cli.i0 c) Cli.HC_CLI_F_RES_HDR) eqn:E2.
    { destruct text as [t|]; [|left; apply cli_at_out_keeps].
      right. exists Cli.HC_CLI_F_RES_HDR. split; [set_solver|]. split; [done|].
      rewrite (proj1 (cli_at_out_keeps _)). simpl.
      by rewrite (proj1 (cli_put_keeps _ _ _ _)). }
    destruct (Cli.has (Cli.i0 c) Cli.HC_CLI_F_RES_BODY) eqn:E3.
    { destruct (httpclient_res_xfer (Cli.p0 c) (Cli.ic_buf c)) as [[[ret hc'] dst'] woken].
      rewrite (proj1 (cli_at_out_keeps _)).
      destruct (decide (b_data (hc_res_buf hc') = 0)); [|by left].
      right. exists Cli.HC_CLI_F_RES_BODY. split; [set_solver|]. done. }
    destruct (Cli.i0 c =? Cli.HC_CLI_F_RES_END)%Z eqn:E4;
      [|left; apply cli_at_out_keeps].
    right. exists Cli.HC_CLI_F_RES_END. split; [set_solver|].
    rewrite (proj1 (cli_at_out_keeps _)). simpl. split; [|done].
    apply Z.eqb_eq in E4. by rewrite E4. }
  split; [exact H1|].
  intros n Hn Hbit. destruct H1 as [H1 | (flag & _ & _ & Hc)];
    [by rewrite H1 in Hbit|].
  rewrite Hc in Hbit. unfold Cli.clear in Hbit.
  rewrite Z.land_spec in Hbit. by apply andb_true_iff in Hbit as [? _].
Qed.

Lemma hc_cli_io_handler_serves_one_flag_witness :
  Z.testbit (Cli.i0 (Sample.cli 0x0f)) 3 = true.
Proof.
  apply (proj2 (hc_cli_io_handler_serves_one_flag true (Some []) 0 (Sample.cli 0x0f)) 3%Z);
    [lia | reflexivity].
Defined.

(** X16. [hc_cli_io_handler] closes the stream only when the end flag is
    the last one left: in a call, [si_shutw] and [si_shutr] are called
    exactly when a trash chunk was obtained and [i0] is
    [HC_CLI_F_RES_END] and nothing else, and that call leaves [i0] at
    0. *)
Theorem hc_cli_io_handler_closes_last :
  forall trash_ok text put_ret c,
    si_shutw_done (Cli.cli_si c) = false ->
    si_shutr_done (Cli.cli_si c) = false ->
    let c' := Cli.hc_cli_io_handler trash_ok text put_ret c in
    (si_shutw_done (Cli.cli_si c') = true <->
     trash_ok = true /\ Cli.i0 c = Cli.HC_CLI_F_RES_END) /\
    (si_shutr_done (Cli.cli_si c') = si_shutw_done (Cli.cli_si c')) /\
    (si_shutw_done (Cli.cli_si c') = true -> Cli.i0 c' = 0%Z).
Proof.
  intros trash_ok text put_ret c Hw Hr c'. subst c'.
  unfold Cli.hc_cli_io_handler.
  assert (Hno : forall x,
            si_shutw_done (Cli.cli_si x) = false ->
            si_shutr_done (Cli.cli_si x) = false ->
            ~ (trash_ok = true /\ Cli.i0 c = Cli.HC_CLI_F_RES_END) ->
            (si_shutw_done (Cli.cli_si (Cli.at_out x)) = true <->
             trash_ok = true /\ Cli.i0 c = Cli.HC_CLI_F_RES_END) /\
            si_shutr_done (Cli.cli_si (Cli.at_out x))
              = si_shutw_done (Cli.cli_si (Cli.at_out x)) /\
            (si_shutw_done (Cli.cli_si (Cli.at_out x)) = true ->
             Cli.i0 (Cli.at_out x) = 0%Z)).
  { intros x Hxw Hxr Hn.
    destruct (cli_at_out_keeps x) as (_ & _ & _ & _ & _ & _ & -> & ->).
    rewrite Hxw, Hxr. split_and!; [split; [done | tauto] | done | done]. }
  destruct trash_ok; cbn [negb]; [|apply Hno; try done; by intros [? _]].
  destruct (Cli.has (Cli.i0 c) Cli.HC_CLI_F_RES_STLINE) eqn:E1.
  { destruct (cli_put_keeps Cli.Put_stline (default [] text) put_ret c)
      as (_ & _ & Hpw & Hpr).
    apply Hno; simpl; [congruence | congruence |].
    intros [_ He]. rewrite He in E1. discriminate. }
  destruct (Cli.has (Cli.i0 c) Cli.HC_CLI_F_RES_HDR) eqn:E2.
  { assert (Hn : ~ (true = true /\ Cli.i0 c = Cli.HC_CLI_F_RES_END))
      by (intros [_ He]; rewrite He in E2; discriminate).
    destruct text as [t|]; [|by apply Hno].
    destruct (cli_put_keeps Cli.Put_headers t put_ret c) as (_ & _ & Hpw & Hpr).
    apply Hno; simpl; [congruence | congruence | done]. }
  destruct (Cli.has (Cli.i0 c) Cli.HC_CLI_F_RES_BODY) eqn:E3.
  { assert (Hn : ~ (true = true /\ Cli.i0 c = Cli.HC_CLI_F_RES_END))
      by (intros [_ He]; rewrite He in E3; discriminate).
    destruct (httpclient_res_xfer (Cli.p0 c) (Cli.ic_buf c)) as [[[ret hc'] dst'] woken].
    destruct (decide (b_data (hc_res_buf hc') = 0)); by apply Hno. }
  destruct (Cli.i0 c =? Cli.HC_CLI_F_RES_END)%Z eqn:E4.
  - apply Z.eqb_eq in E4.
    destruct (cli_at_out_keeps
                (Cli.with_i0
                   (Cli.with_cli_si c (si_shutr (si_shutw (Cli.cli_si c))))
                   (Cli.clear (Cli.i0 (Cli.with_cli_si c
                                         (si_shutr (si_shutw (Cli.cli_si c)))))
                      Cli.HC_CLI_F_RES_END)))
      as (-> & _ & _ & _ & _ & _ & -> & ->).
    simpl. rewrite E4. split_and!; [split; done | done | done].
  - apply Hno; try done. intros [_ He]. rewrite He in E4. discriminate.
Qed.

Lemma hc_cli_io_handler_closes_last_witness :
  si_shutw_done
    (Cli.cli_si (Cli.hc_cli_io_handler true None 0 (Sample.cli Cli.HC_CLI_F_RES_END)))
  = true.
Proof.
  apply (proj1 (hc_cli_io_handler_closes_last true None 0
                  (Sample.cli Cli.HC_CLI_F_RES_END) eq_refl eq_refl)).
  split; reflexivity.
Defined.

(** ** What the states store *)

Lemma body_loop_hc blks : forall a stop kept a',
  body_loop blks a = (stop, kept, a') ->
  response_fields (hc a') = response_fields (hc a).
Proof.
  induction blks as [|blk tl IH]; intros a stop kept a' H; simpl in H.
  - by inversion H.
  - destruct blk; try (by apply IH in H).
    destruct (decide _); [by inversion H|].
    apply IH in H. rewrite H.
    by destruct (res_payload _).
Qed.

Lemma label_fields m r :
  (r = at_end m \/ r = at_more m \/ r = at_process_data m) ->
  hc r.2 = hc m.
Proof.
  intros [-> | [-> | ->]].
  - by destruct (at_end_outcome m) as (_ & -> & _).
  - destruct (at_more_outcome m) as [[-> _] | [-> _]]; [|done].
    by destruct (at_end_outcome (with_si m (si_rx_room_blk (si m)))) as (_ & -> & _).
  - done.
Qed.

Lemma case_RES_BODY_fields a :
  response_fields (hc (case_RES_BODY a).2) = response_fields (hc a).
Proof.
  unfold case_RES_BODY, htxbuf.
  destruct (hb_htx (chn_buf (res a))) as [h|];
    [|by rewrite (label_fields a); auto].
  destruct (htx_is_empty h); [by rewrite (label_fields a); auto|].
  destruct (b_full _); [by rewrite (label_fields a); auto|].
  destruct (body_loop (htx_blks h) a) as [[stop kept] a1] eqn:Hl.
  apply body_loop_hc in Hl.
  destruct stop; [by rewrite (label_fields (res_with_blks a1 h kept)); auto|].
  destruct (negb _); [by rewrite (label_fields (res_with_blks a1 h kept)); auto|].
  unfold case_RES_END.
  by rewrite (label_fields (with_st0 (res_with_blks a1 h kept) HTTPCLIENT_S_RES_END));
    auto.
Qed.

Lemma body_or_end_fields h a :
  response_fields (hc (body_or_end h a).2) = response_fields (hc a).
Proof.
  unfold body_or_end. destruct (eom_and_empty h).
  - unfold case_RES_END.
    by rewrite (label_fields (with_st0 a HTTPCLIENT_S_RES_END)); auto.
  - by rewrite case_RES_BODY_fields.
Qed.

(** X17. A first block that is not a response start line is never
    consumed: entered in the status-line state with such a channel and no
    shutdown flagged, the handler changes nothing but the flag by which
    it asks to be called again, so that any number of runs leaves the
    applet where it is. *)
Theorem unexpected_first_block_suspends :
  forall a : appctx,
    st0 a = HTTPCLIENT_S_RES_STLINE ->
    no_response_line a ->
    shutdown_seen a = false ->
    httpclient_applet_io_handler a = (Exit_more, with_si a (si_rx_room_blk (si a))) /\
    forall n, run (replicate (S n) Wake) a = with_si a (si_rx_room_blk (si a)).
Proof.
  assert (Hone : forall a, st0 a = HTTPCLIENT_S_RES_STLINE -> no_response_line a ->
            shutdown_seen a = false ->
            httpclient_applet_io_handler a
              = (Exit_more, with_si a (si_rx_room_blk (si a)))).
  { intros a Hst Hno Hsh.
    assert (Hmore : at_more a = (Exit_more, with_si a (si_rx_room_blk (si a)))).
    { destruct (at_more_outcome a) as [[_ [Hend | Hs]] | [-> _]]; [| |done].
      - rewrite Hst in Hend. discriminate.
      - rewrite Hsh in Hs. discriminate. }
    unfold httpclient_applet_io_handler. rewrite Hst.
    unfold case_RES_STLINE, htxbuf. unfold no_response_line in Hno.
    destruct (decide _); [done|].
    destruct (hb_htx (chn_buf (res a))) as [h|]; [|done].
    destruct (htx_blks h) as [|[] tl]; try done.
    by rewrite Hno. }
  intros a Hst Hno Hsh. split; [by apply Hone|].
  induction n as [|n IH].
  - unfold run. simpl. by rewrite Hone.
  - change (run (replicate (S (S n)) Wake) a)
      with (run (replicate (S n) Wake) (act Wake a)).
    simpl (act Wake a). rewrite (Hone a Hst Hno Hsh). simpl.
    change (foldl (fun s x => act x s)
              (act Wake (with_si a (si_rx_room_blk (si a)))) (replicate n Wake))
      with (run (replicate (S n) Wake) (with_si a (si_rx_room_blk (si a)))).
    clear IH. revert a Hst Hno Hsh.
    induction n as [|n IH]; intros a Hst Hno Hsh.
    + unfold run. simpl. by rewrite Hone.
    + change (run (replicate (S (S n)) Wake) (with_si a (si_rx_room_blk (si a))))
        with (run (replicate (S n) Wake)
                (act Wake (with_si a (si_rx_room_blk (si a))))).
      simpl (act Wake _). rewrite Hone by done. simpl.
      apply (IH (with_si a (si_rx_room_blk (si a)))); done.
Qed.

Lemma unexpected_first_block_suspends_witness :
  run (replicate 3 Wake) (run [Wake; Recv [Sample.header1] false] (Sample.started 8))
  = with_si (run [Wake; Recv [Sample.header1] false] (Sample.started 8))
      (si_rx_room_blk (si (run [Wake; Recv [Sample.header1] false] (Sample.started 8)))).
Proof.
  apply (proj2 (unexpected_first_block_suspends
                  (run [Wake; Recv [Sample.header1] false] (Sample.started 8))
                  eq_refl I eq_refl) 2).
Defined.

Lemma response_fields_inv h1 h2 :
  response_fields h1 = response_fields h2 ->
  hc_res_hdrs h1 = hc_res_hdrs h2 /\
  (hc_res_status h1, hc_res_vsn h1, hc_res_reason h1)
  = (hc_res_status h2, hc_res_vsn h2, hc_res_reason h2).
Proof. unfold response_fields. intros H. injection H as E1 E2 E3 E4. by rewrite E1, E2, E3, E4. Qed.

Lemma hdr_loop_below blks : forall hdrs k l j,
  j < k -> hs_hdrs (hdr_loop blks hdrs k l) !! j = hdrs !! j.
Proof.
  induction blks as [|blk tl IH]; intros hdrs k l j Hj; simpl; [done|].
  destruct blk; simpl; try (by apply IH).
  - destruct (istdup n l) as [n' l1], (istdup v l1) as [v' l2].
    destruct (negb (isttest v') || negb (isttest n')); simpl.
    + apply lookup_insert_ne. lia.
    + rewrite IH by lia. apply lookup_insert_ne. lia.
  - apply lookup_insert_ne. lia.
Qed.

(** The loop of the headers state on complete headers, every copy
    succeeding: the headers are stored in order, then the terminating
    cell, and the blocks after the end-of-headers block stay. *)
Lemma hdr_loop_headers rest hs : forall hdrs k,
  let r := hdr_loop (map hdr_blk hs ++ BlkEoh :: rest) hdrs k [] in
  hs_exit r = Hdr_eoh /\ hs_left r = rest /\ hs_num r = k + length hs /\
  hs_allocs r = [] /\
  (forall i nv, hs !! i = Some nv ->
     hs_hdrs r !! (k + i) = Some {| hdr_n := Some nv.1; hdr_v := Some nv.2 |}) /\
  hs_hdrs r !! (k + length hs) = Some {| hdr_n := IST_NULL; hdr_v := IST_NULL |}.
Proof.
  induction hs as [|[n v] hs IH]; intros hdrs k; simpl.
  - rewrite Nat.add_0_r. split_and!; try done. apply lookup_insert_eq.
  - specialize (IH (<[k := {| hdr_n := Some n; hdr_v := Some v |}]> hdrs) (S k)).
    simpl in IH. destruct IH as (H1 & H2 & H3 & H4 & H5 & H6).
    split_and!; try done.
    + rewrite H3. lia.
    + intros [|i] nv Hi; simpl in Hi.
      * inversion Hi; subst nv. rewrite Nat.add_0_r, hdr_loop_below by lia.
        apply lookup_insert_eq.
      * replace (k + S i) with (S k + i) by lia. by apply H5.
    + by replace (k + S (length hs)) with (S (k + length hs)) by lia.
Qed.

Lemma copy_hdrs_stored (m : gmap nat http_hdr) hs :
  (forall i nv, hs !! i = Some nv ->
     m !! i = Some {| hdr_n := Some nv.1; hdr_v := Some nv.2 |}) ->
  m !! length hs = Some {| hdr_n := IST_NULL; hdr_v := IST_NULL |} ->
  copy_hdrs m (length hs + 1) = stored_hdrs hs.
Proof.
  intros Hm Hlast. apply list_eq. intros i. unfold copy_hdrs, stored_hdrs.
  change (map (fun i0 : nat => m !! i0) (seq 0 (length hs + 1)))
    with ((fun i0 : nat => m !! i0) <$> seq 0 (length hs + 1)).
  change (map (fun nv : string * string =>
                 Some {| hdr_n := Some nv.1; hdr_v := Some nv.2 |}) hs)
    with ((fun nv : string * string =>
             Some {| hdr_n := Some nv.1; hdr_v := Some nv.2 |}) <$> hs).
  rewrite list_lookup_fmap.
  destruct (decide (i < length hs)) as [Hlt|Hge].
  - rewrite lookup_seq_lt by lia. simpl.
    rewrite lookup_app_l by (by rewrite length_fmap).
    rewrite list_lookup_fmap.
    destruct (lookup_lt_is_Some_2 hs i Hlt) as [nv Hnv].
    rewrite Hnv. simpl. by rewrite (Hm i nv).
  - destruct (decide (i = length hs)) as [->|Hne].
    + rewrite lookup_seq_lt by lia. simpl.
      rewrite lookup_app_r by (rewrite length_fmap; lia).
      rewrite length_fmap, Nat.sub_diag. simpl. by rewrite Hlast.
    + rewrite lookup_seq_ge by lia. simpl. symmetry.
      apply lookup_ge_None_2. rewrite length_app, length_fmap. simpl. lia.
Qed.

(** X18. Complete headers are stored as they came. When the handler is
    entered in the headers state with header blocks followed by the
    end-of-headers block and every copy succeeds, it removes them from
    the channel and, if there is at least one header, stores the headers
    in order in [hc->res.hdrs], followed by the terminating cell, and
    calls the headers callback first (if registered); with no header at
    all it stores nothing and does not call the headers callback. The
    run ends in the body state or beyond, and the status line stored
    before is not touched. *)
Theorem complete_headers_are_stored :
  forall (a : appctx) h hs rest,
    st0 a = HTTPCLIENT_S_RES_HDR ->
    hb_data (chn_buf (res a)) <> 0 ->
    hb_htx (chn_buf (res a)) = Some h ->
    htx_blks h = map hdr_blk hs ++ BlkEoh :: rest ->
    allocs a = [] ->
    let r := httpclient_applet_io_handler a in
    hc_res_hdrs (hc r.2)
      = (if decide (hs = []) then hc_res_hdrs (hc a) else Some (stored_hdrs hs)) /\
    (hc_res_status (hc r.2), hc_res_vsn (hc r.2), hc_res_reason (hc r.2))
      = (hc_res_status (hc a), hc_res_vsn (hc a), hc_res_reason (hc a)) /\
    continues a
      (if decide (hs = []) then []
       else if res_headers (hc_ops (hc a)) then [CB_res_headers] else [])
      3 r.
Proof.
  intros a h hs rest Hst Hdata Hh Hb Hallocs r. subst r.
  unfold httpclient_applet_io_handler. rewrite Hst.
  unfold case_RES_HDR, htxbuf. rewrite decide_False by done.
  rewrite Hh, Hb, Hallocs.
  destruct (hdr_loop_headers rest hs ∅ 0) as (H1 & H2 & H3 & H4 & H5 & H6).
  simpl in H3, H5, H6.
  set (r := hdr_loop (map hdr_blk hs ++ BlkEoh :: rest) ∅ 0 []) in *.
  clearbody r. rewrite H1, H2, H3, H4.
  destruct (decide (length hs = 0)) as [Hz|Hnz].
  - assert (hs = []) as -> by (by apply length_zero_iff_nil).
    rewrite decide_True by done.
    match goal with |- context [body_or_end ?x ?y] =>
      pose proof (body_or_end_fields x y) as Hf;
      pose proof (body_or_end_continues a y [] x) as Hcont
    end.
    apply response_fields_inv in Hf. destruct Hf as [E1 E2].
    split_and!; [exact E1 | exact E2 |].
    apply Hcont; [simpl; by rewrite app_nil_r | done].
  - assert (hs <> []) by (intros ->; simpl in Hnz; lia).
    destruct (decide (hs = [])) as [?|_]; [done|].
    cbn [allocs with_allocs next_alloc negb]. cbv zeta.
    rewrite (copy_hdrs_stored (hs_hdrs r) hs H5 H6).
    match goal with |- context [body_or_end ?x (call ?b ?cb ?m)] =>
      pose proof (body_or_end_fields x (call b cb m)) as Hf;
      pose proof (body_or_end_continues a (call b cb m)
                    (if res_headers (hc_ops (hc a)) then [CB_res_headers] else [])
                    x) as Hcont;
      destruct (called_call b cb m) as (Hc1 & Hc2 & _)
    end.
    apply response_fields_inv in Hf. destruct Hf as [E1 E2].
    rewrite Hc2 in E1, E2.
    split_and!; [exact E1 | exact E2 |].
    apply Hcont; [exact Hc1 | by rewrite Hc2].
Qed.

Lemma complete_headers_are_stored_witness :
  hc_res_hdrs
    (hc (httpclient_applet_io_handler
           (with_st0 (Sample.in_body 8 [] [Sample.header1; Sample.header2; BlkEoh;
                                           Sample.data1] 0 0)
              HTTPCLIENT_S_RES_HDR)).2)
  = Some (stored_hdrs [("content-type", "text/plain"); ("server", "example")]).
Proof.
  exact (proj1 (complete_headers_are_stored
                  (with_st0 (Sample.in_body 8 [] [Sample.header1; Sample.header2; BlkEoh;
                                                  Sample.data1] 0 0)
                     HTTPCLIENT_S_RES_HDR)
                  {| htx_size := 256;
                     htx_blks := [Sample.header1; Sample.header2; BlkEoh; Sample.data1];
                     htx_flags := 0 |}
                  [("content-type", "text/plain"); ("server", "example")]
                  [Sample.data1]
                  eq_refl ltac:(discriminate) eq_refl eq_refl eq_refl)).
Defined.

(** The headers state leaves the stored status line alone. *)
Lemma case_RES_HDR_stline a :
  (hc_res_status (hc (case_RES_HDR a).2), hc_res_vsn (hc (case_RES_HDR a).2),
   hc_res_reason (hc (case_RES_HDR a).2))
  = (hc_res_status (hc a), hc_res_vsn (hc a), hc_res_reason (hc a)).
Proof.
  unfold case_RES_HDR, htxbuf.
  assert (Hplain : forall m r,
            (r = at_end m \/ r = at_more m \/ r = at_process_data m) ->
            (hc_res_status (hc m), hc_res_vsn (hc m), hc_res_reason (hc m))
            = (hc_res_status (hc a), hc_res_vsn (hc a), hc_res_reason (hc a)) ->
            (hc_res_status (hc r.2), hc_res_vsn (hc r.2), hc_res_reason (hc r.2))
            = (hc_res_status (hc a), hc_res_vsn (hc a), hc_res_reason (hc a))).
  { intros m r Hr Hm. by rewrite (label_fields m r Hr). }
  assert (Hbody : forall h m,
            (hc_res_status (hc m), hc_res_vsn (hc m), hc_res_reason (hc m))
            = (hc_res_status (hc a), hc_res_vsn (hc a), hc_res_reason (hc a)) ->
            (hc_res_status (hc (body_or_end h m).2), hc_res_vsn (hc (body_or_end h m).2),
             hc_res_reason (hc (body_or_end h m).2))
            = (hc_res_status (hc a), hc_res_vsn (hc a), hc_res_reason (hc a))).
  { intros h m Hm.
    destruct (response_fields_inv _ _ (body_or_end_fields h m)) as [_ E]. by rewrite E. }
  destruct (decide (hb_data (chn_buf (res a)) = 0)); [by apply (Hplain a); auto|].
  destruct (hb_htx (chn_buf (res a))) as [hx|]; [|by apply (Hplain a); auto].
  set (r := hdr_loop (htx_blks hx) ∅ 0 (allocs a)).
  assert (Hcommit :
    let x :=
      if decide (hs_num r = 0)
      then body_or_end (htx_with_blks hx (hs_left r))
             (with_allocs (res_with_blks a hx (hs_left r)) (hs_allocs r))
      else
        let (ok, l) := next_alloc (allocs (with_allocs (res_with_blks a hx (hs_left r))
                                             (hs_allocs r))) in
        let a2 := with_allocs (with_allocs (res_with_blks a hx (hs_left r))
                                 (hs_allocs r)) l in
        if negb ok then at_end a2
        else
          let a3 := with_hc a2 (hc_with_hdrs (hc a2)
                                  (Some (copy_hdrs (hs_hdrs r) (hs_num r + 1)))) in
          body_or_end (htx_with_blks hx (hs_left r))
            (call (res_headers (hc_ops (hc a3))) CB_res_headers a3) in
    (hc_res_status (hc x.2), hc_res_vsn (hc x.2), hc_res_reason (hc x.2))
    = (hc_res_status (hc a), hc_res_vsn (hc a), hc_res_reason (hc a))).
  { cbv zeta. destruct (decide (hs_num r = 0)); [by apply Hbody|].
    destruct (next_alloc _) as [ok l]. destruct ok; cbn [negb].
    - apply Hbody.
      match goal with |- context [call ?b ?cb ?m] =>
        destruct (called_call b cb m) as (_ & -> & _)
      end. done.
    - by apply (Hplain (with_allocs (with_allocs (res_with_blks a hx (hs_left r))
                                       (hs_allocs r)) l)); auto. }
  cbv zeta in Hcommit |- *.
  destruct (hs_exit r); [exact Hcommit | exact Hcommit |].
  by apply (Hplain (with_allocs (res_with_blks a hx (hs_left r)) (hs_allocs r))); auto.
Qed.

(** X19. The status line is stored unchecked. When the handler is entered
    in the status-line state and the first block of the response is a
    start line flagged as a response, the run stores its status code, a
    copy of its version and a copy of its reason, removes the block and
    calls the status-line callback first (if registered). The two copies
    are not tested: one that fails leaves the null string in its field,
    and the callback is called all the same. *)
Theorem status_line_is_stored :
  forall (a : appctx) h sl tl (ok1 ok2 : bool) l,
    st0 a = HTTPCLIENT_S_RES_STLINE ->
    hb_data (chn_buf (res a)) <> 0 ->
    hb_htx (chn_buf (res a)) = Some h ->
    htx_blks h = BlkResSl sl :: tl ->
    flagged (sl_flags sl) HTX_SL_F_IS_RESP = true ->
    allocs a = ok1 :: ok2 :: l ->
    let r := httpclient_applet_io_handler a in
    hc_res_status (hc r.2) = sl_info sl /\
    hc_res_vsn (hc r.2) = (if ok1 then Some (sl_p1 sl) else IST_NULL) /\
    hc_res_reason (hc r.2) = (if ok2 then Some (sl_p3 sl) else IST_NULL) /\
    exists hh,
      continues a
        ((if res_stline (hc_ops (hc a)) then [CB_res_stline] else []) ++
         (if hh && res_headers (hc_ops (hc a)) then [CB_res_headers] else []))
        1 r.
Proof.
  intros a h sl tl ok1 ok2 l Hst Hdata Hh Hb Hfl Hal r. subst r.
  unfold httpclient_applet_io_handler. rewrite Hst.
  unfold case_RES_STLINE, htxbuf. rewrite decide_False by done.
  rewrite Hh, Hb, Hfl, Hal. cbn [negb istdup next_alloc]. cbv zeta.
  set (a1 := with_allocs (with_hc a (hc_with_stline (hc a) (sl_info sl)
                 (if ok1 then Some (sl_p1 sl) else IST_NULL)
                 (if ok2 then Some (sl_p3 sl) else IST_NULL))) l).
  set (a2 := res_with_blks a1 h tl).
  set (a3 := call (res_stline (hc_ops (hc a2))) CB_res_stline a2).
  destruct (called_call (res_stline (hc_ops (hc a2))) CB_res_stline a2)
    as (Hc3 & Hh3 & Hs3). fold a3 in Hc3, Hh3, Hs3.
  assert (Hc : called a3 = called a ++
            (if res_stline (hc_ops (hc a)) then [CB_res_stline] else []))
    by (rewrite Hc3; reflexivity).
  assert (Ho : hc_ops (hc a3) = hc_ops (hc a)) by (rewrite Hh3; reflexivity).
  destruct (eom_and_empty _).
  - unfold case_RES_END.
    rewrite (label_fields (with_st0 a3 HTTPCLIENT_S_RES_END)) by auto.
    cbn [hc with_st0]. rewrite Hh3. split_and!; try reflexivity.
    exists false. simpl (if false && _ then _ else _). rewrite app_nil_r.
    apply (continues_payloads a (with_st0 a3 HTTPCLIENT_S_RES_END) _ 1 _ 0);
      [|done | simpl; lia | auto].
    simpl. rewrite Hc. by destruct (res_payload _); rewrite ?app_nil_r.
  - pose proof (case_RES_HDR_stline (with_st0 a3 HTTPCLIENT_S_RES_HDR)) as Hf.
    cbn [hc with_st0] in Hf. rewrite Hh3 in Hf. injection Hf as E1 E2 E3.
    split_and!; [exact E1 | exact E2 | exact E3 |].
    destruct (case_RES_HDR_continues a (with_st0 a3 HTTPCLIENT_S_RES_HDR) _ Hc Ho eq_refl)
      as (hh & Hhh).
    exists hh. apply (continues_weaken _ _ 2); [lia | exact Hhh].
Qed.

Lemma status_line_is_stored_witness :
  hc_res_vsn
    (hc (httpclient_applet_io_handler
           (with_allocs (with_st0 (Sample.in_body 8 [] Sample.response 0 0)
                           HTTPCLIENT_S_RES_STLINE) [false; true])).2)
  = IST_NULL.
Proof.
  exact (proj1 (proj2 (status_line_is_stored
                  (with_allocs (with_st0 (Sample.in_body 8 [] Sample.response 0 0)
                                  HTTPCLIENT_S_RES_STLINE) [false; true])
                  {| htx_size := 256; htx_blks := Sample.response; htx_flags := 0 |}
                  {| sl_flags := HTX_SL_F_IS_RESP; sl_info := 200;
                     sl_p1 := "HTTP/1.1"; sl_p2 := "200"; sl_p3 := "OK" |}
                  [Sample.header1; Sample.header2; BlkEoh; Sample.data1; Sample.data2]
                  false true []
                  eq_refl ltac:(discriminate) eq_refl eq_refl eq_refl eq_refl))).
Defined.

(** Once the loop of the headers state has counted a header, the cell
    it started at holds one, name and value both copied. *)
Lemma hdr_loop_first blks : forall hdrs k l,
  k < hs_num (hdr_loop blks hdrs k l) ->
  exists n v, hs_hdrs (hdr_loop blks hdrs k l) !! k
              = Some {| hdr_n := Some n; hdr_v := Some v |}.
Proof.
  induction blks as [|blk tl IH]; intros hdrs k l Hlt; simpl in *; [lia|].
  destruct blk; simpl in *; try (by apply IH); [|lia].
  destruct (istdup n l) as [n' l1], (istdup v l1) as [v' l2].
  destruct (negb (isttest v') || negb (isttest n')) eqn:E; simpl in *; [lia|].
  destruct n' as [n0|], v' as [v0|]; try discriminate E.
  exists n0, v0. rewrite hdr_loop_below by lia. apply lookup_insert_eq.
Qed.

Lemma continues_quiet a pre lo r :
  continues a pre lo r -> CB_res_headers ∉ pre ->
  CB_res_headers ∉ (drop (length (called a)) (called r.2)).
Proof.
  intros (n & e & Hc & _) Hpre. rewrite Hc, drop_app_length, !elem_of_app.
  intros [H | [H | H]]; [done | |].
  - destruct (res_payload _); [|by apply not_elem_of_nil in H].
    by apply elem_of_replicate in H as [? _].
  - destruct (e && _); [|by apply not_elem_of_nil in H].
    by apply list_elem_of_singleton in H.
Qed.

(** The headers state either goes on without the headers callback, or
    has stored at least one header cell and the terminating cell. *)
Lemma case_RES_HDR_commit a0 a pre :
  called a = called a0 ++ pre ->
  hc_ops (hc a) = hc_ops (hc a0) ->
  st0 a = HTTPCLIENT_S_RES_HDR ->
  continues a0 pre 2 (case_RES_HDR a) \/
  exists l, hc_res_hdrs (hc (case_RES_HDR a).2) = Some l /\ 2 <= length l /\
    exists n v, l !! 0 = Some (Some {| hdr_n := Some n; hdr_v := Some v |}).
Proof.
  intros Hc Ho Hst. unfold case_RES_HDR, htxbuf.
  assert (Hplain : forall m r,
            called m = called a -> hc_ops (hc m) = hc_ops (hc a) -> st0 m = st0 a ->
            (r = at_end m \/ r = at_more m \/ r = at_process_data m) ->
            continues a0 pre 2 r).
  { intros m r Hm Hmo Hms Hr.
    apply (continues_payloads a0 m pre 2 r 0); try done.
    - rewrite Hm, Hc. by destruct (res_payload _); rewrite ?app_nil_r.
    - congruence.
    - by rewrite Hms, Hst. }
  destruct (decide (hb_data (chn_buf (res a)) = 0)); [left; by apply (Hplain a); auto|].
  destruct (hb_htx (chn_buf (res a))) as [hx|]; [|left; by apply (Hplain a); auto].
  set (r := hdr_loop (htx_blks hx) ∅ 0 (allocs a)).
  set (a1 := with_allocs (res_with_blks a hx (hs_left r)) (hs_allocs r)).
  assert (Hcommit :
    let x :=
      if decide (hs_num r = 0) then body_or_end (htx_with_blks hx (hs_left r)) a1
      else
        let (ok, l) := next_alloc (allocs a1) in
        let a2 := with_allocs a1 l in
        if negb ok then at_end a2
        else
          let a3 := with_hc a2 (hc_with_hdrs (hc a2)
                      (Some (copy_hdrs (hs_hdrs r) (hs_num r + 1)))) in
          body_or_end (htx_with_blks hx (hs_left r))
            (call (res_headers (hc_ops (hc a3))) CB_res_headers a3) in
    continues a0 pre 2 x \/
    exists l, hc_res_hdrs (hc x.2) = Some l /\ 2 <= length l /\
      exists n v, l !! 0 = Some (Some {| hdr_n := Some n; hdr_v := Some v |})).
  { cbv zeta. destruct (decide (hs_num r = 0)).
    - left. apply (continues_weaken _ _ 3); [lia|]. by apply body_or_end_continues.
    - destruct (next_alloc (allocs a1)) as [ok l]. destruct ok; cbn [negb].
      + right. exists (copy_hdrs (hs_hdrs r) (hs_num r + 1)).
        split; [|split; [unfold copy_hdrs; rewrite length_map, length_seq; lia|]];
          [|destruct (hdr_loop_first (htx_blks hx) ∅ 0 (allocs a)) as (n1 & v1 & Hfirst);
              [fold r; lia|];
            exists n1, v1; unfold copy_hdrs; rewrite Nat.add_1_r; simpl;
            fold r in Hfirst; by rewrite Hfirst].
        match goal with |- context [body_or_end ?h (call ?b ?cb ?m)] =>
          destruct (response_fields_inv _ _ (body_or_end_fields h (call b cb m))) as [E _];
          destruct (called_call b cb m) as (_ & Hm & _)
        end.
        rewrite E, Hm. reflexivity.
      + left. by apply (Hplain (with_allocs a1 l)); auto. }
  cbv zeta in Hcommit |- *.
  destruct (hs_exit r); [exact Hcommit | exact Hcommit |].
  left. by apply (Hplain a1); auto.
Qed.

Lemma case_RES_STLINE_commit a :
  st0 a = HTTPCLIENT_S_RES_STLINE ->
  (exists pre, (CB_res_headers ∉ pre) /\ continues a pre 1 (case_RES_STLINE a)) \/
  exists l, hc_res_hdrs (hc (case_RES_STLINE a).2) = Some l /\ 2 <= length l /\
    exists n v, l !! 0 = Some (Some {| hdr_n := Some n; hdr_v := Some v |}).
Proof.
  intros Hst. unfold case_RES_STLINE, htxbuf.
  assert (Hplain : forall r,
            (r = at_end a \/ r = at_more a \/ r = at_process_data a) ->
            exists pre, (CB_res_headers ∉ pre) /\ continues a pre 1 r).
  { intros r Hr. exists []. split; [apply not_elem_of_nil|].
    apply (continues_payloads a a [] 1 r 0); try done.
    - by destruct (res_payload _); rewrite ?app_nil_r.
    - by rewrite Hst. }
  destruct (decide (hb_data (chn_buf (res a)) = 0)); [left; by apply Hplain; auto|].
  destruct (hb_htx (chn_buf (res a))) as [hx|]; [|left; by apply Hplain; auto].
  destruct (htx_blks hx) as [|[] tl]; try (left; by apply Hplain; auto).
  destruct (negb (flagged (sl_flags sl) HTX_SL_F_IS_RESP)); [left; by apply Hplain; auto|].
  destruct (istdup (sl_p1 sl) (allocs a)) as [vsn l1].
  destruct (istdup (sl_p3 sl) l1) as [reason l2]. cbv zeta.
  set (a1 := with_allocs (with_hc a (hc_with_stline (hc a) (sl_info sl) vsn reason)) l2).
  set (a2 := res_with_blks a1 hx tl).
  set (a3 := call (res_stline (hc_ops (hc a2))) CB_res_stline a2).
  destruct (called_call (res_stline (hc_ops (hc a2))) CB_res_stline a2)
    as (Hc3 & Hh3 & Hs3). fold a3 in Hc3, Hh3, Hs3.
  set (pre := if res_stline (hc_ops (hc a)) then [CB_res_stline] else []).
  assert (Hc : called a3 = called a ++ pre) by (rewrite Hc3; reflexivity).
  assert (Ho : hc_ops (hc a3) = hc_ops (hc a)) by (rewrite Hh3; reflexivity).
  assert (Hpre : CB_res_headers ∉ pre).
  { subst pre. destruct (res_stline _); [|apply not_elem_of_nil].
    intros H. by apply list_elem_of_singleton in H. }
  destruct (eom_and_empty _).
  - left. exists pre. split; [exact Hpre|]. unfold case_RES_END.
    apply (continues_payloads a (with_st0 a3 HTTPCLIENT_S_RES_END) _ 1 _ 0);
      [|done | simpl; lia | auto].
    simpl. rewrite Hc. by destruct (res_payload _); rewrite ?app_nil_r.
  - destruct (case_RES_HDR_commit a (with_st0 a3 HTTPCLIENT_S_RES_HDR) pre Hc Ho eq_refl)
      as [Hq | Hs]; [left | right; exact Hs].
    exists pre. split; [exact Hpre|]. apply (continues_weaken _ _ 2); [lia | exact Hq].
Qed.

(** X20. The headers callback always finds headers. Whenever a run of the
    handler calls the headers callback, [hc->res.hdrs] holds an array at
    the end of the run, of two cells at least, the first of which is a
    header whose name and value were both copied: the callback, and the
    command-line handler that reads [hc->res.hdrs] once it was notified,
    never start from a null array or from a cell that was not assigned.
    (What the cells after the headers hold depends on how the loop over
    the blocks was left.) *)
Theorem headers_callback_sees_headers :
  forall a : appctx,
    CB_res_headers ∈ (drop (length (called a))
                           (called (httpclient_applet_io_handler a).2)) ->
    exists l, hc_res_hdrs (hc (httpclient_applet_io_handler a).2) = Some l /\
              2 <= length l /\
              exists n v, l !! 0 = Some (Some {| hdr_n := Some n; hdr_v := Some v |}).
Proof.
  intros a.
  assert (Hq : forall pre lo,
            continues a pre lo (httpclient_applet_io_handler a) ->
            CB_res_headers ∉ pre ->
            CB_res_headers ∈ (drop (length (called a))
                                   (called (httpclient_applet_io_handler a).2)) ->
            exists l, hc_res_hdrs (hc (httpclient_applet_io_handler a).2) = Some l /\
                      2 <= length l /\
                      exists n v,
                        l !! 0 = Some (Some {| hdr_n := Some n; hdr_v := Some v |})).
  { intros pre lo Hc Hpre Hin. by destruct (continues_quiet a pre lo _ Hc Hpre). }
  revert Hq. unfold httpclient_applet_io_handler.
  destruct (st0 a) eqn:Hst; intros Hq.
  - apply (Hq [] 0); [|apply not_elem_of_nil]. unfold case_REQ. cbv zeta.
    match goal with |- context [at_more ?m] =>
      apply (continues_payloads a m [] 0 _ 0); [|done | simpl; lia | auto]
    end.
    simpl. by destruct (res_payload _); rewrite ?app_nil_r.
  - destruct (case_RES_STLINE_commit a Hst) as [(pre & Hpre & Hc) | Hs];
      [by apply (Hq pre 1) | intros _; exact Hs].
  - destruct (case_RES_HDR_commit a a [] (eq_sym (app_nil_r _)) eq_refl Hst) as [Hc | Hs];
      [apply (Hq [] 2 Hc), not_elem_of_nil | intros _; exact Hs].
  - apply (Hq [] 3); [|apply not_elem_of_nil].
    by apply case_RES_BODY_continues; [rewrite app_nil_r| |].
  - apply (Hq [] 0); [|apply not_elem_of_nil]. unfold case_RES_END.
    apply (continues_payloads a a [] 0 _ 0); [|done | lia | auto].
    simpl. by destruct (res_payload _); rewrite ?app_nil_r.
Qed.

Lemma headers_callback_sees_headers_witness :
  exists l,
    hc_res_hdrs
      (hc (httpclient_applet_io_handler
             (with_st0 (Sample.in_body 8 [] [Sample.header1; Sample.header2; BlkEoh;
                                             Sample.data1] 0 0)
                HTTPCLIENT_S_RES_HDR)).2) = Some l /\
    2 <= length l /\
    exists n v, l !! 0 = Some (Some {| hdr_n := Some n; hdr_v := Some v |}).
Proof.
  apply headers_callback_sees_headers. vm_compute. constructor.
Defined.

(** ** The command line: output that was refused *)

Lemma cli_has_clear v f : Cli.has (Cli.clear v f) f = false.
Proof.
  unfold Cli.has, Cli.clear.
  by rewrite <- Z.land_assoc, (Z.land_comm (Z.lnot f) f), Z.land_lnot_diag, Z.land_0_r.
Qed.

Lemma cli_has_clear_other v f g :
  Cli.has v f = false -> Cli.has (Cli.clear v g) f = false.
Proof.
  unfold Cli.has, Cli.clear. intros H.
  apply negb_false_iff, Z.eqb_eq in H.
  by rewrite <- Z.land_assoc, (Z.land_comm (Z.lnot g) f), Z.land_assoc, H, Z.land_0_l.
Qed.

Lemma cli_put_puts what text ret c :
  Cli.puts (Cli.put what text ret c)
  = Cli.puts c ++ (if (0 <=? ret)%Z then [what] else []).
Proof.
  unfold Cli.put. destruct (0 <=? ret)%Z; [done|].
  destruct (ret =? -1)%Z; simpl; by rewrite app_nil_r.
Qed.

(** Without the status-line flag, a call leaves it unset and puts
    nothing but headers. *)
Lemma cli_step_quiet trash_ok text ret c :
  Cli.has (Cli.i0 c) Cli.HC_CLI_F_RES_STLINE = false ->
  Cli.has (Cli.i0 (Cli.hc_cli_io_handler trash_ok text ret c)) Cli.HC_CLI_F_RES_STLINE
  = false /\
  exists k, Cli.puts (Cli.hc_cli_io_handler trash_ok text ret c)
            = Cli.puts c ++ replicate k Cli.Put_headers.
Proof.
  intros Hno. unfold Cli.hc_cli_io_handler.
  assert (Hout : forall x k,
            Cli.has (Cli.i0 x) Cli.HC_CLI_F_RES_STLINE = false ->
            Cli.puts x = Cli.puts c ++ replicate k Cli.Put_headers ->
            Cli.has (Cli.i0 (Cli.at_out x)) Cli.HC_CLI_F_RES_STLINE = false /\
            exists k, Cli.puts (Cli.at_out x) = Cli.puts c ++ replicate k Cli.Put_headers).
  { intros x k Hx Hp. destruct (cli_at_out_keeps x) as (-> & _ & _ & _ & -> & _).
    split; [exact Hx | by exists k]. }
  assert (Hc : Cli.puts c = Cli.puts c ++ replicate 0 Cli.Put_headers)
    by (by rewrite app_nil_r).
  destruct trash_ok; cbn [negb]; [|by apply (Hout c 0)].
  rewrite Hno.
  destruct (Cli.has (Cli.i0 c) Cli.HC_CLI_F_RES_HDR).
  { destruct text as [t|]; [|by apply (Hout c 0)].
    apply (Hout _ (if (0 <=? ret)%Z then 1 else 0)); simpl.
    - apply cli_has_clear_other. by rewrite (proj1 (cli_put_keeps _ _ _ _)).
    - rewrite cli_put_puts. by destruct (0 <=? ret)%Z. }
  destruct (Cli.has (Cli.i0 c) Cli.HC_CLI_F_RES_BODY).
  { destruct (httpclient_res_xfer (Cli.p0 c) (Cli.ic_buf c)) as [[[n hc'] dst'] woken].
    destruct (decide (b_data (hc_res_buf hc') = 0)); apply (Hout _ 0); simpl;
      try done; by apply cli_has_clear_other. }
  destruct (Cli.i0 c =? Cli.HC_CLI_F_RES_END)%Z; [|by apply (Hout c 0)].
  apply (Hout _ 0); simpl; [by apply cli_has_clear_other | done].
Qed.

Lemma cli_run_quiet calls : forall c,
  Cli.has (Cli.i0 c) Cli.HC_CLI_F_RES_STLINE = false ->
  exists k, Cli.puts (Cli.run calls c) = Cli.puts c ++ replicate k Cli.Put_headers.
Proof.
  induction calls as [|[[ok text] ret] tl IH]; intros c Hno; simpl.
  - exists 0. by rewrite app_nil_r.
  - destruct (cli_step_quiet ok text ret c Hno) as (Hno' & k1 & Hp1).
    destruct (IH _ Hno') as (k2 & Hp2).
    exists (k1 + k2). by rewrite Hp2, Hp1, <- app_assoc, replicate_add.
Qed.

(** X21. The status line is put once or never. A call of
    [hc_cli_io_handler] that finds the status-line flag clears it
    whatever [ci_putchk] returned: the line is in the output if the
    chunk was taken, and if it was refused, for lack of room or
    otherwise, no later call puts it again, however many follow, until
    the callback sets the flag anew. For lack of room the handler asks
    for room, which does not bring the line back. *)
Theorem cli_status_line_is_not_retried :
  forall text put_ret c later,
    Cli.has (Cli.i0 c) Cli.HC_CLI_F_RES_STLINE = true ->
    let c' := Cli.hc_cli_io_handler true text put_ret c in
    Cli.i0 c' = Cli.clear (Cli.i0 c) Cli.HC_CLI_F_RES_STLINE /\
    Cli.puts c' = Cli.puts c ++ (if (0 <=? put_ret)%Z then [Cli.Put_stline] else []) /\
    (put_ret = (-1)%Z -> si_rxblk_room (Cli.cli_si c') = true) /\
    exists k, Cli.puts (Cli.run later c') = Cli.puts c' ++ replicate k Cli.Put_headers.
Proof.
  intros text put_ret c later Hset c'.
  assert (Hi : Cli.i0 c' = Cli.clear (Cli.i0 c) Cli.HC_CLI_F_RES_STLINE).
  { subst c'. unfold Cli.hc_cli_io_handler. cbn [negb]. rewrite Hset.
    rewrite (proj1 (cli_at_out_keeps _)). simpl.
    by rewrite (proj1 (cli_put_keeps _ _ _ _)). }
  split_and!; [exact Hi | | |].
  - subst c'. unfold Cli.hc_cli_io_handler. cbn [negb]. rewrite Hset.
    destruct (cli_at_out_keeps
                (Cli.with_i0 (Cli.put Cli.Put_stline (default [] text) put_ret c)
                   (Cli.clear (Cli.i0 (Cli.put Cli.Put_stline (default [] text) put_ret c))
                      Cli.HC_CLI_F_RES_STLINE))) as (_ & _ & _ & _ & -> & _).
    simpl. apply cli_put_puts.
  - intros ->. subst c'. unfold Cli.hc_cli_io_handler. cbn [negb]. rewrite Hset.
    unfold Cli.at_out, Cli.put. simpl. by destruct (negb _).
  - apply cli_run_quiet. rewrite Hi. apply cli_has_clear.
Qed.

Lemma cli_status_line_is_not_retried_witness :
  Cli.puts (Cli.hc_cli_io_handler true (Some []) (-1) (Sample.cli 0x0f)) = [].
Proof.
  exact (proj1 (proj2 (cli_status_line_is_not_retried (Some []) (-1) (Sample.cli 0x0f) []
                         eq_refl))).
Defined.

(** ** A complete response in one run *)

(** The loop of the body state on data blocks that fit together. *)
Lemma body_loop_data ds : forall a,
  length (concat ds) <= b_room (hc_res_buf (hc a)) ->
  exists a',
    body_loop (map BlkData ds) a = (false, [], a') /\
    b_bytes (hc_res_buf (hc a')) = b_bytes (hc_res_buf (hc a)) ++ concat ds /\
    called a' = called a ++
      (if res_payload (hc_ops (hc a)) then replicate (length ds) CB_res_payload else []).
Proof.
  induction ds as [|d ds IH]; intros a Hroom.
  - exists a. simpl. rewrite !app_nil_r. split_and!; try done.
    by destruct (res_payload _); rewrite ?app_nil_r.
  - simpl in Hroom. rewrite length_app in Hroom. simpl.
    rewrite decide_False by lia.
    set (a1 := with_hc a (hc_with_res_buf (hc a) (b_putblk (hc_res_buf (hc a)) d))).
    destruct (called_call (res_payload (hc_ops (hc a1))) CB_res_payload a1)
      as (Hc & Hh & _).
    destruct (IH (call (res_payload (hc_ops (hc a1))) CB_res_payload a1))
      as (a' & Heq & Hb & Hcl).
    { rewrite Hh. revert Hroom. unfold b_room, b_data. simpl.
      rewrite length_app. lia. }
    exists a'. split; [exact Heq|]. rewrite Hb, Hcl, Hh, Hc. simpl.
    split; [by rewrite <- app_assoc|].
    destruct (res_payload (hc_ops (hc a))); simpl; by rewrite <- app_assoc.
Qed.

(** After the headers of a complete message whose remaining blocks are
    data that fits: the data is copied and the run ends. *)
Lemma body_or_end_delivers h m ds :
  htx_blks h = map BlkData ds ->
  htx_has h HTX_FL_EOM = true ->
  hb_htx (chn_buf (res m)) = Some h ->
  b_full (hc_res_buf (hc m)) = false ->
  length (concat ds) <= b_room (hc_res_buf (hc m)) ->
  (body_or_end h m).1 = Exit_end /\
  st0 (body_or_end h m).2 = HTTPCLIENT_S_RES_END /\
  response_fields (hc (body_or_end h m).2) = response_fields (hc m) /\
  b_bytes (hc_res_buf (hc (body_or_end h m).2))
    = b_bytes (hc_res_buf (hc m)) ++ concat ds /\
  called (body_or_end h m).2
    = called m ++
      (if res_payload (hc_ops (hc m)) then replicate (length ds) CB_res_payload else []) ++
      (if res_end (hc_ops (hc m)) then [CB_res_end] else []) /\
  hb_htx (chn_buf (res (body_or_end h m).2)) = Some (htx_with_blks h []) /\
  si_shutw_done (si (body_or_end h m).2) = true /\
  si_shutr_done (si (body_or_end h m).2) = true.
Proof.
  intros Hb Heom Hh Hfull Hroom.
  pose proof (body_or_end_fields h m) as Hf.
  assert (Hx : exists x,
            body_or_end h m = at_end x /\ st0 x = HTTPCLIENT_S_RES_END /\
            b_bytes (hc_res_buf (hc x)) = b_bytes (hc_res_buf (hc m)) ++ concat ds /\
            called x = called m ++
              (if res_payload (hc_ops (hc m))
               then replicate (length ds) CB_res_payload else []) /\
            hc_ops (hc x) = hc_ops (hc m) /\
            hb_htx (chn_buf (res x)) = Some (htx_with_blks h [])).
  { unfold body_or_end, eom_and_empty, htx_is_empty. rewrite Heom, Hb.
    destruct ds as [|d ds]; cbn [map].
    - rewrite bool_decide_eq_true_2 by done. cbn [andb]. unfold case_RES_END.
      exists (with_st0 m HTTPCLIENT_S_RES_END). simpl. rewrite !app_nil_r, Hh.
      split_and!; try done.
      + by destruct (res_payload _); rewrite ?app_nil_r.
      + f_equal. destruct h; simpl in *; by subst.
    - rewrite bool_decide_eq_false_2 by done. cbn [andb].
      unfold case_RES_BODY, htxbuf. cbn [res with_st0]. rewrite Hh.
      unfold htx_is_empty. rewrite Hb. cbn [map].
      rewrite bool_decide_eq_false_2 by done. cbn [hc with_st0]. rewrite Hfull.
      destruct (body_loop_data (d :: ds) (with_st0 m HTTPCLIENT_S_RES_BODY) Hroom)
        as (a' & Heq & Hbytes & Hcalled).
      cbn [map] in Heq. rewrite Heq, Heom. cbn [negb]. unfold case_RES_END.
      destruct (body_loop_spec _ _ _ _ _ Heq) as (_ & _ & _ & _ & _ & Hops & _).
      exists (with_st0 (res_with_blks a' h []) HTTPCLIENT_S_RES_END).
      split_and!; try done. }
  destruct Hx as (x & Hx & Hst & Hbytes & Hcalled & Hops & Hleft).
  rewrite Hx in Hf |- *.
  destruct (at_end_outcome x) as (O1 & O2 & O3 & O4 & O5 & O6 & O7 & O8).
  rewrite O3, O5, O6, O2, Hops. rewrite O2 in Hf.
  split_and!; try done. by rewrite Hcalled, <- app_assoc.
Qed.

(** The headers state on complete headers, every copy succeeding. *)
Lemma case_RES_HDR_complete a h hs rest :
  hb_data (chn_buf (res a)) <> 0 ->
  hb_htx (chn_buf (res a)) = Some h ->
  htx_blks h = map hdr_blk hs ++ BlkEoh :: rest ->
  allocs a = [] ->
  case_RES_HDR a
  = body_or_end (htx_with_blks h rest)
      (if decide (hs = []) then with_allocs (res_with_blks a h rest) []
       else call (res_headers (hc_ops (hc a))) CB_res_headers
              (with_hc (with_allocs (res_with_blks a h rest) [])
                 (hc_with_hdrs (hc a) (Some (stored_hdrs hs))))).
Proof.
  intros Hdata Hh Hb Hallocs.
  unfold case_RES_HDR, htxbuf. rewrite decide_False by done.
  rewrite Hh, Hb, Hallocs.
  destruct (hdr_loop_headers rest hs ∅ 0) as (H1 & H2 & H3 & H4 & H5 & H6).
  simpl in H3, H5, H6.
  set (r := hdr_loop (map hdr_blk hs ++ BlkEoh :: rest) ∅ 0 []) in *.
  clearbody r. rewrite H1, H2, H3, H4.
  destruct hs as [|nv hs].
  - reflexivity.
  - rewrite decide_False by (simpl; lia). rewrite (decide_False (P := nv :: hs = [])) by done.
    cbn [allocs with_allocs next_alloc negb]. cbv zeta.
    by rewrite (copy_hdrs_stored (hs_hdrs r) (nv :: hs) H5 H6).
Qed.

(** X22. A complete response is delivered in one run. When the handler
    is entered in the status-line state and the response channel holds a
    whole message (a response start line, headers, the end-of-headers
    block and data blocks, with the end-of-message flag), the copies
    succeed and the raw buffer is not full and has room for all the
    data, then this one run stores the status line and the headers,
    appends the payloads in order to the raw buffer, removes every block
    from the channel, calls the registered callbacks in order, with the
    payload callback once per data block and the headers callback only
    if there is a header, and leaves through [end] in the end state with
    both directions shut. *)
Theorem complete_response_is_delivered :
  forall (a : appctx) h sl hs ds,
    st0 a = HTTPCLIENT_S_RES_STLINE ->
    hb_data (chn_buf (res a)) <> 0 ->
    hb_htx (chn_buf (res a)) = Some h ->
    htx_blks h = BlkResSl sl :: map hdr_blk hs ++ BlkEoh :: map BlkData ds ->
    flagged (sl_flags sl) HTX_SL_F_IS_RESP = true ->
    htx_has h HTX_FL_EOM = true ->
    allocs a = [] ->
    b_full (hc_res_buf (hc a)) = false ->
    length (concat ds) <= b_room (hc_res_buf (hc a)) ->
    let r := httpclient_applet_io_handler a in
    r.1 = Exit_end /\
    st0 r.2 = HTTPCLIENT_S_RES_END /\
    response_fields (hc r.2)
      = (sl_info sl, Some (sl_p1 sl), Some (sl_p3 sl),
         if decide (hs = []) then hc_res_hdrs (hc a) else Some (stored_hdrs hs)) /\
    b_bytes (hc_res_buf (hc r.2)) = b_bytes (hc_res_buf (hc a)) ++ concat ds /\
    called r.2
      = called a ++
        run_calls (hc_ops (hc a)) true (negb (bool_decide (hs = []))) (length ds) true /\
    hb_htx (chn_buf (res r.2)) = Some (htx_with_blks h []) /\
    si_shutw_done (si r.2) = true /\ si_shutr_done (si r.2) = true.
Proof.
  intros a h sl hs ds Hst Hdata Hh Hb Hfl Heom Hal Hfull Hroom r. subst r.
  unfold httpclient_applet_io_handler. rewrite Hst.
  unfold case_RES_STLINE, htxbuf. rewrite decide_False by done.
  rewrite Hh, Hb, Hfl, Hal. cbn [negb istdup next_alloc]. cbv zeta.
  assert (Hne : eom_and_empty
                  (htx_with_blks h (map hdr_blk hs ++ BlkEoh :: map BlkData ds)) = false).
  { unfold eom_and_empty, htx_is_empty.
    rewrite bool_decide_eq_false_2; [done|]. simpl. by destruct hs. }
  rewrite Hne.
  set (a1 := with_allocs (with_hc a (hc_with_stline (hc a) (sl_info sl)
                                       (Some (sl_p1 sl)) (Some (sl_p3 sl)))) []).
  set (a2 := res_with_blks a1 h (map hdr_blk hs ++ BlkEoh :: map BlkData ds)).
  set (a3 := call (res_stline (hc_ops (hc a2))) CB_res_stline a2).
  assert (F1 : called a3 = called a ++
                 (if res_stline (hc_ops (hc a)) then [CB_res_stline] else [])).
  { subst a3. by destruct (called_call (res_stline (hc_ops (hc a2))) CB_res_stline a2)
      as (-> & _). }
  assert (F2 : hc a3 = hc_with_stline (hc a) (sl_info sl) (Some (sl_p1 sl))
                         (Some (sl_p3 sl))).
  { subst a3. by destruct (called_call (res_stline (hc_ops (hc a2))) CB_res_stline a2)
      as (_ & -> & _). }
  assert (F3 : hb_data (chn_buf (res a3)) = hb_data (chn_buf (res a)) /\
               hb_htx (chn_buf (res a3))
               = Some (htx_with_blks h (map hdr_blk hs ++ BlkEoh :: map BlkData ds)) /\
               allocs a3 = []).
  { subst a3. unfold call. by destruct (res_stline _). }
  destruct F3 as (F3 & F4 & F5). clearbody a3. clear a1 a2.
  rewrite (case_RES_HDR_complete (with_st0 a3 HTTPCLIENT_S_RES_HDR)
             (htx_with_blks h (map hdr_blk hs ++ BlkEoh :: map BlkData ds))
             hs (map BlkData ds));
    [| by cbn [res with_st0]; rewrite F3 | exact F4 | done | exact F5].
  cbn [hc res with_st0]. rewrite F2.
  set (m := if decide (hs = []) then _ else _).
  assert (G1 : hb_htx (chn_buf (res m))
               = Some (htx_with_blks
                         (htx_with_blks h (map hdr_blk hs ++ BlkEoh :: map BlkData ds))
                         (map BlkData ds))).
  { subst m. destruct (decide (hs = [])); [done|]. unfold call. by destruct (res_headers _). }
  assert (G2 : hc_ops (hc m) = hc_ops (hc a) /\
               hc_res_buf (hc m) = hc_res_buf (hc a) /\
               response_fields (hc m)
               = (sl_info sl, Some (sl_p1 sl), Some (sl_p3 sl),
                  if decide (hs = []) then hc_res_hdrs (hc a)
                  else Some (stored_hdrs hs)) /\
               called m = called a3 ++
                 (if negb (bool_decide (hs = [])) && res_headers (hc_ops (hc a))
                  then [CB_res_headers] else [])).
  { subst m. destruct (decide (hs = [])) as [Hhs|Hhs].
    - rewrite bool_decide_eq_true_2 by done. simpl. rewrite F2, app_nil_r. done.
    - rewrite bool_decide_eq_false_2 by done.
      match goal with |- context [call ?b ?cb ?x] =>
        destruct (called_call b cb x) as (-> & -> & _)
      end. done. }
  destruct G2 as (G2 & G3 & G4 & G5). clearbody m.
  destruct (body_or_end_delivers
              (htx_with_blks (htx_with_blks h (map hdr_blk hs ++ BlkEoh :: map BlkData ds))
                 (map BlkData ds)) m ds)
    as (D1 & D2 & D3 & D4 & D5 & D6 & D7 & D8);
    [done | exact Heom | exact G1 | by rewrite G3 | by rewrite G3 |].
  rewrite D3, D4, D5, G2, G3, G4, G5, F1. unfold run_calls.
  split_and!; try done. cbn [andb]. by rewrite <- !app_assoc.
Qed.

Lemma complete_response_is_delivered_witness :
  b_bytes (hc_res_buf (hc (httpclient_applet_io_handler (Sample.complete 8)).2))
  = [x68; x65; x6c; x6c; x6f; x0a] /\
  called (httpclient_applet_io_handler (Sample.complete 8)).2
  = [CB_res_stline; CB_res_headers; CB_res_payload; CB_res_payload; CB_res_end].
Proof.
  pose proof (complete_response_is_delivered (Sample.complete 8) Sample.complete_htx
                {| sl_flags := HTX_SL_F_IS_RESP; sl_info := 200;
                   sl_p1 := "HTTP/1.1"; sl_p2 := "200"; sl_p3 := "OK" |}
                [("content-type", "text/plain"); ("server", "example")]
                [[x68; x65; x6c; x6c]; [x6f; x0a]]
                eq_refl ltac:(discriminate) eq_refl eq_refl eq_refl eq_refl eq_refl
                eq_refl ltac:(vm_compute; lia)) as (_ & _ & _ & Hb & Hc & _).
  split; [exact Hb | exact Hc].
Defined.
